(** * statcast: shape and label bookkeeping of the estimator adapter
      ([statcast/better/mixed.py]) and of the plotting helpers
      ([statcast/tools/plot.py]).

    The numerical work of the package is done by lme4, scikit-learn, pandas
    and matplotlib.  The development below embeds the Python glue code
    itself: attribute updates, length reconciliation, validation guards,
    figure allocation and the order of the library calls.  Library routines
    appear as operations of an interface ([Mixed.Externals],
    [Plot.Metrics], [Plot.Imaging]) or as symbolic terms ([Plot.term]);
    floating-point contents are never inspected. *)

From stdpp Require Import gmap strings list sorting.

Open Scope string_scope.
Open Scope list_scope.
Open Scope nat_scope.

(** ** Python values, exceptions and the state-and-exception monad *)

Module Py.

Inductive exn_kind :=
| RuntimeError | TypeError | KeyError | IndexError | AttributeError
| UnboundLocalError | NotFittedError | Exception | LibraryError.

(** Arguments handed to [str.format]. *)
Inductive fmt_arg :=
| FNat (n : nat)
| FShape (s : list nat).

(** An exception: its class, the message template and the values that
    [format] substitutes for the [{}] holes. *)
Record exn := Exn {
  kind : exn_kind;
  template : string;
  fmt_args : list fmt_arg
}.

Inductive result (A : Type) :=
| Ok (a : A)
| Raise (e : exn).
Arguments Ok {A} a.
Arguments Raise {A} e.

Definition raises {A} (r : result A) : bool :=
  match r with Ok _ => false | Raise _ => true end.

(** Computations over a mutable store [S].  An exception leaves the store
    as it was when the exception was raised. *)
Definition M (S A : Type) : Type := S → result A * S.

Definition ret {S A} (a : A) : M S A := λ s, (Ok a, s).
Definition raise {S A} (e : exn) : M S A := λ s, (Raise e, s).
Definition bind {S A B} (m : M S A) (k : A → M S B) : M S B :=
  λ s, match m s with
       | (Ok a, s') => k a s'
       | (Raise e, s') => (Raise e, s')
       end.
Definition get {S} : M S S := λ s, (Ok s, s).
Definition put {S} (s : S) : M S unit := λ _, (Ok (), s).
Definition modify {S} (f : S → S) : M S unit := λ s, (Ok (), f s).
Definition lift {S A} (r : result A) : M S A := λ s, (r, s).

(** A value of the kinds the estimator's label and formula attributes
    take: [None], a string, a tuple of strings or a list of strings. *)
Inductive pyval :=
| PNone
| PStr (s : string)
| PTuple (l : list string)
| PList (l : list string).

#[global] Instance pyval_eq_dec : EqDecision pyval.
Proof. solve_decision. Defined.

(** [None], or an empty string, tuple or list. *)
Definition undefined_or_empty (v : pyval) : Prop :=
  v = PNone ∨ v = PStr "" ∨ v = PTuple [] ∨ v = PList [].

#[global] Instance undefined_or_empty_dec v : Decision (undefined_or_empty v).
Proof. unfold undefined_or_empty. apply _. Defined.

(** [bool(v)]. *)
Definition truthy (v : pyval) : bool :=
  match v with
  | PNone => false
  | PStr s => negb (String.eqb s "")
  | PTuple l | PList l => negb (Nat.eqb (length l) 0)
  end.

(** [any(vs)]. *)
Definition py_any (vs : list pyval) : bool := existsb truthy vs.

(** [isinstance(v, str)]. *)
Definition is_str (v : pyval) : bool :=
  match v with PStr _ => true | _ => false end.

(** [len(v)]; [None] has no length. *)
Definition py_len (v : pyval) : result nat :=
  match v with
  | PNone => Raise (Exn TypeError "object of type 'NoneType' has no len()" [])
  | PStr s => Ok (String.length s)
  | PTuple l | PList l => Ok (length l)
  end.

(** The characters of a string, as one-character strings. *)
Fixpoint chars (s : string) : list string :=
  match s with
  | EmptyString => []
  | String c s' => String c EmptyString :: chars s'
  end.

(** The elements [for x in v] visits. *)
Definition py_iter (v : pyval) : result (list string) :=
  match v with
  | PNone => Raise (Exn TypeError "'NoneType' object is not iterable" [])
  | PStr s => Ok (chars s)
  | PTuple l | PList l => Ok l
  end.

(** [v[i]]. *)
Definition py_getitem (v : pyval) (i : nat) : result string :=
  match v with
  | PNone => Raise (Exn TypeError "'NoneType' object is not subscriptable" [])
  | PStr s =>
      match chars s !! i with
      | Some c => Ok c
      | None => Raise (Exn IndexError "string index out of range" [])
      end
  | PTuple l =>
      match l !! i with
      | Some x => Ok x
      | None => Raise (Exn IndexError "tuple index out of range" [])
      end
  | PList l =>
      match l !! i with
      | Some x => Ok x
      | None => Raise (Exn IndexError "list index out of range" [])
      end
  end.

Fixpoint repeat_string (n : nat) (s : string) : string :=
  match n with
  | O => ""
  | S n' => s +:+ repeat_string n' s
  end.

(** [v * n]: sequence repetition. *)
Definition py_mul (v : pyval) (n : nat) : result pyval :=
  match v with
  | PNone =>
      Raise (Exn TypeError "unsupported operand type(s) for *" [])
  | PStr s => Ok (PStr (repeat_string n s))
  | PTuple l => Ok (PTuple (mjoin (replicate n l)))
  | PList l => Ok (PList (mjoin (replicate n l)))
  end.

(** *** Loops *)

(** [for x in xs: body(x)]. *)
Fixpoint for_each {S A} (xs : list A) (body : A → M S unit) : M S unit :=
  match xs with
  | [] => ret ()
  | x :: xs' => bind (body x) (λ _, for_each xs' body)
  end.

(** [enumerate(xs)], counting from [i]. *)
Fixpoint enumerate_from {A} (i : nat) (xs : list A) : list (nat * A) :=
  match xs with
  | [] => []
  | x :: xs' => (i, x) :: enumerate_from (S i) xs'
  end.

Definition enumerate {A} (xs : list A) : list (nat * A) := enumerate_from 0 xs.

End Py.

Declare Scope py_scope.
Delimit Scope py_scope with py.
Notation "'let*' x := c 'in' k" := (Py.bind c (λ x, k))
  (at level 10, x pattern, c at level 100, k at level 200) : py_scope.
Notation "c ;;; k" := (Py.bind c (λ _, k))
  (at level 100, k at level 200, right associativity) : py_scope.
Open Scope py_scope.

(** ** The mixed-model estimator: [statcast/better/mixed.py] *)

Module Mixed.
Import Py.

(** The kinds of object that live on the library side. *)
Class Foreign := {
  pvalue : Type;   (** Python-side data: a column, a converted R object *)
  rvalue : Type;   (** an R object *)
  model : Type;    (** a fitted [merMod] handle *)
  kwargs : Type;   (** the keyword dictionary [LME4Params] *)
  ndarray : Type;  (** the array-like argument of [predict] *)
  cvspec : Type;   (** a cross-validation splitter *)
  cvres : Type     (** the [cv_results_] of one search *)
}.

Section estimator.
Context `{Foreign}.

(** A [DataFrame]: its columns in order, by label. *)
Definition DataFrame : Type := list (string * pvalue).

Definition df_columns (d : DataFrame) : list string := d.*1.

(** [d[k] = v]: an existing column is replaced where it stands, a new
    one is appended. *)
Fixpoint df_setitem (d : DataFrame) (k : string) (v : pvalue) : DataFrame :=
  match d with
  | [] => [(k, v)]
  | (k', v') :: d' =>
      if decide (k' = k) then (k, v) :: d' else (k', v') :: df_setitem d' k v
  end.

(** One entry of a [factors_] dictionary: a random effect converted by
    [ri2py], or a fixed effect kept as the R object. *)
Inductive effect :=
| RandomEffect (e : pvalue)
| FixedEffect (e : rvalue).

(** The attributes of a [BetterLME4] instance.  [None] in the last
    three fields is an attribute that has not been assigned. *)
Record BetterLME4 := {
  xLabels : pyval;
  yLabels : pyval;
  formulas : pyval;
  LME4Params : kwargs;
  models_ : option (gmap string model);
  factors_ : option (gmap string (gmap string effect));
  cv_results_ : option (list cvres)
}.

Definition set_yLabels (v : pyval) (e : BetterLME4) : BetterLME4 :=
  {| xLabels := xLabels e; yLabels := v; formulas := formulas e;
     LME4Params := LME4Params e; models_ := models_ e;
     factors_ := factors_ e; cv_results_ := cv_results_ e |}.
Definition set_formulas (v : pyval) (e : BetterLME4) : BetterLME4 :=
  {| xLabels := xLabels e; yLabels := yLabels e; formulas := v;
     LME4Params := LME4Params e; models_ := models_ e;
     factors_ := factors_ e; cv_results_ := cv_results_ e |}.
Definition set_models (v : option (gmap string model)) (e : BetterLME4)
  : BetterLME4 :=
  {| xLabels := xLabels e; yLabels := yLabels e; formulas := formulas e;
     LME4Params := LME4Params e; models_ := v;
     factors_ := factors_ e; cv_results_ := cv_results_ e |}.
Definition set_factors (v : option (gmap string (gmap string effect)))
  (e : BetterLME4) : BetterLME4 :=
  {| xLabels := xLabels e; yLabels := yLabels e; formulas := formulas e;
     LME4Params := LME4Params e; models_ := models_ e;
     factors_ := v; cv_results_ := cv_results_ e |}.
Definition set_cv_results (v : option (list cvres)) (e : BetterLME4)
  : BetterLME4 :=
  {| xLabels := xLabels e; yLabels := yLabels e; formulas := formulas e;
     LME4Params := LME4Params e; models_ := models_ e;
     factors_ := factors_ e; cv_results_ := v |}.

(** The library routines the estimator calls.  Each may raise; none
    assigns an attribute of the estimator it is handed.
    [createY] belongs to the base class [BetterModel] and
    [GridSearchCV] to [statcast.better.spark]; both are taken as given.
    [GridSearchCV_fit est grid n_jobs cv X Y] stands for
    [GridSearchCV(est, grid, n_jobs=n_jobs, cv=cv, refit=False).fit(X, Y)]
    and yields [best_params_['formulas']] and [cv_results_]. *)
Class Externals := {
  df_getitem : DataFrame → pyval → result DataFrame;
  categorical_to_plain : DataFrame → string → result DataFrame;
  createY : BetterLME4 → DataFrame → result DataFrame;
  check_X_y : DataFrame → DataFrame → result unit;
  check_array : DataFrame → result unit;
  check_array_nd : ndarray → result unit;
  pd_DataFrame : ndarray → pyval → result DataFrame;
  df_column : DataFrame → string → result DataFrame;
  pd_concat : DataFrame → DataFrame → result DataFrame;
  lmer : string → DataFrame → kwargs → result model;
  random_effects : model → result (list (string * rvalue));
  fixed_effects : model → result (list (string * rvalue));
  ri2py : rvalue → pvalue;
  predict_merMod : model → DataFrame → result rvalue;
  GridSearchCV_fit :
    BetterLME4 → pyval → Z → option cvspec → DataFrame → DataFrame →
    result (string * cvres)
}.

(** A call that leaves the Python side. *)
Inductive call :=
| CallLmer (formula : string) (data : DataFrame) (kw : kwargs)
| CallGridSearch (est : BetterLME4) (param_grid : pyval) (n_jobs : Z)
    (cv : option cvspec) (refit : bool).

(** The store: the estimator object and the calls made so far, oldest
    first. *)
Record world := World {
  self : BetterLME4;
  calls : list call
}.

Definition get_self : M world BetterLME4 := λ w, (Ok (self w), w).
Definition update_self (f : BetterLME4 → BetterLME4) : M world unit :=
  λ w, (Ok (), World (f (self w)) (calls w)).
Definition log (c : call) : M world unit :=
  λ w, (Ok (), World (self w) (calls w ++ [c])).

Context `{Externals}.

(** [createX]: [data[self.xLabels].copy()], then one pass over the labels.
    [categorical_to_plain X xLabel] is the loop body: the test of the
    column's [dtype] against [CategoricalDtype()] and the conversion that
    depends on it, both of them pandas's. *)
Fixpoint createX_loop (X : DataFrame) (xs : list string) : M world DataFrame :=
  match xs with
  | [] => ret X
  | x :: xs' =>
      let* X' := lift (categorical_to_plain X x) in
      createX_loop X' xs'
  end.

Definition createX (data : DataFrame) : M world DataFrame :=
  let* s := get_self in
  let* X := lift (df_getitem data (xLabels s)) in
  let* s := get_self in
  let* xs := lift (py_iter (xLabels s)) in
  createX_loop X xs.

(** [_factor]: the random effects, converted, then the fixed effects, in
    one dictionary; a later name overwrites an earlier one. *)
Definition _factor (m : model) : result (gmap string effect) :=
  match random_effects m with
  | Raise e => Raise e
  | Ok rEffs =>
      match fixed_effects m with
      | Raise e => Raise e
      | Ok fEffs =>
          let factor : gmap string effect := ∅ in
          let factor :=
            foldl (λ d '(name, elem), <[name := RandomEffect (ri2py elem)]> d)
                  factor rEffs in
          let factor :=
            foldl (λ d '(name, elem), <[name := FixedEffect elem]> d)
                  factor fEffs in
          Ok factor
      end
  end.

Definition guard_message : string :=
  "betterLME must have xLabels, yLabels, and formulas defined".

Definition length_message : string :=
  "formulas must be a single string, or a tuple the same length as yLabels".

(** Lines 38-40 of [fitD]. *)
Definition fitD_guard : M world unit :=
  let* s := get_self in
  if negb (py_any [xLabels s; yLabels s; formulas s])
  then raise (Exn RuntimeError guard_message [])
  else ret ().

(** What lines 41-42 make of [self.formulas]. *)
Definition wrapped (v : pyval) : pyval :=
  match v with
  | PStr f => PTuple [f]
  | _ => v
  end.

(** Lines 41-42. *)
Definition fitD_wrap : M world unit :=
  let* s := get_self in
  match formulas s with
  | PStr f => update_self (set_formulas (PTuple [f]))
  | _ => ret ()
  end.

(** Lines 43-48. *)
Definition fitD_reconcile : M world unit :=
  let* s := get_self in
  let* nf := lift (py_len (formulas s)) in
  let* ny := lift (py_len (yLabels s)) in
  if negb (Nat.eqb nf ny) then
    if Nat.eqb nf 1 then
      let* fs := lift (py_mul (formulas s) ny) in
      update_self (set_formulas fs)
    else raise (Exn RuntimeError length_message [])
  else ret ().

Definition no_attribute (name : string) : exn :=
  Exn AttributeError ("'BetterLME4' object has no attribute " +:+ name) [].

(** [self.models_[yLabel] = model]. *)
Definition setitem_models (y : string) (m : model) : M world unit :=
  let* s := get_self in
  match models_ s with
  | Some d => update_self (set_models (Some (<[y := m]> d)))
  | None => raise (no_attribute "models_")
  end.

(** [self.factors_[yLabel] = factor]. *)
Definition setitem_factors (y : string) (f : gmap string effect)
  : M world unit :=
  let* s := get_self in
  match factors_ s with
  | Some d => update_self (set_factors (Some (<[y := f]> d)))
  | None => raise (no_attribute "factors_")
  end.

(** The body of the loop of lines 53-60. *)
Definition fitD_fit_one (X Y : DataFrame) (iy : nat * string) : M world unit :=
  let '(ii, yLabel) := iy in
  let* Ycol := lift (df_column Y yLabel) in
  let* subData := lift (pd_concat X Ycol) in
  let* s := get_self in
  let* f := lift (py_getitem (formulas s) ii) in
  let formula := yLabel +:+ " ~ " +:+ f in
  let* s := get_self in
  log (CallLmer formula subData (LME4Params s)) ;;;
  let* model := lift (lmer formula subData (LME4Params s)) in
  setitem_models yLabel model ;;;
  let* factor := lift (_factor model) in
  setitem_factors yLabel factor.

(** Lines 49-62. *)
Definition fitD_models (data : DataFrame) : M world unit :=
  let* X := createX data in
  let* s := get_self in
  let* Y := lift (createY s data) in
  lift (check_X_y X Y) ;;;
  update_self (set_models (Some ∅)) ;;;
  update_self (set_factors (Some ∅)) ;;;
  let* s := get_self in
  let* ys := lift (py_iter (yLabels s)) in
  for_each (enumerate ys) (fitD_fit_one X Y).

Definition fitD (data : DataFrame) : M world unit :=
  fitD_guard ;;;
  fitD_wrap ;;;
  fitD_reconcile ;;;
  fitD_models data.

(** [check_is_fitted(self, ['models_', 'factors_'])]. *)
Definition check_is_fitted : M world unit :=
  let* s := get_self in
  match models_ s, factors_ s with
  | Some _, Some _ => ret ()
  | _, _ => raise (Exn NotFittedError "This BetterLME4 instance is not fitted yet" [])
  end.

(** [self.models_[yLabel]]. *)
Definition getitem_models (y : string) : M world model :=
  let* s := get_self in
  match models_ s with
  | None => raise (no_attribute "models_")
  | Some d =>
      match d !! y with
      | Some m => ret m
      | None => raise (Exn KeyError y [])
      end
  end.

(** The loop of lines 99-103, threading the frame [Y] under construction. *)
Fixpoint predictD_loop (X Y : DataFrame) (ys : list string)
  : M world DataFrame :=
  match ys with
  | [] => ret Y
  | yLabel :: ys' =>
      let* m := getitem_models yLabel in
      let* r := lift (predict_merMod m X) in
      predictD_loop X (df_setitem Y yLabel (ri2py r)) ys'
  end.

Definition predictD (data : DataFrame) : M world DataFrame :=
  check_is_fitted ;;;
  let* X := createX data in
  lift (check_array X) ;;;
  let Y : DataFrame := [] in
  let* s := get_self in
  let* ys := lift (py_iter (yLabels s)) in
  predictD_loop X Y ys.

Definition predict (X : ndarray) : M world DataFrame :=
  lift (check_array_nd X) ;;;
  let* s := get_self in
  let* data := lift (pd_DataFrame X (xLabels s)) in
  predictD data.

(** [self.cv_results_.append(r)]. *)
Definition append_cv_results (r : cvres) : M world unit :=
  let* s := get_self in
  match cv_results_ s with
  | Some l => update_self (set_cv_results (Some (l ++ [r])))
  | None => raise (no_attribute "cv_results_")
  end.

(** The loop of lines 128-135, threading the list [formulaChoices].  The
    search object is constructed, and so receives [n_jobs] and [cv],
    before the arguments of [fit] are evaluated. *)
Fixpoint chooseFormula_loop (data : DataFrame) (grid : pyval) (n_jobs : Z)
    (cv : option cvspec) (ys : list string) (formulaChoices : list string)
  : M world (list string) :=
  match ys with
  | [] => ret formulaChoices
  | yLabel :: ys' =>
      update_self (set_yLabels (PList [yLabel])) ;;;
      let* est := get_self in
      log (CallGridSearch est grid n_jobs cv false) ;;;
      let* X := createX data in
      let* s := get_self in
      let* Y := lift (createY s data) in
      let* res := lift (GridSearchCV_fit est grid n_jobs cv X Y) in
      append_cv_results res.2 ;;;
      chooseFormula_loop data grid n_jobs cv ys' (formulaChoices ++ [res.1])
  end.

(** Lines 124-135: everything up to the end of the per-response loop.
    Yields the saved [yLabels] and the chosen formulas. *)
Definition chooseFormula_search (data : DataFrame) (formulas : pyval)
    (n_jobs : Z) (cv : option cvspec) : M world (pyval * list string) :=
  update_self (set_cv_results (Some [])) ;;;
  let* s := get_self in
  let yLabels0 := yLabels s in
  let* ys := lift (py_iter yLabels0) in
  let* formulaChoices := chooseFormula_loop data formulas n_jobs cv ys [] in
  ret (yLabels0, formulaChoices).

Definition chooseFormula (data : DataFrame) (formulas : pyval)
    (n_jobs : Z) (cv : option cvspec) (refit : bool) : M world unit :=
  let* (yLabels0, formulaChoices) :=
    chooseFormula_search data formulas n_jobs cv in
  update_self (set_formulas (PList formulaChoices)) ;;;
  update_self (set_yLabels yLabels0) ;;;
  if refit then fitD data else ret ().

(** The formulas handed to [lmer] and the search constructions, as they
    appear in a list of calls. *)
Definition lmer_formulas (cs : list call) : list string :=
  omap (λ c, match c with CallLmer f _ _ => Some f | _ => None end) cs.

Definition searches (cs : list call)
  : list (pyval * pyval * Z * option cvspec * bool) :=
  omap (λ c, match c with
             | CallGridSearch est g n cv r => Some (yLabels est, g, n, cv, r)
             | _ => None
             end) cs.

(** The attributes that fitting and predicting read but never assign. *)
Definition same_config (a b : BetterLME4) : Prop :=
  xLabels a = xLabels b ∧ yLabels a = yLabels b ∧ formulas a = formulas b ∧
  LME4Params a = LME4Params b ∧ cv_results_ a = cv_results_ b.

(** What a run [r] of the fitting loop over the responses [ys], started in
    [w] with the formula [f] for each of them, leaves behind: the
    configuration of [w], and calls to [lmer] that follow [ys] in order,
    each with the formula [yLabel ~ f]; all of them when the run returns. *)
Definition fits_follow (w : world) (f : string) (ys : list string)
    (r : result unit * world) : Prop :=
  same_config (self r.2) (self w) ∧
  ∃ new, calls r.2 = calls w ++ new ∧
    lmer_formulas new `prefix_of` ((λ y, y +:+ " ~ " +:+ f) <$> ys) ∧
    (r.1 = Ok () → lmer_formulas new = (λ y, y +:+ " ~ " +:+ f) <$> ys).

(** The search [chooseFormula] constructs for the response [yLabel]: the
    estimator narrowed to that response, the grid, [n_jobs] and [cv] as
    they were passed in, and [refit=False]. *)
Definition expected_search (grid : pyval) (n_jobs : Z) (cv : option cvspec)
    (yLabel : string) : pyval * pyval * Z * option cvspec * bool :=
  (PList [yLabel], grid, n_jobs, cv, false).

(** [w'] is [w] with the same label attributes and, possibly, more calls,
    none of which constructs a search. *)
Definition labels_kept (w w' : world) : Prop :=
  xLabels (self w') = xLabels (self w) ∧
  yLabels (self w') = yLabels (self w) ∧
  ∃ new, calls w' = calls w ++ new ∧ searches new = [].

(** What a run [r] of the search loop over the responses [ys], started in
    [w], has sent out: searches that follow [ys] in order, each as
    [expected_search] describes; all of them when the run returns. *)
Definition searches_follow {A} (w : world) (grid : pyval) (n_jobs : Z)
    (cv : option cvspec) (ys : list string) (r : result A * world) : Prop :=
  ∃ new, calls r.2 = calls w ++ new ∧
    searches new `prefix_of` (expected_search grid n_jobs cv <$> ys) ∧
    (raises r.1 = false →
     searches new = expected_search grid n_jobs cv <$> ys).

(** [c] is what [predictD] stores for the response [yLabel]: the converted
    prediction of the model fitted for it. *)
Definition is_prediction (ms : gmap string model) (X : DataFrame)
    (yLabel : string) (c : pvalue) : Prop :=
  ∃ m r, ms !! yLabel = Some m ∧ predict_merMod m X = Ok r ∧ c = ri2py r.

(** What a run [r] of the fitting loop over the responses [ys], started in
    [w] with the formula [fs[i]] for the [i]-th of them, leaves behind: the
    configuration of [w], and calls to [lmer] that follow [ys] in order,
    the [i]-th with the formula [ys[i] ~ fs[i]]; all of them when the run
    returns. *)
Definition fits_follow_each (w : world) (fs ys : list string)
    (r : result unit * world) : Prop :=
  same_config (self r.2) (self w) ∧
  ∃ new, calls r.2 = calls w ++ new ∧
    lmer_formulas new
      `prefix_of` zip_with (λ y f, y +:+ " ~ " +:+ f) ys fs ∧
    (r.1 = Ok () →
     lmer_formulas new = zip_with (λ y f, y +:+ " ~ " +:+ f) ys fs).

(** [w'] is [w] but for [formulas], [models_] and [factors_], with,
    possibly, more calls, none of which constructs a search. *)
Definition only_fitted (w w' : world) : Prop :=
  xLabels (self w') = xLabels (self w) ∧
  yLabels (self w') = yLabels (self w) ∧
  LME4Params (self w') = LME4Params (self w) ∧
  cv_results_ (self w') = cv_results_ (self w) ∧
  ∃ new, calls w' = calls w ++ new ∧ searches new = [].

(** [w'] is [w] but for [yLabels] and [cv_results_], with, possibly, more
    calls, none of them to [lmer]. *)
Definition only_searched (w w' : world) : Prop :=
  xLabels (self w') = xLabels (self w) ∧
  formulas (self w') = formulas (self w) ∧
  LME4Params (self w') = LME4Params (self w) ∧
  models_ (self w') = models_ (self w) ∧
  factors_ (self w') = factors_ (self w) ∧
  ∃ new, calls w' = calls w ++ new ∧ lmer_formulas new = [].

(** [w'] is [w] but for [models_] and [factors_], with, possibly, more
    calls, none of which constructs a search. *)
Definition only_models (w w' : world) : Prop :=
  same_config (self w') (self w) ∧
  ∃ new, calls w' = calls w ++ new ∧ searches new = [].

(** The estimator the loop of [chooseFormula] hands to [createY] and to
    [GridSearchCV] for the response [y]: that of [w] with [yLabels]
    narrowed to [y]; [cv_results_] holds the results of the searches
    before it. *)
Definition narrowed (w : world) (y : string) (s : BetterLME4) : Prop :=
  xLabels s = xLabels (self w) ∧
  yLabels s = PList [y] ∧
  formulas s = formulas (self w) ∧
  LME4Params s = LME4Params (self w) ∧
  models_ s = models_ (self w) ∧
  factors_ s = factors_ (self w).

(** The library calls of the loop of [chooseFormula] return: for each
    response in [ys], [createY] returns on the narrowed estimator, and the
    search fitted to [X] and to what [createY] returned gives a result. *)
Definition searches_return (data : DataFrame) (grid : pyval) (n_jobs : Z)
    (cv : option cvspec) (X : DataFrame) (w : world) (ys : list string)
  : Prop :=
  ∀ y s, y ∈ ys → narrowed w y s →
    ∃ Y res, createY s data = Ok Y ∧
             GridSearchCV_fit s grid n_jobs cv X Y = Ok res.

(** [w1] is [w] in the course of the loop of [chooseFormula]: but for
    [yLabels] and [cv_results_], which is assigned, the attributes are
    those of [w]. *)
Definition searching (w w1 : world) : Prop :=
  xLabels (self w1) = xLabels (self w) ∧
  formulas (self w1) = formulas (self w) ∧
  LME4Params (self w1) = LME4Params (self w) ∧
  models_ (self w1) = models_ (self w) ∧
  factors_ (self w1) = factors_ (self w) ∧
  is_Some (cv_results_ (self w1)).

End estimator.
End Mixed.

(** ** The plotting helpers: [statcast/tools/plot.py] *)

Module Plot.
Import Py.

(** How a numerical value was obtained from the arguments of a call.  The
    numbers themselves stay with NumPy, SciPy and scikit-learn. *)
Inductive term :=
| Arg (name : string)            (** an argument of the call *)
| Values (t : term)              (** [t.values] *)
| NewAxis (t : term)             (** [t[:, None]] *)
| Transpose (t : term)           (** [t.T] *)
| Item (t : term) (i : nat)      (** the [i]-th element visited by [for _ in t] *)
| Column (t : term) (i : nat)    (** [t[:, i]] *)
| Minus (u v : term)             (** [u - v] *)
| Equals (t : term) (k : Z)      (** [t == k] *)
| OneHot (t : term) (ks : list Z) (** [np.array([t == k for k in ks])] *)
| Ravel (t : term)               (** [t.ravel()] *)
| Precision (y p : term)         (** first curve of [precision_recall_curve] *)
| Recall (y p : term)            (** second curve of [precision_recall_curve] *)
| Times100 (t : term).           (** [t * 100] *)

(** An array-like argument, as far as the helpers look at it: where it
    comes from, its [shape], its [columns] (only a [DataFrame] has the
    attribute), its [cat.categories] (only a categorical [Series] has the
    accessor) and, for an array of class codes, its flattened entries. *)
Record ndarray := NDArray {
  term_of : term;
  shape : list nat;
  columns : option (list string);
  categories : option (list Z);
  entries : list Z
}.

(** A reference to an array object: its identity and what it holds. *)
Record ref := Ref {
  oid : nat;
  deref : ndarray
}.

Definition ndim (a : ndarray) : nat := length (shape a).

(** [isinstance(a, pd.DataFrame)]. *)
Definition is_DataFrame (a : ndarray) : bool :=
  match columns a with Some _ => true | None => false end.

Definition tuple_index_error : exn :=
  Exn IndexError "tuple index out of range" [].

(** [a.shape[i]]. *)
Definition shape_at (a : ndarray) (i : nat) : result nat :=
  match shape a !! i with
  | Some n => Ok n
  | None => Raise tuple_index_error
  end.

(** [a.values]. *)
Definition values (a : ndarray) : ndarray :=
  NDArray (Values (term_of a)) (shape a) None (categories a) (entries a).

(** [a[:, None]]. *)
Definition new_axis (a : ndarray) : result ndarray :=
  match shape a with
  | n :: rest =>
      Ok (NDArray (NewAxis (term_of a)) (n :: 1 :: rest) None
                  (categories a) (entries a))
  | [] => Raise (Exn IndexError "too many indices for array" [])
  end.

(** [a.T], for an array; the flattened entries are not followed through a
    transposition. *)
Definition transpose (a : ndarray) : ndarray :=
  NDArray (Transpose (term_of a)) (rev (shape a)) None (categories a) [].

(** The elements [for _ in a] visits. *)
Definition items (a : ndarray) : result (list ndarray) :=
  match shape a with
  | n :: rest =>
      Ok (map (λ i, NDArray (Item (term_of a) i) rest None None []) (seq 0 n))
  | [] => Raise (Exn TypeError "iteration over a 0-d array" [])
  end.

(** [a[:, i]].  NumPy takes the [i]-th column of an array of two or more
    dimensions.  A [DataFrame] takes the pair for a column label and
    raises (a [TypeError] or an [InvalidIndexError], with the version of
    pandas). *)
Definition getcol (a : ndarray) (i : nat) : result term :=
  match columns a with
  | Some _ =>
      Raise (Exn LibraryError "(slice(None, None, None), {}) is not a column"
                 [FNat i])
  | None =>
      match shape a with
      | _ :: c :: _ =>
          if decide (i < c) then Ok (Column (term_of a) i)
          else Raise (Exn IndexError "index {} is out of bounds" [FNat i])
      | _ => Raise (Exn IndexError "too many indices for array" [])
      end
  end.

(** [np.unique]: the distinct entries, ascending. *)
Fixpoint insert_unique (x : Z) (l : list Z) : list Z :=
  match l with
  | [] => [x]
  | y :: l' =>
      if (x <? y)%Z then x :: y :: l'
      else if (x =? y)%Z then y :: l'
      else y :: insert_unique x l'
  end.

Definition np_unique (l : list Z) : list Z := foldr insert_unique [] l.

(** What [classes] is bound to in [plotPrecRecMN]: the list that [sorted]
    builds, or the array that [np.unique] returns. *)
Inductive classes :=
| ClassList (l : list Z)
| ClassArray (l : list Z).

Definition class_values (c : classes) : list Z :=
  match c with ClassList l | ClassArray l => l end.

(** [classes.shape[0]]; a list has no [shape]. *)
Definition classes_shape0 (c : classes) : result nat :=
  match c with
  | ClassArray l => Ok (length l)
  | ClassList _ =>
      Raise (Exn AttributeError "'list' object has no attribute 'shape'" [])
  end.

(** *** Figures, axes and what is drawn *)

Record axes := Axes {
  ax_id : nat;
  ax_figure : nat
}.

Inductive label :=
| LStr (s : string)
| LClass (k : Z).

Inductive artist :=
| Line (x y : term) (fmt : option string) (lbl : option label)
| XLabel (s : string)
| YLabel (s : string)
| Title (s : string)
| XLim (lo hi : Z)
| YLim (lo hi : Z)
| SquareLimits                       (** lines 77-80 of [correlationPlot] *)
| Diagonal                           (** lines 81-82 *)
| TextBox (names : list string) (y yp : term) (loc : string)
| Legend.

(** The state of the interpreter that the helpers touch: the next free
    object identity, the figures created so far (oldest first) and what
    has been drawn on which axes (oldest first). *)
Record pyplot := PyPlot {
  next_oid : nat;
  figures : list nat;
  drawn : list (axes * artist)
}.

(** What a helper hands back: a figure or an axes object. *)
Inductive handle :=
| HFigure (fig : nat)
| HAxes (ax : axes).

(** Any constructor call: a new object, with an identity no existing
    object has. *)
Definition new_object : M pyplot nat :=
  λ st, (Ok (next_oid st),
         PyPlot (S (next_oid st)) (figures st) (drawn st)).

(** [plt.figure(...)]. *)
Definition plt_figure : M pyplot nat :=
  let* fig := new_object in
  modify (λ st, PyPlot (next_oid st) (figures st ++ [fig]) (drawn st)) ;;;
  ret fig.

(** [fig.add_subplot(...)]. *)
Definition add_subplot (fig : nat) : M pyplot axes :=
  let* i := new_object in
  ret (Axes i fig).

(** Any drawing method of an axes object. *)
Definition draw (ax : axes) (a : artist) : M pyplot unit :=
  modify (λ st, PyPlot (next_oid st) (figures st) (drawn st ++ [(ax, a)])).

(** [x is y] on object identities. *)
Definition py_is (x y : nat) : bool := Nat.eqb x y.

Definition exception (msg : string) (args : list fmt_arg) : exn :=
  Exn Exception msg args.

(** [addText]. *)
Definition addText (ax : axes) (names : list string) (y yp : term)
    (loc : string) : M pyplot unit :=
  draw ax (TextBox names y yp loc).

(** *** [correlationPlot] *)

(** [zip] of four sequences. *)
Fixpoint zip4 {A B C D} (a : list A) (b : list B) (c : list C) (d : list D)
  : list (A * B * C * D) :=
  match a, b, c, d with
  | x :: a', y :: b', z :: c', w :: d' => (x, y, z, w) :: zip4 a' b' c' d'
  | _, _, _, _ => []
  end.

(** Lines 38-41 and 233-240: a one-dimensional input becomes a column. *)
Definition promote (a : ndarray) : result ndarray :=
  if decide (ndim a = 1) then new_axis a else Ok a.

(** Lines 44-47: a single row becomes a column. *)
Definition row_to_column (a : ndarray) : result ndarray :=
  match shape_at a 0 with
  | Raise e => Raise e
  | Ok n => if decide (n = 1) then Ok (transpose a) else Ok a
  end.

(** The body of the loop of lines 57-89.  The assignment to [labels] at
    line 84 rebinds the name only; the sequence [zip] is walking is the one
    evaluated at line 57. *)
Definition correlationPlot_one
    (it : ndarray * ndarray * option string * option string)
  : M pyplot nat :=
  let '(y, yp, label, unit) := it in
  let* fig := plt_figure in
  let* ax := add_subplot fig in
  draw ax (Line (term_of y) (term_of yp) (Some ".") None) ;;;
  match unit with
  | Some u =>
      draw ax (XLabel ("Actual (" +:+ u +:+ ")")) ;;;
      draw ax (YLabel ("Prediction (" +:+ u +:+ ")"))
  | None =>
      draw ax (XLabel "Actual") ;;;
      draw ax (YLabel "Prediction")
  end ;;;
  match label with
  | Some l => draw ax (Title l)
  | None => ret ()
  end ;;;
  draw ax SquareLimits ;;;
  draw ax Diagonal ;;;
  addText ax ["RMSE"; "R2"; "MAE"] (term_of y) (term_of yp) "lower right" ;;;
  ret fig.

(** [for ... in its: figs.append(body(...))]. *)
Fixpoint collect {S A B} (its : list A) (body : A → M S B) (acc : list B)
  : M S (list B) :=
  match its with
  | [] => ret acc
  | it :: its' =>
      let* b := body it in
      collect its' body (acc ++ [b])
  end.

Definition correlationPlot (Y Yp : ndarray)
    (labels units : option (list (option string))) : M pyplot (list nat) :=
  (* Handle Pandas DataFrames *)
  let labels :=
    if is_DataFrame Y then
      match labels, columns Y with
      | None, Some cs => Some (map Some cs)
      | _, _ => labels
      end
    else labels in
  let Y := if is_DataFrame Y then values Y else Y in
  let Yp := if is_DataFrame Yp then values Yp else Yp in
  (* Handle 1D arrays *)
  let* Y := lift (promote Y) in
  let* Yp := lift (promote Yp) in
  (* Handle row vectors *)
  let* Y := lift (row_to_column Y) in
  let* Yp := lift (row_to_column Yp) in
  (* Handle no label or unit inputs *)
  let* labels :=
    match labels with
    | Some l => ret l
    | None => let* k := lift (shape_at Y 1) in ret (replicate k None)
    end in
  let* units :=
    match units with
    | Some l => ret l
    | None => let* k := lift (shape_at Y 1) in ret (replicate k None)
    end in
  let* ys := lift (items (transpose Y)) in
  let* yps := lift (items (transpose Yp)) in
  collect (zip4 ys yps labels units) correlationPlot_one [].

(** *** [plotPrecRec] and [plotPrecRecMN] *)

(** Lines 158-160 and 182-184: the local [fig], bound only when no axes
    were supplied, and the axes to draw on. *)
Definition figure_and_axes (ax : option axes) : M pyplot (option nat * axes) :=
  match ax with
  | None =>
      let* fig := plt_figure in
      let* ax := add_subplot fig in
      ret (Some fig, ax)
  | Some ax => ret (None, ax)
  end.

(** [try: return fig / except NameError: return ax]. *)
Definition fig_or_ax (fig : option nat) (ax : axes) : handle :=
  match fig with
  | Some f => HFigure f
  | None => HAxes ax
  end.

(** [sklearn.metrics.precision_recall_curve].  Whether it accepts its
    arguments is scikit-learn's affair: it raises on a [y] that is not
    binary, on a [y] of more than one dimension, on arguments of
    different lengths, on scores that are not finite.  [curve_error y p]
    is the exception it raises on the arguments [y] and [p], if any. *)
Class Metrics := {
  curve_error : term → term → option exn
}.

Section curves.
Context `{Metrics}.

(** The first two of the three arrays that [precision_recall_curve]
    returns, when it returns. *)
Definition precision_recall_curve (y p : term) : result (term * term) :=
  match curve_error y p with
  | Some e => Raise e
  | None => Ok (Precision y p, Recall y p)
  end.

(** Lines 162-176: what follows once [fig] and [ax] are settled. *)
Definition plotPrecRec_body (fig : option nat) (ax : axes) (y yp : ndarray)
    (label : option string) : M pyplot handle :=
  let* ry := lift (shape_at y 0) in
  let* rp := lift (shape_at yp 0) in
  if negb (Nat.eqb ry rp) then
    raise (exception "Number of rows in y & yp must match" [])
  else
    let* (prec, rec) :=
      lift (precision_recall_curve (term_of y) (term_of yp)) in
    draw ax (Line rec prec None (LStr <$> label)) ;;;
    draw ax (XLabel "Recall") ;;;
    draw ax (YLabel "Precision") ;;;
    draw ax (XLim 0 1) ;;;
    draw ax (YLim 0 1) ;;;
    ret (fig_or_ax fig ax).

Definition plotPrecRec (y yp : ndarray) (ax : option axes)
    (label : option string) : M pyplot handle :=
  let* (fig, ax) := figure_and_axes ax in
  plotPrecRec_body fig ax y yp label.

(** [sorted]. *)
Fixpoint insert_sorted (x : Z) (l : list Z) : list Z :=
  match l with
  | [] => [x]
  | y :: l' => if (x <=? y)%Z then x :: y :: l' else y :: insert_sorted x l'
  end.

Definition sorted (l : list Z) : list Z := foldr insert_sorted [] l.

(** Lines 186-189: [pd.api.types.CategoricalDtype()] builds an object,
    and [is] compares its identity with that of [y]. *)
Definition plotPrecRecMN_classes (y : ref) : M pyplot classes :=
  let* dtype := new_object in
  if py_is (oid y) dtype then
    match categories (deref y) with
    | Some cats => ret (ClassList (sorted cats))
    | None =>
        raise (Exn AttributeError "object has no attribute 'cat'" [])
    end
  else ret (ClassArray (np_unique (entries (deref y)))).

(** Lines 191-198. *)
Definition plotPrecRecMN_validate (cls : classes) (y yp : ndarray)
    (labels : option (list string)) : M pyplot (list label) :=
  let labels :=
    match labels with
    | Some l => LStr <$> l
    | None => LClass <$> class_values cls
    end in
  let* nc := lift (classes_shape0 cls) in
  let* np := lift (shape_at yp 1) in
  if negb (Nat.eqb nc np && Nat.eqb np (length labels)) then
    raise (exception
             "Number of classes in y must match number of columns in yp and number labels."
             [])
  else
    let* ry := lift (shape_at y 0) in
    let* rp := lift (shape_at yp 0) in
    if negb (Nat.eqb ry rp) then
      raise (exception "Number of rows in y & yp must match." [])
    else ret labels.

(** The loop of lines 204-207, threading the dictionaries [prec] and
    [rec]. *)
Fixpoint plotPrecRecMN_curves (y yp : ndarray) (ics : list (nat * Z))
    (prec rec : gmap Z term) : M pyplot (gmap Z term * gmap Z term) :=
  match ics with
  | [] => ret (prec, rec)
  | (i, klass) :: ics' =>
      let yi := Equals (term_of y) klass in
      let* col := lift (getcol yp i) in
      let* (p, r) := lift (precision_recall_curve yi col) in
      plotPrecRecMN_curves y yp ics' (<[klass := p]> prec) (<[klass := r]> rec)
  end.

Definition lookup_curve (d : gmap Z term) (klass : Z) : M pyplot term :=
  match d !! klass with
  | Some t => ret t
  | None => raise (Exn KeyError "{}" [])
  end.

(** The loop of lines 215-216. *)
Fixpoint plotPrecRecMN_lines (ax : axes) (prec rec : gmap Z term)
    (kls : list (Z * label)) : M pyplot unit :=
  match kls with
  | [] => ret ()
  | (klass, label) :: kls' =>
      let* r := lookup_curve rec klass in
      let* p := lookup_curve prec klass in
      draw ax (Line (Times100 r) (Times100 p) None (Some label)) ;;;
      plotPrecRecMN_lines ax prec rec kls'
  end.

(** Lines 191-227: what follows once [classes] is bound. *)
Definition plotPrecRecMN_body (fig : option nat) (ax : axes) (cls : classes)
    (y yp : ndarray) (labels : option (list string)) : M pyplot handle :=
  let* labels := plotPrecRecMN_validate cls y yp labels in
  let* (prec, rec) :=
    plotPrecRecMN_curves y yp (enumerate (class_values cls)) ∅ ∅ in
  let Y := OneHot (term_of y) (class_values cls) in
  let* (prec_micro, rec_micro) :=
    lift (precision_recall_curve (Ravel Y) (Ravel (term_of yp))) in
  draw ax (Line (Times100 rec_micro) (Times100 prec_micro) None
                (Some (LStr "micro-average"))) ;;;
  plotPrecRecMN_lines ax prec rec (zip (class_values cls) labels) ;;;
  draw ax Legend ;;;
  draw ax (XLabel "Recall (%)") ;;;
  draw ax (YLabel "Precision (%)") ;;;
  draw ax (XLim 0 100) ;;;
  draw ax (YLim 0 100) ;;;
  ret (fig_or_ax fig ax).

Definition plotPrecRecMN (y : ref) (yp : ndarray) (ax : option axes)
    (labels : option (list string)) : M pyplot handle :=
  let* (fig, ax) := figure_and_axes ax in
  let* cls := plotPrecRecMN_classes y in
  plotPrecRecMN_body fig ax cls (deref y) yp labels.


(** [y] and [yp] have first dimensions, and they agree: the test of
    lines 162 and 197 passes. *)
Definition rows_match (y yp : ndarray) : Prop :=
  ∃ n, shape y !! 0 = Some n ∧ shape yp !! 0 = Some n.




End curves.

(** *** [plotResiduals] *)

(** Lines 250-254 and 269-273: [list(a.columns)], or empty labels when
    the attribute is missing. *)
Definition default_labels (a : ndarray) : M pyplot (list string) :=
  match columns a with
  | Some cs => ret cs
  | None => let* c := lift (shape_at a 1) in ret (replicate c "")
  end.

(** Lines 250-259 and 269-278, with the message of the branch. *)
Definition resolve_labels (a : ndarray) (labels : option (list string))
    (msg : string) : M pyplot (list string) :=
  match labels with
  | None => default_labels a
  | Some l =>
      let* c := lift (shape_at a 1) in
      if negb (Nat.eqb (length l) c)
      then raise (exception msg [FNat (length l); FNat c])
      else ret l
  end.

(** [for i, unit in enumerate(units): labels[i] += ' ({})'.format(unit)]. *)
Fixpoint add_units (labels : list string) (ius : list (nat * string))
  : result (list string) :=
  match ius with
  | [] => Ok labels
  | (i, u) :: ius' =>
      match labels !! i with
      | Some s => add_units (<[i := s +:+ " (" +:+ u +:+ ")"]> labels) ius'
      | None => Raise (Exn IndexError "list index out of range" [])
      end
  end.

(** Lines 261-267 and 282-288, with the message of the branch. *)
Definition apply_units (labels : list string) (units : option (list string))
    (msg : string) : M pyplot (list string) :=
  match units with
  | None => ret labels
  | Some us =>
      if negb (Nat.eqb (length us) (length labels))
      then raise (exception msg [FNat (length us); FNat (length labels)])
      else lift (add_units labels (enumerate us))
  end.

Definition msg_same_dimensions : string :=
  "Y ({}) and Yp ({}) must have same dimensions".
Definition msg_same_rows : string :=
  "X ({}) and Y ({}) must have same number of rows".
Definition msg_xLabels : string :=
  "xLabels must have same length ({}) as the number of columns of X ({})".
Definition msg_xUnits : string :=
  "xUnits must have same length ({}) as xLabels ({}) if supplied".
Definition msg_yLabels : string :=
  "yLabels must have same length ({}) as the number of columns of Y ({})".
Definition msg_yUnits : string :=
  "yUnits must have same length ({}) as yLabels ({}) if supplied".

(** What lines 233-288 leave behind: the three arrays and the two label
    lists. *)
Record checked := Checked {
  cX : ndarray;
  cY : ndarray;
  cYp : ndarray;
  c_xLabels : list string;
  c_yLabels : list string
}.

(** Lines 233-288. *)
Definition plotResiduals_checks (X Y Yp : ndarray)
    (xLabels xUnits yLabels yUnits : option (list string))
  : M pyplot checked :=
  let* X := lift (promote X) in
  let* Y := lift (promote Y) in
  let* Yp := lift (promote Yp) in
  if negb (bool_decide (shape Y = shape Yp)) then
    raise (exception msg_same_dimensions [FShape (shape Y); FShape (shape Yp)])
  else
    let* rx := lift (shape_at X 0) in
    let* ry := lift (shape_at Y 0) in
    if negb (Nat.eqb rx ry) then
      raise (exception msg_same_rows [FNat rx; FNat ry])
    else
      let* xLabels := resolve_labels X xLabels msg_xLabels in
      let* xLabels := apply_units xLabels xUnits msg_xUnits in
      let* yLabels := resolve_labels Y yLabels msg_yLabels in
      let yLabels := (λ yLabel, yLabel +:+ " Error") <$> yLabels in
      let* yLabels := apply_units yLabels yUnits msg_yUnits in
      ret (Checked X Y Yp xLabels yLabels).

(** The inner loop, lines 293-296, threading the local [ax] ([None] while
    it is unbound). *)
Fixpoint plotResiduals_axes (c : checked) (fig i : nat)
    (jys : list (nat * string)) (ax : option axes) : M pyplot (option axes) :=
  match jys with
  | [] => ret ax
  | (j, yLabel) :: jys' =>
      let* a := add_subplot fig in
      let* x := lift (getcol (cX c) i) in
      let* yp := lift (getcol (cYp c) j) in
      let* y := lift (getcol (cY c) j) in
      draw a (Line x (Minus yp y) (Some ".") None) ;;;
      draw a (YLabel yLabel) ;;;
      plotResiduals_axes c fig i jys' (Some a)
  end.

(** The outer loop, lines 291-298, threading [ax] and [figs]. *)
Fixpoint plotResiduals_figures (c : checked) (ixs : list (nat * string))
    (ax : option axes) (figs : list nat) : M pyplot (list nat) :=
  match ixs with
  | [] => ret figs
  | (i, xLabel) :: ixs' =>
      let* fig := plt_figure in
      let* ax := plotResiduals_axes c fig i (enumerate (c_yLabels c)) ax in
      match ax with
      | Some a => draw a (XLabel xLabel)
      | None =>
          raise (Exn UnboundLocalError
                     "local variable 'ax' referenced before assignment" [])
      end ;;;
      plotResiduals_figures c ixs' ax (figs ++ [fig])
  end.

Definition plotResiduals (X Y Yp : ndarray)
    (xLabels xUnits yLabels yUnits : option (list string))
  : M pyplot (list nat) :=
  let* c := plotResiduals_checks X Y Yp xLabels xUnits yLabels yUnits in
  plotResiduals_figures c (enumerate (c_xLabels c)) None [].

(** The array that lines 233-240 go on with. *)
Definition promoted (a : ndarray) : ndarray :=
  match promote a with
  | Ok a' => a'
  | Raise _ => a
  end.

(** The length of the label list that lines 250-259 and 269-278 settle
    on: the supplied one, else the columns of a [DataFrame], else one
    empty label for each column. *)
Definition labels_length (a : ndarray) (labels : option (list string)) : nat :=
  match labels with
  | Some l => length l
  | None =>
      match columns a with
      | Some cs => length cs
      | None => default 0 (shape a !! 1)
      end
  end.

(** The messages of the six guards of [plotResiduals]. *)
Definition plotResiduals_messages : list string :=
  [msg_same_dimensions; msg_same_rows; msg_xLabels; msg_xUnits;
   msg_yLabels; msg_yUnits].

(** An exception of [plotResiduals]'s own: an [Exception] with one of
    the six messages. *)
Definition descriptive (e : exn) : Prop :=
  kind e = Exception ∧ template e ∈ plotResiduals_messages.

(** *** What the helpers draw, figure by figure *)

(** What one pass of the loop of [correlationPlot] draws on its axes:
    lines 65-87. *)
Definition correlationPlot_drawn (ax : axes)
    (it : ndarray * ndarray * option string * option string)
  : list (axes * artist) :=
  let '(y, yp, label, unit) := it in
  [(ax, Line (term_of y) (term_of yp) (Some ".") None)] ++
  match unit with
  | Some u => [(ax, XLabel ("Actual (" +:+ u +:+ ")"));
               (ax, YLabel ("Prediction (" +:+ u +:+ ")"))]
  | None => [(ax, XLabel "Actual"); (ax, YLabel "Prediction")]
  end ++
  match label with
  | Some l => [(ax, Title l)]
  | None => []
  end ++
  [(ax, SquareLimits); (ax, Diagonal);
   (ax, TextBox ["RMSE"; "R2"; "MAE"] (term_of y) (term_of yp) "lower right")].

(** The [i]-th column of a two-dimensional array, as the loop of
    [correlationPlot] meets it: the [i]-th row of the transpose. *)
Definition column_item (a : ndarray) (i : nat) : ndarray :=
  NDArray (Item (Transpose (term_of a)) i) (take 1 (shape a)) None None [].




(** *** [plotImages] *)

(** An argument that is either one value or a sequence of them:
    [isinstance(a, (list, tuple))] tells the two apart. *)
Inductive arg (A : Type) :=
| One (a : A)
| Many (l : list A).
Arguments One {A} a.
Arguments Many {A} l.

(** Lines 307-312: one value stands for as many copies as there are
    points. *)
Definition broadcast {A} (n : nat) (a : arg A) : list A :=
  match a with
  | One x => replicate n x
  | Many l => l
  end.

(** [zip] of five sequences. *)
Fixpoint zip5 {A B C D E} (a : list A) (b : list B) (c : list C)
    (d : list D) (e : list E) : list (A * B * C * D * E) :=
  match a, b, c, d, e with
  | x :: a', y :: b', z :: c', w :: d', v :: e' =>
      (x, y, z, w, v) :: zip5 a' b' c' d' e'
  | _, _, _, _, _ => []
  end.

(** What [plotImages] works with.  [pilimg.open] may raise; [max]
    raises on the empty sequence.  The function exists only when [PIL]
    could be imported (lines 9-14 and 303).  [X] and [Y] are sequences of
    numbers; placing a picture (the arithmetic of lines 325-331 and
    [imshow]) stays with NumPy and Matplotlib, a picture that [PIL] has
    opened having a positive size. *)
Class Imaging := {
  path : Type;      (** what [pilimg.open] is handed *)
  picture : Type;   (** an opened image *)
  number : Type;    (** a coordinate, a marker size, an opacity *)
  pil_open : path → result picture;
  py_max : list number → result number;
  py_max_empty : raises (py_max []) = true
}.

Section images.
Context `{Imaging}.

(** What [plotImages] puts on an axes object. *)
Inductive image_artist :=
| Markers (X Y : list number) (markersize : number)   (** line 321 *)
| KeepLimits                                          (** line 322 *)
| ImShow (im : picture) (alpha x y size : number).    (** lines 325-333 *)

(** The figures and axes of the interpreter, with what [plotImages] has
    put on them, oldest first. *)
Record canvas := Canvas {
  plot : pyplot;
  shown : list (axes * image_artist)
}.

Definition in_plot {A} (m : M pyplot A) : M canvas A :=
  λ c, let (r, st) := m (plot c) in (r, Canvas st (shown c)).

Definition show (ax : axes) (a : image_artist) : M canvas unit :=
  modify (λ c, Canvas (plot c) (shown c ++ [(ax, a)])).

(** Line 314: the pictures are opened in order; the first failure ends
    the comprehension. *)
Fixpoint open_all (images : list path) : result (list picture) :=
  match images with
  | [] => Ok []
  | p :: ps =>
      match pil_open p with
      | Raise e => Raise e
      | Ok im =>
          match open_all ps with
          | Raise e => Raise e
          | Ok ims => Ok (im :: ims)
          end
      end
  end.

(** Line 321.  Matplotlib refuses [X] and [Y] of different lengths. *)
Definition plot_markers (ax : axes) (X Y : list number) (markersize : number)
  : M canvas unit :=
  if negb (Nat.eqb (length X) (length Y)) then
    raise (Exn LibraryError "x and y must have same first dimension" [])
  else show ax (Markers X Y markersize).

(** The body of the loop of lines 324-333. *)
Definition plotImages_one (ax : axes)
    (it : number * picture * number * number * number) : M canvas unit :=
  let '(size, im, alpha, x, y) := it in
  show ax (ImShow im alpha x y size).

Definition plotImages (X Y : list number) (images : arg path)
    (sizes alphas : arg number) (ax : option axes) : M canvas handle :=
  let sizes := broadcast (length X) sizes in
  let images := broadcast (length X) images in
  let alphas := broadcast (length X) alphas in
  let* ims := lift (open_all images) in
  let* (fig, ax) := in_plot (figure_and_axes ax) in
  (* plot and set axis limits *)
  let* markersize := lift (py_max sizes) in
  plot_markers ax X Y markersize ;;;
  show ax KeepLimits ;;;
  for_each (zip5 sizes ims alphas X Y) (plotImages_one ax) ;;;
  ret (fig_or_ax fig ax).

(** Everything a call of [plotImages] that returns has put on its axes:
    the invisible markers that set the limits, then one picture for each
    point that has a size, a picture and an opacity. *)
Definition plotImages_shown (ax : axes) (X Y : list number)
    (markersize : number) (sizes : list number) (ims : list picture)
    (alphas : list number) : list (axes * image_artist) :=
  [(ax, Markers X Y markersize); (ax, KeepLimits)] ++
  ((λ '(size, im, alpha, x, y), (ax, ImShow im alpha x y size))
     <$> zip5 sizes ims alphas X Y).

End images.

End Plot.

(** ** A small instance of the library interface, for the examples *)

Module Demo.
Import Py.

#[export] Instance foreign : Mixed.Foreign := {|
  Mixed.pvalue := list Z;
  Mixed.rvalue := list Z;
  Mixed.model := string;
  Mixed.kwargs := unit;
  Mixed.ndarray := list (list Z);
  Mixed.cvspec := nat;
  Mixed.cvres := string
|}.

Definition lookup_column (d : Mixed.DataFrame) (k : string)
  : result (list Z) :=
  match list_find (λ kv, kv.1 = k) d with
  | Some (_, (_, v)) => Ok v
  | None => Raise (Exn KeyError k [])
  end.

Fixpoint select (d : Mixed.DataFrame) (ks : list string)
  : result Mixed.DataFrame :=
  match ks with
  | [] => Ok []
  | k :: ks' =>
      match lookup_column d k, select d ks' with
      | Ok v, Ok r => Ok ((k, v) :: r)
      | Raise e, _ => Raise e
      | _, Raise e => Raise e
      end
  end.

Definition getitem (d : Mixed.DataFrame) (labels : pyval)
  : result Mixed.DataFrame :=
  match labels with
  | PList ks => select d ks
  | _ => Raise (Exn KeyError "labels" [])
  end.

#[export] Instance externals : Mixed.Externals := {|
  Mixed.df_getitem := getitem;
  Mixed.categorical_to_plain := λ d _, Ok d;
  Mixed.createY := λ s d, getitem d (Mixed.yLabels s);
  Mixed.check_X_y := λ _ _, Ok ();
  Mixed.check_array := λ _, Ok ();
  Mixed.check_array_nd := λ _, Ok ();
  Mixed.pd_DataFrame := λ X labels,
    match labels with
    | PList ks => Ok (zip ks X)
    | _ => Raise (Exn TypeError "columns" [])
    end;
  Mixed.df_column := λ d k,
    match lookup_column d k with
    | Ok v => Ok [(k, v)]
    | Raise e => Raise e
    end;
  Mixed.pd_concat := λ a b, Ok (a ++ b);
  Mixed.lmer := λ f _ _, Ok f;
  Mixed.random_effects := λ _, Ok [("group", [1; 2]%Z)];
  Mixed.fixed_effects := λ _, Ok [("(Intercept)", [0]%Z)];
  Mixed.ri2py := λ v, v;
  Mixed.predict_merMod := λ m X, Ok [Z.of_nat (String.length m)];
  Mixed.GridSearchCV_fit := λ _ grid _ _ _ _,
    match py_iter grid with
    | Ok (f :: _) => Ok (f, "cv")
    | _ => Raise (Exn LibraryError "empty grid" [])
    end
|}.

(** A table with one predictor and two responses. *)
Definition data : Mixed.DataFrame :=
  [("x", [1; 2; 3]%Z); ("a", [4; 5; 6]%Z); ("b", [7; 8; 9]%Z)].

Definition estimator (ys fs : pyval) : Mixed.BetterLME4 :=
  {| Mixed.xLabels := PList ["x"];
     Mixed.yLabels := ys;
     Mixed.formulas := fs;
     Mixed.LME4Params := ();
     Mixed.models_ := None;
     Mixed.factors_ := None;
     Mixed.cv_results_ := None |}.

Definition world (ys fs : pyval) : Mixed.world :=
  Mixed.World (estimator ys fs) [].

(** Arrays for the plotting helpers: [matrix name r c] is an [r]-by-[c]
    array, [vector name n] a one-dimensional one, [frame name r cs] a
    [DataFrame] with [r] rows and the columns [cs]; [codes] holds class
    codes. *)
Definition matrix (name : string) (r c : nat) : Plot.ndarray :=
  Plot.NDArray (Plot.Arg name) [r; c] None None [].

Definition vector (name : string) (n : nat) : Plot.ndarray :=
  Plot.NDArray (Plot.Arg name) [n] None None [].

Definition frame (name : string) (r : nat) (cs : list string) : Plot.ndarray :=
  Plot.NDArray (Plot.Arg name) [r; length cs] (Some cs) None [].

Definition codes (name : string) (ks : list Z) : Plot.ndarray :=
  Plot.NDArray (Plot.Arg name) [length ks] None None ks.

(** scikit-learn, as far as the examples go: [precision_recall_curve]
    computes its curves but for the argument named [counts], which is not
    binary. *)
#[export] Instance metrics : Plot.Metrics := {|
  Plot.curve_error := λ y _,
    match y with
    | Plot.Arg "counts" =>
        Some (Exn LibraryError "multiclass format is not supported" [])
    | _ => None
    end
|}.

(** An interpreter in which [n] objects exist and nothing has been
    plotted. *)
Definition fresh (n : nat) : Plot.pyplot := Plot.PyPlot n [] [].

End Demo.

(** ** Pictures for the examples of [plotImages] *)

Module Gallery.
Import Py.

(** Files are named by strings, and the file with the empty name cannot
    be opened; an opened picture is the name it was opened from; numbers
    are integers.  [max] on the empty sequence raises (a [ValueError],
    which the kinds above do not tell from the other errors raised on the
    library side). *)
#[export] Instance imaging : Plot.Imaging := {|
  Plot.path := string;
  Plot.picture := string;
  Plot.number := Z;
  Plot.pil_open := λ p,
    if String.eqb p "" then
      Raise (Exn LibraryError "cannot identify image file" [])
    else Ok p;
  Plot.py_max := λ l,
    match l with
    | [] => Raise (Exn LibraryError "max() arg is an empty sequence" [])
    | x :: l' => Ok (foldr Z.max x l')
    end;
  Plot.py_max_empty := eq_refl
|}.

(** An interpreter in which [n] objects exist and nothing has been
    plotted or shown. *)
Definition blank (n : nat) : Plot.canvas := Plot.Canvas (Plot.PyPlot n [] []) [].

End Gallery.

(** * Properties *)

(** ** Python values *)

Section py_facts.
Import Py.

Lemma truthy_false_iff (v : pyval) :
  truthy v = false ↔ undefined_or_empty v.
Proof.
  unfold undefined_or_empty.
  destruct v as [|s|l|l]; simpl.
  - split; [by left|done].
  - destruct s; simpl; split; try done.
    + intros _. by right; left.
    + intros [?|[?|[?|?]]]; congruence.
  - destruct l; simpl; split; try done.
    + intros _. by right; right; left.
    + intros [?|[?|[?|?]]]; congruence.
  - destruct l; simpl; split; try done.
    + intros _. by right; right; right.
    + intros [?|[?|[?|?]]]; congruence.
Qed.

Lemma py_any_false_iff (vs : list pyval) :
  py_any vs = false ↔ Forall undefined_or_empty vs.
Proof.
  unfold py_any. induction vs as [|v vs IH]; simpl.
  - split; [constructor|done].
  - rewrite orb_false_iff, IH, truthy_false_iff, Forall_cons. done.
Qed.

Lemma mjoin_replicate_singleton {A} (n : nat) (x : A) :
  mjoin (replicate n [x]) = replicate n x.
Proof. induction n as [|n IH]; simpl; [done|by rewrite IH]. Qed.

Lemma length_chars (s : string) : length (chars s) = String.length s.
Proof. induction s as [|c s IH]; simpl; [done|by rewrite IH]. Qed.

(** Whatever can be iterated has the length of what the iteration visits. *)
Lemma py_iter_len (v : pyval) (xs : list string) :
  py_iter v = Ok xs → py_len v = Ok (length xs).
Proof.
  destruct v; simpl; intros Hv; simplify_eq; try done.
  by rewrite length_chars.
Qed.

End py_facts.

(** ** The estimator *)

Section mixed_facts.
Import Py Mixed.
Context `{!Foreign} `{!Externals}.

Lemma same_config_refl a : same_config a a.
Proof. by repeat split. Qed.

Lemma same_config_trans a b c :
  same_config a b → same_config b c → same_config a c.
Proof.
  unfold same_config. intros (?&?&?&?&?) (?&?&?&?&?).
  repeat split; congruence.
Qed.

(** [createX] reads the store and leaves it alone. *)
Lemma createX_loop_store X xs w : (createX_loop X xs w).2 = w.
Proof.
  revert X. induction xs as [|x xs IH]; intros X; simpl; [done|].
  unfold bind, lift. destruct (categorical_to_plain X x); simpl; [apply IH|done].
Qed.

Lemma createX_store data w : (createX data w).2 = w.
Proof.
  unfold createX, bind, get_self, lift.
  destruct (df_getitem data (xLabels (self w))); [|done].
  destruct (py_iter (xLabels (self w))); [|done].
  apply createX_loop_store.
Qed.

(** The guard, run on its own and as the first step of [fitD]. *)
Lemma fitD_guard_run (w : world) :
  fitD_guard w =
    if decide (Forall undefined_or_empty
                 [xLabels (self w); yLabels (self w); formulas (self w)])
    then (Raise (Exn RuntimeError guard_message []), w)
    else (Ok (), w).
Proof.
  unfold fitD_guard, bind, get_self.
  destruct (py_any _) eqn:Hany; simpl.
  - rewrite decide_False; [done|].
    intros HF. apply py_any_false_iff in HF. congruence.
  - rewrite decide_True; [done|]. by apply py_any_false_iff.
Qed.

Lemma fitD_after_guard (data : DataFrame) (w : world) :
  fitD data w =
    if decide (Forall undefined_or_empty
                 [xLabels (self w); yLabels (self w); formulas (self w)])
    then (Raise (Exn RuntimeError guard_message []), w)
    else (fitD_wrap ;;; fitD_reconcile ;;; fitD_models data) w.
Proof.
  unfold fitD. unfold bind at 1. rewrite fitD_guard_run.
  by destruct (decide _).
Qed.

(** C4: the guard of [fitD] raises its [RuntimeError] exactly when
    [xLabels], [yLabels] and [formulas] are all undefined or empty, and
    leaves the estimator untouched; as soon as one of the three is
    non-empty the guard passes and the call goes on with the wrapping, the
    reconciliation and the fits, whatever the other two hold. *)
Theorem fitD_guard_only_when_all_empty (data : DataFrame) (w : world) :
  let all_empty :=
    Forall undefined_or_empty
      [xLabels (self w); yLabels (self w); formulas (self w)] in
  fitD_guard w =
    (if decide all_empty
     then (Raise (Exn RuntimeError guard_message []), w)
     else (Ok (), w)) ∧
  fitD data w =
    (if decide all_empty
     then (Raise (Exn RuntimeError guard_message []), w)
     else (fitD_wrap ;;; fitD_reconcile ;;; fitD_models data) w).
Proof. split; [apply fitD_guard_run|apply fitD_after_guard]. Qed.

(** C2: when [formulas], once a lone string has been wrapped, has a length
    that is neither 1 nor [len(yLabels)], [fitD] raises the [RuntimeError]
    of line 47; no model has been fitted and no attribute of the estimator
    has been assigned, [models_] and [factors_] included. *)
Theorem fitD_length_mismatch (data : DataFrame) (w : world) (nf ny : nat) :
  py_len (wrapped (formulas (self w))) = Ok nf →
  py_len (yLabels (self w)) = Ok ny →
  nf ≠ 1 →
  nf ≠ ny →
  fitD data w = (Raise (Exn RuntimeError length_message []), w) ∧
  models_ (self (fitD data w).2) = models_ (self w) ∧
  factors_ (self (fitD data w).2) = factors_ (self w) ∧
  calls (fitD data w).2 = calls w.
Proof.
  intros Hf Hy H1 Hne.
  assert (fitD data w = (Raise (Exn RuntimeError length_message []), w)) as ->;
    [|done].
  rewrite fitD_after_guard.
  destruct w as [s cs]; simpl in *.
  rewrite decide_False.
  - unfold fitD_wrap, fitD_reconcile, bind, get_self, update_self, lift; simpl.
    destruct (formulas s) as [|f|l|l] eqn:Ef; simpl in *; simplify_eq; simpl.
    + rewrite Ef; simpl. rewrite Hy.
      destruct (Nat.eqb_spec (length l) ny); [done|]; simpl.
      destruct (Nat.eqb_spec (length l) 1); done.
    + rewrite Ef; simpl. rewrite Hy.
      destruct (Nat.eqb_spec (length l) ny); [done|]; simpl.
      destruct (Nat.eqb_spec (length l) 1); done.
  - rewrite !Forall_cons. intros (_ & Hye & Hfe & _).
    apply truthy_false_iff in Hye, Hfe.
    destruct (formulas s) as [|f|[|]|[|]], (yLabels s) as [|[|]|[|]|[|]];
      simpl in *; simplify_eq; done.
Qed.

(** One pass through the body of the fitting loop: the configuration is
    kept, and either nothing is sent to [lmer] and the pass raises, or
    exactly one call goes out, with the formula [yLabel ~ formulas[ii]]. *)
Lemma fitD_fit_one_spec X Y (ii : nat) (yLabel f : string) (w : world) :
  py_getitem (formulas (self w)) ii = Ok f →
  let r := fitD_fit_one X Y (ii, yLabel) w in
  same_config (self r.2) (self w) ∧
  ∃ new, calls r.2 = calls w ++ new ∧
    ((new = [] ∧ raises r.1 = true) ∨
     lmer_formulas new = [yLabel +:+ " ~ " +:+ f]).
Proof.
  intros Hf. destruct w as [s cs]. simpl in Hf.
  unfold fitD_fit_one, setitem_models, setitem_factors, bind, lift, get_self,
    log, update_self, raise; simpl.
  destruct (df_column Y yLabel); simpl;
    [|split; [apply same_config_refl|exists []; rewrite app_nil_r; auto]].
  destruct (pd_concat X a); simpl;
    [|split; [apply same_config_refl|exists []; rewrite app_nil_r; auto]].
  rewrite Hf; simpl.
  destruct (lmer _ _ _); simpl;
    [|split; [apply same_config_refl|eexists; split; [done|by right]]].
  destruct (models_ s); simpl;
    [|split; [apply same_config_refl|eexists; split; [done|by right]]].
  destruct (_factor _); simpl;
    [|split; [by repeat split|eexists; split; [done|by right]]].
  destruct (factors_ s); simpl;
    (split; [by repeat split|eexists; split; [done|by right]]).
Qed.

Lemma fits_follow_stop (w : world) (f : string) (ys : list string) (e : exn) :
  fits_follow w f ys (Raise e, w).
Proof.
  split; [apply same_config_refl|].
  exists []. simpl. rewrite app_nil_r. split; [done|].
  split; [apply prefix_nil|done].
Qed.

Lemma fitD_loop_spec X Y (f : string) (ys : list string) :
  ∀ (i : nat) (w : world),
    (∀ k, k < length ys → py_getitem (formulas (self w)) (i + k) = Ok f) →
    fits_follow w f ys (for_each (enumerate_from i ys) (fitD_fit_one X Y) w).
Proof.
  induction ys as [|y ys IH]; intros i w Hf.
  - simpl. split; [apply same_config_refl|].
    exists []. simpl. rewrite app_nil_r. by repeat split.
  - destruct (fitD_fit_one_spec X Y i y f w) as (Hcfg & new & Hcalls & Hnew).
    { rewrite <- (Nat.add_0_r i). apply Hf. simpl. lia. }
    change (for_each (enumerate_from i (y :: ys)) (fitD_fit_one X Y) w)
      with ((fitD_fit_one X Y (i, y) ;;;
             for_each (enumerate_from (S i) ys) (fitD_fit_one X Y)) w).
    unfold bind at 1.
    destruct (fitD_fit_one X Y (i, y) w) as [[[]|e] w1] eqn:Hone;
      simpl in Hcfg, Hcalls, Hnew.
    + destruct Hnew as [[_ ?]|Hnew]; [done|].
      destruct (IH (S i) w1) as (Hcfg' & new' & Hcalls' & Hpre & Hall).
      { intros k Hk. destruct Hcfg as (_ & _ & -> & _).
        rewrite Nat.add_succ_comm. apply Hf. simpl. lia. }
      split; [by eapply same_config_trans|].
      exists (new ++ new'). split; [by rewrite Hcalls', Hcalls, app_assoc|].
      unfold lmer_formulas in *. rewrite omap_app, Hnew. simpl.
      split; [by apply prefix_cons|]. intros Hok. by rewrite Hall.
    + split; [done|]. exists new. split; [done|].
      split; [|done]. simpl.
      destruct Hnew as [[-> _] | Hnew]; [apply prefix_nil|rewrite Hnew].
      apply prefix_cons, prefix_nil.
Qed.

(** The fits of [fitD]: the formulas are read, never assigned, and the
    calls to [lmer] follow the responses in order. *)
Lemma fitD_models_spec (data : DataFrame) (w : world) (f : string)
    (ys : list string) :
  py_iter (yLabels (self w)) = Ok ys →
  (∀ k, k < length ys → py_getitem (formulas (self w)) k = Ok f) →
  fits_follow w f ys (fitD_models data w).
Proof.
  intros Hys Hf.
  unfold fitD_models. unfold bind at 1.
  pose proof (createX_store data w) as HX.
  destruct (createX data w) as [[X|e] w0]; simpl in HX; subst w0;
    [|apply fits_follow_stop].
  unfold bind at 1. unfold get_self at 1. unfold bind at 1. unfold lift at 1.
  destruct (createY (self w) data) as [Y|e]; [|apply fits_follow_stop].
  unfold bind at 1. unfold lift at 1.
  destruct (check_X_y X Y) as [[]|e]; [|apply fits_follow_stop].
  unfold bind at 1. unfold update_self at 1.
  unfold bind at 1. unfold update_self at 1.
  unfold bind at 1. unfold get_self at 1.
  unfold bind at 1. unfold lift at 1. simpl. rewrite Hys.
  match goal with |- context [for_each _ _ ?w1] => set (w1' := w1) end.
  destruct (fitD_loop_spec X Y f ys 0 w1') as (Hcfg & new & Hcalls & Hpre & Hall).
  { intros k Hk. simpl. by apply Hf. }
  split.
  - eapply same_config_trans; [exact Hcfg|]. by repeat split.
  - exists new. done.
Qed.

Lemma py_getitem_replicate (n k : nat) (f : string) :
  k < n → py_getitem (PTuple (replicate n f)) k = Ok f.
Proof.
  intros Hk. simpl. rewrite lookup_replicate_2; done.
Qed.

(** C1: with [formulas] a single string or a one-element tuple and
    [yLabels] holding [n >= 1] responses, [fitD] leaves in [self.formulas]
    the tuple of length [n] that repeats the formula; the calls to [lmer]
    follow the responses in order, each with the formula
    [yLabel ~ formula], and all [n] of them are made when [fitD] returns. *)
Theorem fitD_broadcasts_single_formula (data : DataFrame) (w : world)
    (f : string) (ys : list string) :
  formulas (self w) = PStr f ∨ formulas (self w) = PTuple [f] →
  py_iter (yLabels (self w)) = Ok ys →
  1 ≤ length ys →
  let r := fitD data w in
  formulas (self r.2) = PTuple (replicate (length ys) f) ∧
  ∃ new, calls r.2 = calls w ++ new ∧
    lmer_formulas new `prefix_of` ((λ y, y +:+ " ~ " +:+ f) <$> ys) ∧
    (r.1 = Ok () → lmer_formulas new = (λ y, y +:+ " ~ " +:+ f) <$> ys).
Proof.
  intros Hfs Hys Hn r. subst r.
  rewrite fitD_after_guard.
  pose proof (py_iter_len _ _ Hys) as Hlen.
  rewrite decide_False; last first.
  { rewrite !Forall_cons. intros (_ & Hye & _).
    apply truthy_false_iff in Hye.
    destruct (yLabels (self w)) as [|[|]|[|]|[|]]; simpl in *; simplify_eq;
      simpl in *; lia. }
  set (w1 := World (set_formulas (PTuple [f]) (self w)) (calls w)).
  set (w2 := World (set_formulas (PTuple (replicate (length ys) f)) (self w))
                   (calls w)).
  assert ((fitD_wrap ;;; fitD_reconcile ;;; fitD_models data) w
          = fitD_models data w2) as ->.
  { assert ((fitD_wrap ;;; fitD_reconcile ;;; fitD_models data) w
            = (fitD_reconcile ;;; fitD_models data) w1) as ->.
    { unfold fitD_wrap. unfold bind at 1 2. unfold get_self at 1.
      destruct Hfs as [-> | Hfs]; [done|].
      rewrite Hfs. unfold ret. subst w1. destruct w as [s cs]; simpl in *.
      destruct s; simpl in *; subst; done. }
    unfold fitD_reconcile, bind, get_self, lift, update_self; simpl.
    rewrite Hlen; simpl.
    destruct (length ys) as [|[|n]] eqn:En; [lia| |]; simpl.
    - done.
    - subst w1 w2. simpl.
      rewrite mjoin_replicate_singleton. done. }
  destruct (fitD_models_spec data w2 f ys) as (Hcfg & Hcalls); [done| |].
  { intros k Hk. simpl. by apply py_getitem_replicate. }
  split; [|exact Hcalls].
  destruct Hcfg as (_ & _ & -> & _). done.
Qed.

(** *** What fitting leaves alone *)

Lemma labels_kept_refl w : labels_kept w w.
Proof. repeat split. exists []. by rewrite app_nil_r. Qed.

Lemma labels_kept_trans w1 w2 w3 :
  labels_kept w1 w2 → labels_kept w2 w3 → labels_kept w1 w3.
Proof.
  intros (Hx & Hy & n1 & Hc1 & Hs1) (Hx' & Hy' & n2 & Hc2 & Hs2).
  split; [congruence|]. split; [congruence|].
  exists (n1 ++ n2). split; [by rewrite Hc2, Hc1, app_assoc|].
  unfold searches in *. by rewrite omap_app, Hs1, Hs2.
Qed.

Lemma labels_kept_bind {A B} (m : M world A) (k : A → M world B) :
  (∀ w, labels_kept w (m w).2) →
  (∀ a w, labels_kept w (k a w).2) →
  ∀ w, labels_kept w ((let* a := m in k a) w).2.
Proof.
  intros Hm Hk w. unfold bind. specialize (Hm w).
  destruct (m w) as [[a|e] w1]; simpl in *; [|done].
  eapply labels_kept_trans; [exact Hm|apply Hk].
Qed.

Ltac kept_here :=
  first [ apply labels_kept_refl
        | simpl; repeat split; exists []; by rewrite app_nil_r ].

Lemma labels_kept_pure {A} (r : result A) w : labels_kept w (lift r w).2.
Proof. kept_here. Qed.

Lemma labels_kept_for_each {A} (body : A → M world unit) (xs : list A) :
  (∀ a w, labels_kept w (body a w).2) →
  ∀ w, labels_kept w (for_each xs body w).2.
Proof.
  intros Hbody. induction xs as [|x xs IH]; intros w; simpl.
  - kept_here.
  - apply labels_kept_bind; [apply Hbody|intros _; apply IH].
Qed.

Lemma createX_labels_kept data w : labels_kept w (createX data w).2.
Proof. rewrite createX_store. kept_here. Qed.

Lemma fitD_fit_one_labels_kept X Y iy w :
  labels_kept w (fitD_fit_one X Y iy w).2.
Proof.
  destruct iy as [ii yLabel]. unfold fitD_fit_one.
  revert w.
  apply labels_kept_bind; [intros; apply labels_kept_pure|intros Ycol].
  apply labels_kept_bind; [intros; apply labels_kept_pure|intros subData].
  apply labels_kept_bind; [intros; kept_here|intros s].
  apply labels_kept_bind; [intros; apply labels_kept_pure|intros f].
  apply labels_kept_bind; [intros; kept_here|intros s'].
  apply labels_kept_bind.
  { intros w. repeat split. eexists. split; [done|done]. }
  intros _.
  apply labels_kept_bind; [intros; apply labels_kept_pure|intros mdl].
  apply labels_kept_bind.
  { intros w. unfold setitem_models, bind, get_self.
    destruct (models_ (self w)); simpl; kept_here. }
  intros _.
  apply labels_kept_bind; [intros; apply labels_kept_pure|intros fac].
  intros w. unfold setitem_factors, bind, get_self.
  destruct (factors_ (self w)); simpl; kept_here.
Qed.

Lemma fitD_models_labels_kept data w : labels_kept w (fitD_models data w).2.
Proof.
  unfold fitD_models. revert w.
  apply labels_kept_bind; [apply createX_labels_kept|intros X].
  apply labels_kept_bind; [intros; kept_here|intros s].
  apply labels_kept_bind; [intros; apply labels_kept_pure|intros Y].
  apply labels_kept_bind; [intros; apply labels_kept_pure|intros _].
  apply labels_kept_bind; [intros; kept_here|intros _].
  apply labels_kept_bind; [intros; kept_here|intros _].
  apply labels_kept_bind; [intros; kept_here|intros s'].
  apply labels_kept_bind; [intros; apply labels_kept_pure|intros ys].
  apply labels_kept_for_each. intros; apply fitD_fit_one_labels_kept.
Qed.

(** [fitD] assigns neither [xLabels] nor [yLabels] and constructs no
    search. *)
Lemma fitD_labels_kept data w : labels_kept w (fitD data w).2.
Proof.
  unfold fitD. revert w.
  apply labels_kept_bind.
  { intros w. unfold fitD_guard, bind, get_self.
    destruct (negb _); kept_here. }
  intros _. apply labels_kept_bind.
  { intros w. unfold fitD_wrap, bind, get_self.
    destruct (formulas (self w)); kept_here. }
  intros _. apply labels_kept_bind; [|intros; apply fitD_models_labels_kept].
  intros w. unfold fitD_reconcile, bind, get_self, lift.
  destruct (py_len (formulas (self w))); [|kept_here].
  destruct (py_len (yLabels (self w))); [|kept_here].
  destruct (negb _); [|kept_here].
  destruct (Nat.eqb _ 1); [|kept_here].
  destruct (py_mul _ _); kept_here.
Qed.

(** *** Predicting *)

Lemma df_setitem_fresh (Y : DataFrame) (k : string) (v : pvalue) :
  k ∉ df_columns Y → df_setitem Y k v = Y ++ [(k, v)].
Proof.
  unfold df_columns. induction Y as [|[k' v'] Y IH]; simpl; intros Hk; [done|].
  rewrite not_elem_of_cons in Hk. destruct Hk as [Hne Hk].
  rewrite decide_False; [|done]. by rewrite IH.
Qed.

Lemma predictD_loop_spec X ms (w : world) :
  models_ (self w) = Some ms →
  ∀ ys cols Y,
    NoDup ys →
    (∀ y, y ∈ ys → y ∉ df_columns Y) →
    Forall2 (is_prediction ms X) ys cols →
    predictD_loop X Y ys w = (Ok (Y ++ zip ys cols), w).
Proof.
  intros Hms. induction ys as [|y ys IH]; intros cols Y Hnd Hfresh Hpred.
  - apply Forall2_nil_inv_l in Hpred as ->. simpl. by rewrite app_nil_r.
  - apply Forall2_cons_inv_l in Hpred
      as (c & cols' & (m & r & Hm & Hr & ->) & Hpred & ->).
    apply NoDup_cons in Hnd as [Hy Hnd].
    simpl. unfold bind at 1. unfold getitem_models, bind, get_self, lift.
    rewrite Hms, Hm. simpl. rewrite Hr. simpl.
    rewrite df_setitem_fresh; [|apply Hfresh; left].
    rewrite IH with (cols := cols'); [by rewrite <- app_assoc|done| |done].
    intros y' Hy'. unfold df_columns. rewrite fmap_app, elem_of_app.
    intros [Hin|Hin].
    + by apply (Hfresh y'); [right|].
    + simpl in Hin. apply list_elem_of_singleton in Hin. by subst.
Qed.

(** C7, as the code has it: on an estimator with [models_] and [factors_]
    assigned, whose responses are pairwise distinct and each have a fitted
    model, [predictD] returns the frame whose columns are the [yLabels] in
    order, each holding the converted prediction of that response's model
    on the predictors; the estimator is left as it was.  And [predict(X)],
    once [check_array] accepts [X], is [predictD] of the frame built from
    [X] with the columns [xLabels]. *)
Theorem predictD_columns_follow_yLabels (data : DataFrame) (w : world)
    (ms : gmap string model) (fs : gmap string (gmap string effect))
    (X : DataFrame) (ys : list string) (cols : list pvalue) :
  models_ (self w) = Some ms →
  factors_ (self w) = Some fs →
  createX data w = (Ok X, w) →
  check_array X = Ok () →
  py_iter (yLabels (self w)) = Ok ys →
  NoDup ys →
  Forall2 (is_prediction ms X) ys cols →
  (∃ Y, predictD data w = (Ok Y, w) ∧ df_columns Y = ys ∧ Y = zip ys cols) ∧
  (∀ A d, check_array_nd A = Ok () →
          pd_DataFrame A (xLabels (self w)) = Ok d →
          predict A w = predictD d w).
Proof.
  intros Hms Hfs HX Hchk Hys Hnd Hpred. split.
  - exists (zip ys cols). split; [|split; [|done]].
    + unfold predictD, check_is_fitted. unfold bind at 1 2. unfold get_self at 1.
      rewrite Hms, Hfs. unfold ret at 1. unfold bind at 1. rewrite HX.
      unfold bind at 1. unfold lift at 1. rewrite Hchk.
      unfold bind at 1. unfold get_self at 1.
      unfold bind at 1. unfold lift at 1. rewrite Hys.
      rewrite (predictD_loop_spec X ms w Hms ys cols []); try done.
      intros y _. unfold df_columns. simpl. apply not_elem_of_nil.
    + unfold df_columns. apply fst_zip.
      apply Forall2_length in Hpred. lia.
  - intros A d HA Hd. unfold predict.
    unfold bind at 1. unfold lift at 1. rewrite HA.
    unfold bind at 1. unfold get_self at 1.
    unfold bind at 1. unfold lift at 1. by rewrite Hd.
Qed.

(** *** Choosing formulas *)

Lemma chooseFormula_loop_spec data grid n_jobs cv :
  ∀ ys acc w,
    searches_follow w grid n_jobs cv ys
      (chooseFormula_loop data grid n_jobs cv ys acc w).
Proof.
  induction ys as [|y ys IH]; intros acc w.
  - exists []. simpl. rewrite app_nil_r. by repeat split.
  - simpl.
    unfold bind at 1. unfold update_self at 1.
    unfold bind at 1. unfold get_self at 1.
    unfold bind at 1. unfold log at 1. simpl.
    set (est := set_yLabels (PList [y]) (self w)).
    set (c := CallGridSearch est grid n_jobs cv false).
    set (w1 := World est (calls w ++ [c])).
    assert (∀ (A : Type) (e : exn),
              searches_follow (A:=A) w grid n_jobs cv (y :: ys) (Raise e, w1))
      as Hstop.
    { intros A e. exists [c]. split; [done|]. simpl.
      split; [apply prefix_cons, prefix_nil|done]. }
    unfold bind at 1. pose proof (createX_store data w1) as HX.
    destruct (createX data w1) as [[X|e] w0]; simpl in HX; subst w0;
      [|apply Hstop].
    unfold bind at 1. unfold get_self at 1.
    unfold bind at 1. unfold lift at 1.
    destruct (createY (self w1) data) as [Y|e]; [|apply Hstop].
    unfold bind at 1. unfold lift at 1.
    destruct (GridSearchCV_fit est grid n_jobs cv X Y) as [res|e];
      [|apply Hstop].
    unfold bind at 1. unfold append_cv_results, bind, get_self.
    destruct (cv_results_ (self w1)) as [l|]; [|apply Hstop].
    simpl.
    match goal with
    | |- context [chooseFormula_loop _ _ _ _ _ ?acc' ?w2] =>
        destruct (IH acc' w2) as (new & Hcalls & Hpre & Hall)
    end.
    exists (c :: new). split; [|split].
    + rewrite Hcalls. simpl. by rewrite <- app_assoc.
    + simpl. by apply prefix_cons.
    + intros Hok. simpl. by rewrite Hall.
Qed.

(** Every search that [chooseFormula] constructs carries the [n_jobs]
    and the [cv] of the call, with [refit=False], one search per response
    and in the order of [yLabels], up to the response at which a library
    call raises; and once the loop over the responses has run to its end,
    [self.yLabels] holds again what it held before the call, whether or
    not the refit that may follow returns. *)
Lemma chooseFormula_search_spec (data : DataFrame)
    (grid : pyval) (n_jobs : Z) (cv : option cvspec) (refit : bool)
    (w : world) (ys : list string) :
  py_iter (yLabels (self w)) = Ok ys →
  let s := chooseFormula_search data grid n_jobs cv w in
  let r := chooseFormula data grid n_jobs cv refit w in
  ∃ new, calls r.2 = calls w ++ new ∧
    searches new `prefix_of` (expected_search grid n_jobs cv <$> ys) ∧
    (raises s.1 = false →
     searches new = expected_search grid n_jobs cv <$> ys ∧
     yLabels (self r.2) = yLabels (self w)).
Proof.
  intros Hys s r.
  set (P := λ s0 : result (pyval * list string) * world,
         searches_follow w grid n_jobs cv ys s0 ∧
         ∀ y0 fc, s0.1 = Ok (y0, fc) → y0 = yLabels (self w)).
  assert (P s) as [Hs Hy0].
  { subst s. unfold chooseFormula_search.
    unfold bind at 1. unfold update_self at 1.
    unfold bind at 1. unfold get_self at 1.
    unfold bind at 1. unfold lift at 1. simpl. rewrite Hys.
    unfold bind at 1.
    match goal with
    | |- context [chooseFormula_loop _ _ _ _ _ ?acc' ?w0] =>
        destruct (chooseFormula_loop_spec data grid n_jobs cv ys acc' w0)
          as (new & Hcalls & Hpre & Hall);
        destruct (chooseFormula_loop data grid n_jobs cv ys acc' w0)
          as [[fc|e] w1]
    end; subst P; simpl in *.
    - split; [by exists new|]. intros y0 fc' Heq. by simplify_eq.
    - split; [by exists new|]. done. }
  clear P.
  destruct Hs as (new & Hcalls & Hpre & Hall).
  set (Q := λ (s0 : result (pyval * list string) * world)
              (r0 : result () * world),
         ∃ new, calls r0.2 = calls w ++ new ∧
           searches new `prefix_of` (expected_search grid n_jobs cv <$> ys) ∧
           (raises s0.1 = false →
            searches new = expected_search grid n_jobs cv <$> ys ∧
            yLabels (self r0.2) = yLabels (self w))).
  change (Q s r).
  assert (r = match s with
              | (Ok (y0, fc), ws) =>
                  (update_self (set_formulas (PList fc)) ;;;
                   update_self (set_yLabels y0) ;;;
                   if refit then fitD data else ret ()) ws
              | (Raise e, ws) => (Raise e, ws)
              end) as ->.
  { subst r s. unfold chooseFormula. unfold bind at 1.
    by destruct (chooseFormula_search data grid n_jobs cv w) as [[[]|] ?]. }
  clearbody s. destruct s as [[[y0 fc]|e] ws]; simpl in Hcalls, Hall, Hy0.
  - specialize (Hy0 y0 fc eq_refl). subst y0.
    unfold bind at 1. unfold update_self at 1.
    unfold bind at 1. unfold update_self at 1. simpl.
    match goal with
    | |- context [(if refit then _ else _) ?w3] => set (w3' := w3)
    end.
    subst Q. simpl.
    assert (labels_kept w3' ((if refit then fitD data else ret ()) w3').2)
      as (_ & Hyl & new2 & Hcalls2 & Hs2).
    { destruct refit; [apply fitD_labels_kept|apply labels_kept_refl]. }
    exists (new ++ new2). split; [|split].
    + rewrite Hcalls2. simpl. by rewrite Hcalls, app_assoc.
    + unfold searches in *. by rewrite omap_app, Hs2, app_nil_r.
    + intros _. split; [|by rewrite Hyl].
      unfold searches in *. rewrite omap_app, Hs2, app_nil_r. by apply Hall.
  - subst Q. exists new. done.
Qed.

(** [createX] looks at [self.xLabels] only. *)
Lemma createX_loop_world X xs w w1 :
  createX_loop X xs w1 = ((createX_loop X xs w).1, w1).
Proof.
  revert X. induction xs as [|x xs IH]; intros X; simpl; [done|].
  unfold bind, lift. destruct (categorical_to_plain X x); [apply IH|done].
Qed.

Lemma createX_same_xLabels data X w w1 :
  xLabels (self w1) = xLabels (self w) →
  createX data w = (Ok X, w) →
  createX data w1 = (Ok X, w1).
Proof.
  intros Hx. unfold createX, bind, get_self, lift. rewrite Hx.
  destruct (df_getitem data (xLabels (self w))) as [X0|]; [|done].
  destruct (py_iter (xLabels (self w))) as [xs|]; [|done].
  rewrite (createX_loop_world X0 xs w w1). by intros ->.
Qed.

(** When the library calls return, the loop over the responses runs to
    its end. *)
Lemma chooseFormula_loop_returns data grid n_jobs cv X w ys :
  createX data w = (Ok X, w) →
  searches_return data grid n_jobs cv X w ys →
  ∀ ys' acc w1,
    ys' ⊆ ys →
    searching w w1 →
    raises (chooseFormula_loop data grid n_jobs cv ys' acc w1).1 = false.
Proof.
  intros HX Hret.
  induction ys' as [|y ys' IH]; intros acc w1 Hsub Hw1; [done|].
  destruct Hw1 as (Hx & Hf & Hp & Hm & Hfa & [rs Hrs]).
  simpl.
  unfold bind at 1. unfold update_self at 1.
  unfold bind at 1. unfold get_self at 1.
  unfold bind at 1. unfold log at 1. simpl.
  set (est := set_yLabels (PList [y]) (self w1)).
  set (c := CallGridSearch est grid n_jobs cv false).
  set (w2 := World est (calls w1 ++ [c])).
  unfold bind at 1.
  rewrite (createX_same_xLabels data X w w2 Hx HX).
  unfold bind at 1. unfold get_self at 1.
  destruct (Hret y est) as (Y & res & HY & Hres).
  { apply Hsub. by left. }
  { by repeat split. }
  unfold bind at 1. unfold lift at 1. simpl. rewrite HY.
  unfold bind at 1. unfold lift at 1. rewrite Hres.
  unfold bind at 1. unfold append_cv_results, bind, get_self. simpl.
  rewrite Hrs. simpl.
  apply IH.
  - intros y' Hy'. apply Hsub. by right.
  - by repeat split; simpl; eauto.
Qed.

(** C10: every search that [chooseFormula] constructs carries the
    [n_jobs] and the [cv] of the call together with the grid and
    [refit=False], and the searches follow [yLabels] in order, one per
    response.  When the library calls of the loop return ([createX] on
    the data, and for each response [createY] and the search on the
    estimator narrowed to it), there is a search for every response, and
    [self.yLabels] holds afterwards what it held before the call, whether
    or not the refit that may follow returns. *)
Theorem chooseFormula_forwards_and_restores (data : DataFrame)
    (grid : pyval) (n_jobs : Z) (cv : option cvspec) (refit : bool)
    (w : world) (ys : list string) :
  py_iter (yLabels (self w)) = Ok ys →
  let r := chooseFormula data grid n_jobs cv refit w in
  ∃ new, calls r.2 = calls w ++ new ∧
    searches new `prefix_of` (expected_search grid n_jobs cv <$> ys) ∧
    ∀ X, createX data w = (Ok X, w) →
         searches_return data grid n_jobs cv X w ys →
         searches new = expected_search grid n_jobs cv <$> ys ∧
         yLabels (self r.2) = yLabels (self w).
Proof.
  intros Hys r.
  destruct (chooseFormula_search_spec data grid n_jobs cv refit w ys Hys)
    as (new & Hcalls & Hpre & Hall).
  exists new. split; [done|]. split; [done|].
  intros X HX Hret. apply Hall.
  unfold chooseFormula_search.
  unfold bind at 1. unfold update_self at 1.
  unfold bind at 1. unfold get_self at 1.
  unfold bind at 1. unfold lift at 1. simpl. rewrite Hys.
  unfold bind at 1.
  match goal with
  | |- context [chooseFormula_loop _ _ _ _ _ ?acc' ?w0] =>
      pose proof (chooseFormula_loop_returns data grid n_jobs cv X w ys
                    HX Hret ys acc' w0) as Hloop;
      destruct (chooseFormula_loop data grid n_jobs cv ys acc' w0)
        as [[fc|e] w1]
  end; [done|].
  apply Hloop; [done|]. by repeat split; simpl; eauto.
Qed.

End mixed_facts.

Section mixed_examples.
Import Py Mixed Demo.

(** [formulas] of length 2 against three responses. *)
Lemma fitD_length_mismatch_witness :
  let w := Demo.world (PList ["a"; "b"; "c"]) (PTuple ["x"; "1"]) in
  fitD Demo.data w = (Raise (Exn RuntimeError length_message []), w) ∧
  models_ (self (fitD Demo.data w).2) = None ∧
  factors_ (self (fitD Demo.data w).2) = None ∧
  calls (fitD Demo.data w).2 = [].
Proof.
  intros w.
  apply (fitD_length_mismatch Demo.data w 2 3); [reflexivity|reflexivity|lia|lia].
Defined.

(** One formula, as a string, against two responses. *)
Lemma fitD_broadcasts_single_formula_witness :
  let w := Demo.world (PList ["a"; "b"]) (PStr "x + (1 | x)") in
  let r := fitD Demo.data w in
  formulas (self r.2) = PTuple ["x + (1 | x)"; "x + (1 | x)"] ∧
  ∃ new, calls r.2 = calls w ++ new ∧
    lmer_formulas new `prefix_of` ["a ~ x + (1 | x)"; "b ~ x + (1 | x)"] ∧
    (r.1 = Ok () → lmer_formulas new = ["a ~ x + (1 | x)"; "b ~ x + (1 | x)"]).
Proof.
  intros w.
  apply (fitD_broadcasts_single_formula Demo.data w "x + (1 | x)" ["a"; "b"]);
    [by left|reflexivity|simpl; lia].
Defined.

(** On that input every fit succeeds: both formulas reach [lmer]. *)
Example fitD_two_responses :
  let r := fitD Demo.data (Demo.world (PList ["a"; "b"]) (PStr "x")) in
  r.1 = Ok () ∧ lmer_formulas (calls r.2) = ["a ~ x"; "b ~ x"] ∧
  dom <$> models_ (self r.2) = Some ({["a"; "b"]} : gset string).
Proof. vm_compute. done. Qed.

(** An estimator fitted on two responses predicts a two-column frame. *)
Lemma predictD_columns_follow_yLabels_witness :
  let w := (fitD Demo.data (Demo.world (PList ["a"; "b"]) (PStr "x"))).2 in
  (∃ Y, predictD Demo.data w = (Ok Y, w) ∧ df_columns Y = ["a"; "b"] ∧
        Y = zip ["a"; "b"] [[5%Z]; [5%Z]]) ∧
  (∀ A d, check_array_nd A = Ok () →
          pd_DataFrame A (xLabels (self w)) = Ok d →
          predict A w = predictD d w).
Proof.
  intros w.
  eapply (predictD_columns_follow_yLabels Demo.data w _ _
            [("x", [1; 2; 3]%Z)] ["a"; "b"] [[5%Z]; [5%Z]]).
  - vm_compute. reflexivity.
  - vm_compute. reflexivity.
  - vm_compute. reflexivity.
  - reflexivity.
  - reflexivity.
  - apply (bool_decide_unpack _). vm_compute. exact I.
  - repeat constructor; do 2 eexists; (split; [|split]);
      vm_compute; reflexivity.
Defined.

(** C7, as stated, fails when a response label occurs twice: the fit
    succeeds, and [predictD] then returns a frame with the single column
    [a], not the two columns of [yLabels]. *)
Lemma predictD_duplicate_labels_counterexample :
  let fitted := fitD Demo.data (Demo.world (PList ["a"; "a"]) (PStr "x")) in
  let w := fitted.2 in
  fitted.1 = Ok () ∧
  py_iter (yLabels (self w)) = Ok ["a"; "a"] ∧
  ∃ Y, predictD Demo.data w = (Ok Y, w) ∧
       df_columns Y = ["a"] ∧ df_columns Y ≠ ["a"; "a"].
Proof.
  split; [vm_compute; reflexivity|].
  split; [vm_compute; reflexivity|].
  exists [("a", [5%Z])].
  split; [vm_compute; reflexivity|]. split; [reflexivity|discriminate].
Qed.

(** A search over two formulas for two responses, with four jobs and a
    three-fold split. *)
Lemma chooseFormula_forwards_and_restores_witness :
  let w := Demo.world (PList ["a"; "b"]) (PStr "x") in
  let grid := PList ["x"; "x + (1 | x)"] in
  let r := chooseFormula Demo.data grid 4 (Some 3) true w in
  ∃ new, calls r.2 = calls w ++ new ∧
    searches new =
      [(PList ["a"], grid, 4%Z, Some 3, false);
       (PList ["b"], grid, 4%Z, Some 3, false)] ∧
    yLabels (self r.2) = PList ["a"; "b"].
Proof.
  intros w grid r.
  destruct (chooseFormula_forwards_and_restores Demo.data grid 4 (Some 3)
              true w ["a"; "b"] eq_refl) as (new & Hcalls & _ & Hall).
  exists new. split; [exact Hcalls|].
  apply (Hall [("x", [1; 2; 3]%Z)]).
  - reflexivity.
  - intros y s Hy (_ & Hyl & _).
    unfold createY, GridSearchCV_fit, Demo.externals, Demo.getitem.
    rewrite Hyl.
    apply list_elem_of_In in Hy. simpl in Hy.
    destruct Hy as [<-|[<-|[]]]; eexists _, _; split; reflexivity.
Defined.

(** On that input the loop runs to its end, and so does the refit. *)
Example chooseFormula_two_responses :
  let w := Demo.world (PList ["a"; "b"]) (PStr "x") in
  let grid := PList ["x"; "x + (1 | x)"] in
  let r := chooseFormula Demo.data grid 4 (Some 3) true w in
  raises (chooseFormula_search Demo.data grid 4 (Some 3) w).1 = false ∧
  r.1 = Ok () ∧
  searches (calls r.2) =
    [(PList ["a"], grid, 4%Z, Some 3, false);
     (PList ["b"], grid, 4%Z, Some 3, false)] ∧
  yLabels (self r.2) = PList ["a"; "b"] ∧
  formulas (self r.2) = PList ["x"; "x"].
Proof. vm_compute. done. Qed.

(** When a search raises, the loop is left at once: nothing puts the
    full list back, and [self.yLabels] stays narrowed to the response that
    was being searched. *)
Example chooseFormula_interrupted :
  let w := Demo.world (PList ["a"; "b"]) (PStr "x") in
  let r := chooseFormula Demo.data (PList []) 1 None true w in
  raises r.1 = true ∧ yLabels (self r.2) = PList ["a"].
Proof. vm_compute. done. Qed.

(** Only [xLabels] is set: the guard passes, and the call goes on (to
    fail on the length of [yLabels]); nothing is set: the guard raises. *)
Example fitD_guard_passes_with_xLabels_only :
  (fitD_guard (Demo.world PNone (PTuple []))).1 = Ok () ∧
  kind <$> (match (fitD Demo.data (Demo.world PNone (PTuple []))).1 with
            | Raise e => Some e
            | Ok _ => None
            end) = Some TypeError ∧
  (fitD Demo.data
     (World (set_yLabels PNone
               (set_formulas (PStr "")
                  {| xLabels := PList []; yLabels := PNone;
                     formulas := PNone; LME4Params := ();
                     models_ := None; factors_ := None;
                     cv_results_ := None |})) [])).1
    = Raise (Exn RuntimeError guard_message []).
Proof. repeat split. Qed.

End mixed_examples.

(** ** The estimator, further *)

Section mixed_more.
Import Py Mixed.
Context `{!Foreign} `{!Externals}.

(** *** Taking a sequence apart *)

Lemma run_bind {S A B} (m : M S A) (k : A → M S B) (s s1 : S) (a : A) :
  m s = (Ok a, s1) → (let* x := m in k x) s = k a s1.
Proof. intros Hm. unfold bind. by rewrite Hm. Qed.

Lemma run_bind_raise {S A B} (m : M S A) (k : A → M S B) (s s1 : S) (e : exn) :
  m s = (Raise e, s1) → (let* x := m in k x) s = (Raise e, s1).
Proof. intros Hm. unfold bind. by rewrite Hm. Qed.

Lemma run_bind_inv {S A B} (m : M S A) (k : A → M S B) (s s' : S) (b : B) :
  (let* x := m in k x) s = (Ok b, s') →
  ∃ a s1, m s = (Ok a, s1) ∧ k a s1 = (Ok b, s').
Proof.
  unfold bind. destruct (m s) as [[a|e] s1]; [|done]. intros Hk. by exists a, s1.
Qed.

(** *** One formula for each response *)

Lemma fits_follow_each_stop (w : world) (fs ys : list string) (e : exn) :
  fits_follow_each w fs ys (Raise e, w).
Proof.
  split; [apply same_config_refl|].
  exists []. simpl. rewrite app_nil_r. split; [done|].
  split; [apply prefix_nil|done].
Qed.

Lemma fitD_loop_each X Y (ys : list string) :
  ∀ (fs : list string) (i : nat) (w : world),
    length fs = length ys →
    (∀ k f, fs !! k = Some f →
            py_getitem (formulas (self w)) (i + k) = Ok f) →
    fits_follow_each w fs ys
      (for_each (enumerate_from i ys) (fitD_fit_one X Y) w).
Proof.
  induction ys as [|y ys IH]; intros fs i w Hlen Hf.
  - destruct fs; [|done]. simpl. split; [apply same_config_refl|].
    exists []. simpl. rewrite app_nil_r. by repeat split.
  - destruct fs as [|f fs]; [done|]. simpl in Hlen.
    destruct (fitD_fit_one_spec X Y i y f w) as (Hcfg & new & Hcalls & Hnew).
    { rewrite <- (Nat.add_0_r i). by apply Hf. }
    change (for_each (enumerate_from i (y :: ys)) (fitD_fit_one X Y) w)
      with ((fitD_fit_one X Y (i, y) ;;;
             for_each (enumerate_from (S i) ys) (fitD_fit_one X Y)) w).
    unfold bind at 1.
    destruct (fitD_fit_one X Y (i, y) w) as [[[]|e] w1] eqn:Hone;
      simpl in Hcfg, Hcalls, Hnew.
    + destruct Hnew as [[_ ?]|Hnew]; [done|].
      destruct (IH fs (S i) w1) as (Hcfg' & new' & Hcalls' & Hpre & Hall).
      { lia. }
      { intros k f' Hk. destruct Hcfg as (_ & _ & -> & _).
        rewrite Nat.add_succ_comm. by apply Hf. }
      split; [by eapply same_config_trans|].
      exists (new ++ new'). split; [by rewrite Hcalls', Hcalls, app_assoc|].
      unfold lmer_formulas in *. rewrite omap_app, Hnew. simpl.
      split; [by apply prefix_cons|]. intros Hok. by rewrite Hall.
    + split; [done|]. exists new. split; [done|].
      split; [|done]. simpl.
      destruct Hnew as [[-> _] | Hnew]; [apply prefix_nil|rewrite Hnew].
      apply prefix_cons, prefix_nil.
Qed.

Lemma fitD_models_each (data : DataFrame) (w : world) (fs ys : list string) :
  py_iter (yLabels (self w)) = Ok ys →
  length fs = length ys →
  (∀ k f, fs !! k = Some f → py_getitem (formulas (self w)) k = Ok f) →
  fits_follow_each w fs ys (fitD_models data w).
Proof.
  intros Hys Hlen Hf.
  unfold fitD_models. unfold bind at 1.
  pose proof (createX_store data w) as HX.
  destruct (createX data w) as [[X|e] w0]; simpl in HX; subst w0;
    [|apply fits_follow_each_stop].
  unfold bind at 1. unfold get_self at 1. unfold bind at 1. unfold lift at 1.
  destruct (createY (self w) data) as [Y|e]; [|apply fits_follow_each_stop].
  unfold bind at 1. unfold lift at 1.
  destruct (check_X_y X Y) as [[]|e]; [|apply fits_follow_each_stop].
  unfold bind at 1. unfold update_self at 1.
  unfold bind at 1. unfold update_self at 1.
  unfold bind at 1. unfold get_self at 1.
  unfold bind at 1. unfold lift at 1. simpl. rewrite Hys.
  match goal with |- context [for_each _ _ ?w1] => set (w1' := w1) end.
  destruct (fitD_loop_each X Y ys fs 0 w1' Hlen)
    as (Hcfg & new & Hcalls & Hpre & Hall).
  { intros k f Hk. simpl. by apply Hf. }
  split.
  - eapply same_config_trans; [exact Hcfg|]. by repeat split.
  - exists new. done.
Qed.

Lemma fitD_one_formula_per_response_aux (data : DataFrame) (w : world)
    (fs ys : list string) :
  formulas (self w) = PTuple fs ∨ formulas (self w) = PList fs →
  py_iter (yLabels (self w)) = Ok ys →
  length fs = length ys →
  let r := fitD data w in
  formulas (self r.2) = formulas (self w) ∧
  ∃ new, calls r.2 = calls w ++ new ∧
    lmer_formulas new
      `prefix_of` zip_with (λ y f, y +:+ " ~ " +:+ f) ys fs ∧
    (r.1 = Ok () →
     lmer_formulas new = zip_with (λ y f, y +:+ " ~ " +:+ f) ys fs).
Proof.
  intros Hfs Hys Hlen r. subst r.
  rewrite fitD_after_guard.
  destruct (decide _) as [_|_].
  { split; [done|]. exists []. simpl. rewrite app_nil_r.
    split; [done|]. split; [apply prefix_nil|done]. }
  pose proof (py_iter_len _ _ Hys) as Hny.
  assert ((fitD_wrap ;;; fitD_reconcile ;;; fitD_models data) w
          = fitD_models data w) as ->.
  { unfold fitD_wrap, fitD_reconcile, bind, get_self, lift, ret.
    destruct Hfs as [Hfs|Hfs]; rewrite Hfs; simpl; rewrite ?Hfs; simpl;
      rewrite Hny, Hlen; by rewrite Nat.eqb_refl. }
  destruct (fitD_models_each data w fs ys Hys Hlen) as (Hcfg & Hcalls).
  { intros k f Hk. destruct Hfs as [-> | ->]; simpl; by rewrite Hk. }
  split; [|exact Hcalls]. by destruct Hcfg as (_ & _ & -> & _).
Qed.

(** X1: when [formulas] is a tuple or a list with one formula for each
    response, [fitD] leaves [self.formulas] as it is, and the calls to
    [lmer] follow the responses in order, the [i]-th with the formula
    [yLabels[i] ~ formulas[i]]; all of them are made when [fitD]
    returns. *)
Theorem fitD_one_formula_per_response (data : DataFrame) (w : world)
    (fs ys : list string) :
  formulas (self w) = PTuple fs ∨ formulas (self w) = PList fs →
  py_iter (yLabels (self w)) = Ok ys →
  length fs = length ys →
  let r := fitD data w in
  formulas (self r.2) = formulas (self w) ∧
  ∃ new, calls r.2 = calls w ++ new ∧
    lmer_formulas new
      `prefix_of` zip_with (λ y f, y +:+ " ~ " +:+ f) ys fs ∧
    (r.1 = Ok () →
     lmer_formulas new = zip_with (λ y f, y +:+ " ~ " +:+ f) ys fs).
Proof. apply fitD_one_formula_per_response_aux. Qed.

(** *** What a fit leaves behind *)

Lemma only_models_refl w : only_models w w.
Proof. split; [apply same_config_refl|]. exists []. by rewrite app_nil_r. Qed.

Lemma only_models_trans w1 w2 w3 :
  only_models w1 w2 → only_models w2 w3 → only_models w1 w3.
Proof.
  intros (Hc & n1 & Hc1 & Hs1) (Hc' & n2 & Hc2 & Hs2).
  split; [by eapply same_config_trans|].
  exists (n1 ++ n2). split; [by rewrite Hc2, Hc1, app_assoc|].
  unfold searches in *. by rewrite omap_app, Hs1, Hs2.
Qed.

Lemma only_models_bind {A B} (m : M world A) (k : A → M world B) :
  (∀ w, only_models w (m w).2) →
  (∀ a w, only_models w (k a w).2) →
  ∀ w, only_models w ((let* a := m in k a) w).2.
Proof.
  intros Hm Hk w. unfold bind. specialize (Hm w).
  destruct (m w) as [[a|e] w1]; simpl in *; [|done].
  eapply only_models_trans; [exact Hm|apply Hk].
Qed.

Ltac models_here :=
  first [ apply only_models_refl
        | simpl; split; [by repeat split|exists []; by rewrite app_nil_r] ].

Lemma only_models_for_each {A} (body : A → M world unit) (xs : list A) :
  (∀ a w, only_models w (body a w).2) →
  ∀ w, only_models w (for_each xs body w).2.
Proof.
  intros Hbody. induction xs as [|x xs IH]; intros w; simpl.
  - apply only_models_refl.
  - apply only_models_bind; [apply Hbody|intros _; apply IH].
Qed.

Lemma fitD_fit_one_only_models X Y iy w :
  only_models w (fitD_fit_one X Y iy w).2.
Proof.
  destruct iy as [ii yLabel]. unfold fitD_fit_one. revert w.
  apply only_models_bind; [intros; models_here|intros Ycol].
  apply only_models_bind; [intros; models_here|intros subData].
  apply only_models_bind; [intros; models_here|intros s].
  apply only_models_bind; [intros; models_here|intros f].
  apply only_models_bind; [intros; models_here|intros s'].
  apply only_models_bind.
  { intros w. split; [apply same_config_refl|]. eexists. split; done. }
  intros _.
  apply only_models_bind; [intros; models_here|intros mdl].
  apply only_models_bind.
  { intros w. unfold setitem_models, bind, get_self.
    destruct (models_ (self w)); models_here. }
  intros _.
  apply only_models_bind; [intros; models_here|intros fac].
  intros w. unfold setitem_factors, bind, get_self.
  destruct (factors_ (self w)); models_here.
Qed.

Lemma fitD_models_only_models data w : only_models w (fitD_models data w).2.
Proof.
  unfold fitD_models. revert w.
  apply only_models_bind.
  { intros w. rewrite createX_store. apply only_models_refl. }
  intros X.
  apply only_models_bind; [intros; models_here|intros s].
  apply only_models_bind; [intros; models_here|intros Y].
  apply only_models_bind; [intros; models_here|intros _].
  apply only_models_bind; [intros; models_here|intros _].
  apply only_models_bind; [intros; models_here|intros _].
  apply only_models_bind; [intros; models_here|intros s'].
  apply only_models_bind; [intros; models_here|intros ys].
  apply only_models_for_each. intros; apply fitD_fit_one_only_models.
Qed.

(** The two steps before the fits assign [formulas] and nothing else. *)
Lemma fitD_wrap_reconcile_frame (w : world) :
  ∃ fs, ((fitD_wrap ;;; fitD_reconcile) w).2
        = World (set_formulas fs (self w)) (calls w).
Proof.
  assert (∀ w0 : world, w0 = World (set_formulas (formulas (self w0)) (self w0))
                                   (calls w0)) as Hid.
  { intros [[] ?]. done. }
  unfold fitD_wrap, fitD_reconcile, bind, get_self, lift, update_self, ret, raise.
  destruct (formulas (self w)) as [|f|l|l] eqn:Ef; simpl; rewrite ?Ef; simpl.
  - exists PNone. rewrite <- Ef. apply Hid.
  - destruct (py_len (yLabels (self w))) as [ny|e]; simpl.
    + destruct (negb _); [|by eexists]. simpl. by eexists.
    + by eexists.
  - destruct (py_len (yLabels (self w))) as [ny|e]; simpl.
    + destruct (negb _); [|exists (PTuple l); rewrite <- Ef; apply Hid].
      destruct (length l =? 1)%nat; simpl;
        [by eexists|exists (PTuple l); rewrite <- Ef; apply Hid].
    + exists (PTuple l). rewrite <- Ef. apply Hid.
  - destruct (py_len (yLabels (self w))) as [ny|e]; simpl.
    + destruct (negb _); [|exists (PList l); rewrite <- Ef; apply Hid].
      destruct (length l =? 1)%nat; simpl;
        [by eexists|exists (PList l); rewrite <- Ef; apply Hid].
    + exists (PList l). rewrite <- Ef. apply Hid.
Qed.

Lemma fitD_only_fitted data w : only_fitted w (fitD data w).2.
Proof.
  rewrite fitD_after_guard. destruct (decide _) as [_|_].
  { repeat split. exists []. by rewrite app_nil_r. }
  destruct (fitD_wrap_reconcile_frame w) as [fs Hfs].
  change ((fitD_wrap ;;; fitD_reconcile ;;; fitD_models data) w)
    with (Py.bind fitD_wrap (λ _, Py.bind fitD_reconcile
            (λ _, fitD_models data)) w).
  assert (∀ (A : Type) (k : M world A),
            Py.bind fitD_wrap (λ _, Py.bind fitD_reconcile (λ _, k)) w
            = Py.bind (fitD_wrap ;;; fitD_reconcile) (λ _, k) w) as ->.
  { intros A k. unfold bind. destruct (fitD_wrap w) as [[[]|e] w1]; [|done].
    by destruct (fitD_reconcile w1) as [[[]|e] w2]. }
  unfold bind at 1.
  destruct ((fitD_wrap ;;; fitD_reconcile) w) as [[[]|e] w2]; simpl in Hfs;
    subst w2.
  - destruct (fitD_models_only_models data
                (World (set_formulas fs (self w)) (calls w)))
      as ((Hx & Hy & _ & Hp & Hcv) & new & Hcalls & Hs).
    simpl in *. repeat split; try done. by exists new.
  - repeat split. exists []. by rewrite app_nil_r.
Qed.

(** X2: [fitD] assigns [formulas], [models_] and [factors_] and nothing
    else: [xLabels], [yLabels], [LME4Params] and [cv_results_] are what
    they were, whether [fitD] returns or raises, and no search is
    constructed. *)
Theorem fitD_assigns_only_formulas_and_models (data : DataFrame) (w : world) :
  let w' := (fitD data w).2 in
  xLabels (self w') = xLabels (self w) ∧
  yLabels (self w') = yLabels (self w) ∧
  LME4Params (self w') = LME4Params (self w) ∧
  cv_results_ (self w') = cv_results_ (self w) ∧
  ∃ new, calls w' = calls w ++ new ∧ searches new = [].
Proof. apply fitD_only_fitted. Qed.

(** *** The state a successful fit reaches *)

Lemma fitD_fit_one_inv X Y (ii : nat) (yLabel : string) (w w' : world)
    (ms : gmap string model) (fs : gmap string (gmap string effect)) :
  fitD_fit_one X Y (ii, yLabel) w = (Ok (), w') →
  models_ (self w) = Some ms →
  factors_ (self w) = Some fs →
  ∃ mdl fac,
    models_ (self w') = Some (<[yLabel := mdl]> ms) ∧
    factors_ (self w') = Some (<[yLabel := fac]> fs).
Proof.
  intros Hrun Hms Hfs. destruct w as [s cs]. simpl in Hms, Hfs.
  unfold fitD_fit_one, setitem_models, setitem_factors, bind, lift, get_self,
    log, update_self, raise in Hrun; simpl in Hrun.
  destruct (df_column Y yLabel); simpl in Hrun; [|done].
  destruct (pd_concat X a); simpl in Hrun; [|done].
  destruct (py_getitem (formulas s) ii); simpl in Hrun; [|done].
  destruct (lmer _ _ _) as [mdl|]; simpl in Hrun; [|done].
  rewrite Hms in Hrun. simpl in Hrun.
  destruct (_factor mdl) as [fac|]; simpl in Hrun; [|done].
  rewrite Hfs in Hrun. simpl in Hrun. simplify_eq/=.
  by exists mdl, fac.
Qed.

Lemma fitD_loop_inv X Y (ys : list string) :
  ∀ (i : nat) (w w' : world) ms fs,
    for_each (enumerate_from i ys) (fitD_fit_one X Y) w = (Ok (), w') →
    models_ (self w) = Some ms →
    factors_ (self w) = Some fs →
    ∃ ms' fs',
      models_ (self w') = Some ms' ∧ factors_ (self w') = Some fs' ∧
      dom ms' = dom ms ∪ list_to_set ys ∧
      dom fs' = dom fs ∪ list_to_set ys.
Proof.
  induction ys as [|y ys IH]; intros i w w' ms fs Hrun Hms Hfs.
  - simpl in Hrun. unfold ret in Hrun. simplify_eq.
    exists ms, fs. repeat split; try done; simpl;
      by rewrite (right_id_L ∅ (∪)).
  - change (for_each (enumerate_from i (y :: ys)) (fitD_fit_one X Y) w)
      with ((fitD_fit_one X Y (i, y) ;;;
             for_each (enumerate_from (S i) ys) (fitD_fit_one X Y)) w) in Hrun.
    apply run_bind_inv in Hrun as ([] & w1 & Hone & Hrest).
    destruct (fitD_fit_one_inv X Y i y w w1 ms fs Hone Hms Hfs)
      as (mdl & fac & Hms1 & Hfs1).
    destruct (IH (S i) w1 w' _ _ Hrest Hms1 Hfs1)
      as (ms' & fs' & Hms' & Hfs' & Hdm & Hdf).
    exists ms', fs'. split; [done|]. split; [done|].
    rewrite Hdm, Hdf, !dom_insert_L. simpl.
    split; by rewrite (comm_L (∪) {[y]}), <- (assoc_L (∪)).
Qed.

Lemma fitD_models_inv (data : DataFrame) (w w' : world) :
  fitD_models data w = (Ok (), w') →
  ∃ ys ms fs,
    py_iter (yLabels (self w)) = Ok ys ∧
    models_ (self w') = Some ms ∧ factors_ (self w') = Some fs ∧
    dom ms = list_to_set ys ∧ dom fs = list_to_set ys.
Proof.
  intros Hrun. unfold fitD_models in Hrun.
  apply run_bind_inv in Hrun as (X & wa & HX & Hrun).
  pose proof (createX_store data w) as Hst. rewrite HX in Hst.
  simpl in Hst. subst wa.
  unfold bind at 1 in Hrun. unfold get_self at 1 in Hrun.
  unfold bind at 1 in Hrun. unfold lift at 1 in Hrun.
  destruct (createY (self w) data) as [Y|e]; [|done].
  unfold bind at 1 in Hrun. unfold lift at 1 in Hrun.
  destruct (check_X_y X Y) as [[]|e]; [|done].
  unfold bind at 1 in Hrun. unfold update_self at 1 in Hrun.
  unfold bind at 1 in Hrun. unfold update_self at 1 in Hrun.
  unfold bind at 1 in Hrun. unfold get_self at 1 in Hrun.
  unfold bind at 1 in Hrun. unfold lift at 1 in Hrun. simpl in Hrun.
  destruct (py_iter (yLabels (self w))) as [ys|e]; [|done].
  destruct (fitD_loop_inv X Y ys 0 _ w' ∅ ∅ Hrun eq_refl eq_refl)
    as (ms & fs & Hms & Hfs & Hdm & Hdf).
  exists ys, ms, fs.
  rewrite dom_empty_L, (left_id_L ∅ (∪)) in Hdm.
  rewrite dom_empty_L, (left_id_L ∅ (∪)) in Hdf. done.
Qed.

Lemma length_mjoin_replicate {A} (n : nat) (l : list A) :
  length (mjoin (replicate n l)) = n * length l.
Proof.
  induction n as [|n IH]; simpl; [done|]. by rewrite length_app, IH.
Qed.

(** What lines 41-48 establish when they pass. *)
Lemma fitD_wrap_reconcile_inv (w w' : world) :
  (fitD_wrap ;;; fitD_reconcile) w = (Ok (), w') →
  is_str (formulas (self w')) = false ∧
  py_len (formulas (self w')) = py_len (yLabels (self w')) ∧
  yLabels (self w') = yLabels (self w).
Proof.
  destruct w as [s cs].
  unfold fitD_wrap, fitD_reconcile, bind, get_self, lift, update_self, ret, raise.
  simpl.
  destruct (formulas s) as [|f|l|l] eqn:Ef; simpl; rewrite ?Ef; simpl.
  - done.
  - destruct (py_len (yLabels s)) as [ny|e] eqn:Ey; simpl; [|done].
    destruct ny as [|[|ny]]; simpl; intros [= <-]; simpl; rewrite Ey;
      [done|done|].
    by rewrite length_mjoin_replicate, Nat.mul_1_r.
  - destruct (py_len (yLabels s)) as [ny|e] eqn:Ey; simpl; [|done].
    destruct (Nat.eqb_spec (length l) ny) as [<-|Hne]; simpl.
    + intros [= <-]; simpl. by rewrite Ef, Ey.
    + destruct (Nat.eqb_spec (length l) 1) as [H1|]; simpl; [|done].
      intros [= <-]; simpl. rewrite Ey, length_mjoin_replicate, H1.
      by rewrite Nat.mul_1_r.
  - destruct (py_len (yLabels s)) as [ny|e] eqn:Ey; simpl; [|done].
    destruct (Nat.eqb_spec (length l) ny) as [<-|Hne]; simpl.
    + intros [= <-]; simpl. by rewrite Ef, Ey.
    + destruct (Nat.eqb_spec (length l) 1) as [H1|]; simpl; [|done].
      intros [= <-]; simpl. rewrite Ey, length_mjoin_replicate, H1.
      by rewrite Nat.mul_1_r.
Qed.

(** A [fitD] that returns has left a fitted, consistent estimator. *)
Lemma fitD_returns_inv (data : DataFrame) (w w' : world) :
  fitD data w = (Ok (), w') →
  ∃ ys ms fs,
    py_iter (yLabels (self w')) = Ok ys ∧
    yLabels (self w') = yLabels (self w) ∧
    models_ (self w') = Some ms ∧ factors_ (self w') = Some fs ∧
    dom ms = list_to_set ys ∧ dom fs = list_to_set ys ∧
    is_str (formulas (self w')) = false ∧
    py_len (formulas (self w')) = Ok (length ys).
Proof.
  intros Hrun. rewrite fitD_after_guard in Hrun.
  destruct (decide _) as [_|_]; [done|].
  assert (∃ w1, (fitD_wrap ;;; fitD_reconcile) w = (Ok (), w1) ∧
                fitD_models data w1 = (Ok (), w')) as (w1 & Hpre & Hfit).
  { unfold bind in Hrun |- *.
    destruct (fitD_wrap w) as [[[]|e] wa]; [|done].
    destruct (fitD_reconcile wa) as [[[]|e] wb]; [|done]. by exists wb. }
  destruct (fitD_wrap_reconcile_inv w w1 Hpre) as (Hstr & Hlen & Hy).
  destruct (fitD_models_inv data w1 w' Hfit)
    as (ys & ms & fs & Hys & Hms & Hfs & Hdm & Hdf).
  destruct (fitD_models_only_models data w1) as ((_ & Hy' & Hf' & _) & _).
  rewrite Hfit in Hy', Hf'. simpl in Hy', Hf'.
  exists ys, ms, fs. rewrite Hy', Hf'.
  split; [done|]. split; [done|]. split; [done|]. split; [done|].
  split; [done|]. split; [done|]. split; [done|].
  rewrite Hlen. by apply py_iter_len.
Qed.

(** X3: when [fitD] returns, [models_] and [factors_] are assigned and
    hold an entry for exactly the responses in [yLabels], and
    [self.formulas] is a tuple or a list, not a string, with as many
    formulas as there are responses. *)
Theorem fitD_leaves_fitted_estimator (data : DataFrame) (w w' : world) :
  fitD data w = (Ok (), w') →
  ∃ ys ms fs,
    py_iter (yLabels (self w')) = Ok ys ∧
    models_ (self w') = Some ms ∧ factors_ (self w') = Some fs ∧
    (∀ y, is_Some (ms !! y) ↔ y ∈ ys) ∧
    (∀ y, is_Some (fs !! y) ↔ y ∈ ys) ∧
    is_str (formulas (self w')) = false ∧
    py_len (formulas (self w')) = Ok (length ys).
Proof.
  intros Hrun.
  destruct (fitD_returns_inv data w w' Hrun)
    as (ys & ms & fs & Hys & _ & Hms & Hfs & Hdm & Hdf & Hstr & Hlen).
  exists ys, ms, fs. repeat split; try done.
  - intros Hy. apply elem_of_dom in Hy. rewrite Hdm in Hy.
    by apply elem_of_list_to_set in Hy.
  - intros Hy. apply elem_of_dom. rewrite Hdm. by apply elem_of_list_to_set.
  - intros Hy. apply elem_of_dom in Hy. rewrite Hdf in Hy.
    by apply elem_of_list_to_set in Hy.
  - intros Hy. apply elem_of_dom. rewrite Hdf. by apply elem_of_list_to_set.
Qed.

Lemma predictions_exist (ms : gmap string model) (X : DataFrame)
    (ys : list string) :
  (∀ y, y ∈ ys → ∃ c, is_prediction ms X y c) →
  ∃ cols, Forall2 (is_prediction ms X) ys cols.
Proof.
  induction ys as [|y ys IH]; intros Hall.
  - by exists [].
  - destruct (Hall y) as [c Hc]; [left|].
    destruct IH as [cols Hcols]; [intros y' Hy'; apply Hall; by right|].
    exists (c :: cols). by constructor.
Qed.

(** X4: after a [fitD] that returned, on an estimator whose responses are
    pairwise distinct, [predictD] finds a model for every response: once
    [createX] and [check_array] accept the new data and [predict_merMod]
    answers for the fitted models, it returns a frame whose columns are
    the [yLabels] in order, and it raises neither [NotFittedError] nor
    [KeyError]. *)
Theorem predictD_after_fitD (data newdata : DataFrame) (w w' : world)
    (X : DataFrame) (ys : list string) :
  fitD data w = (Ok (), w') →
  py_iter (yLabels (self w)) = Ok ys →
  NoDup ys →
  createX newdata w' = (Ok X, w') →
  check_array X = Ok () →
  (∀ ms y m, models_ (self w') = Some ms → ms !! y = Some m →
             ∃ r, predict_merMod m X = Ok r) →
  ∃ Y, predictD newdata w' = (Ok Y, w') ∧ df_columns Y = ys.
Proof.
  intros Hfit Hys Hnd HX Hchk Hpred.
  destruct (fitD_returns_inv data w w' Hfit)
    as (ys' & ms & fs & Hys' & Hy & Hms & Hfs & Hdm & _).
  rewrite Hy, Hys in Hys'. simplify_eq.
  destruct (predictions_exist ms X ys') as [cols Hcols].
  { intros y Hin.
    assert (is_Some (ms !! y)) as [m Hm].
    { apply elem_of_dom. rewrite Hdm. by apply elem_of_list_to_set. }
    destruct (Hpred ms y m Hms Hm) as [r Hr].
    exists (ri2py r), m, r. done. }
  exists (zip ys' cols). split.
  - unfold predictD, check_is_fitted. unfold bind at 1 2. unfold get_self at 1.
    rewrite Hms, Hfs. unfold ret at 1. unfold bind at 1. rewrite HX.
    unfold bind at 1. unfold lift at 1. rewrite Hchk.
    unfold bind at 1. unfold get_self at 1.
    unfold bind at 1. unfold lift at 1. rewrite Hy, Hys.
    rewrite (predictD_loop_spec X ms w' Hms ys' cols []); try done.
    intros y _. unfold df_columns. simpl. apply not_elem_of_nil.
  - unfold df_columns. apply fst_zip.
    apply Forall2_length in Hcols. lia.
Qed.

(** *** Predicting reads, and fails early *)

Lemma predictD_loop_store X (ys : list string) :
  ∀ Y w, (predictD_loop X Y ys w).2 = w.
Proof.
  induction ys as [|y ys IH]; intros Y w; simpl; [done|].
  unfold getitem_models. unfold bind, get_self, lift, ret, raise.
  destruct (models_ (self w)) as [ms|]; simpl; [|done].
  destruct (ms !! y) as [m|]; simpl; [|done].
  destruct (predict_merMod m X); simpl; [apply IH|done].
Qed.

Lemma predictD_store data w : (predictD data w).2 = w.
Proof.
  unfold predictD, check_is_fitted. unfold bind at 1 2. unfold get_self at 1.
  destruct (models_ (self w)); [|done].
  destruct (factors_ (self w)); [|done].
  unfold ret at 1. unfold bind at 1.
  pose proof (createX_store data w) as HX.
  destruct (createX data w) as [[X|e] w0]; simpl in HX; subst w0; [|done].
  unfold bind at 1. unfold lift at 1.
  destruct (check_array X) as [[]|e]; [|done].
  unfold bind at 1. unfold get_self at 1.
  unfold bind at 1. unfold lift at 1.
  destruct (py_iter (yLabels (self w))); [|done].
  apply predictD_loop_store.
Qed.

(** X5: [predictD] and [predict] only read the estimator: whatever the
    data and whether they return or raise, every attribute is afterwards
    what it was, and neither [lmer] nor a search has been called. *)
Theorem predict_leaves_estimator_alone (data : DataFrame) (A : ndarray)
    (w : world) :
  (predictD data w).2 = w ∧ (predict A w).2 = w.
Proof.
  split; [apply predictD_store|].
  unfold predict. unfold bind at 1. unfold lift at 1.
  destruct (check_array_nd A) as [[]|e]; [|done].
  unfold bind at 1. unfold get_self at 1.
  unfold bind at 1. unfold lift at 1.
  destruct (pd_DataFrame A (xLabels (self w))); [|done].
  apply predictD_store.
Qed.

(** X6: on an estimator on which [models_] or [factors_] has not been
    assigned, [predictD] raises [NotFittedError] whatever the data, and
    [predict] does so as soon as [check_array] has accepted its argument
    and the frame has been built. *)
Theorem predict_before_fit_raises (data : DataFrame) (A : ndarray)
    (d : DataFrame) (w : world) :
  models_ (self w) = None ∨ factors_ (self w) = None →
  check_array_nd A = Ok () →
  pd_DataFrame A (xLabels (self w)) = Ok d →
  (∃ e, predictD data w = (Raise e, w) ∧ kind e = NotFittedError) ∧
  (∃ e, predict A w = (Raise e, w) ∧ kind e = NotFittedError).
Proof.
  intros Hnone HA Hd.
  assert (∀ data', ∃ e, predictD data' w = (Raise e, w) ∧
                         kind e = NotFittedError) as Hp.
  { intros data'.
    exists (Exn NotFittedError "This BetterLME4 instance is not fitted yet" []).
    split; [|reflexivity].
    unfold predictD, check_is_fitted. unfold bind at 1 2. unfold get_self at 1.
    destruct Hnone as [-> | ->]; [done|].
    by destruct (models_ (self w)). }
  split; [apply Hp|].
  destruct (Hp d) as (e & He & Hk). exists e. split; [|done].
  unfold predict. unfold bind at 1. unfold lift at 1. rewrite HA.
  unfold bind at 1. unfold get_self at 1.
  unfold bind at 1. unfold lift at 1. by rewrite Hd.
Qed.

Lemma predictD_loop_missing X ms (w : world) (y : string) (post : list string) :
  models_ (self w) = Some ms →
  ms !! y = None →
  ∀ pre cols Y,
    Forall2 (is_prediction ms X) pre cols →
    predictD_loop X Y (pre ++ y :: post) w = (Raise (Exn KeyError y []), w).
Proof.
  intros Hms Hy. induction pre as [|p pre IH]; intros cols Y Hpred.
  - simpl. unfold getitem_models. unfold bind, get_self. by rewrite Hms, Hy.
  - apply Forall2_cons_inv_l in Hpred
      as (c & cols' & (m & r & Hm & Hr & ->) & Hpred & ->).
    simpl. unfold bind at 1. unfold getitem_models, bind, get_self, lift.
    rewrite Hms, Hm. simpl. rewrite Hr. simpl. by eapply IH.
Qed.

(** X7: when a response in [yLabels] has no entry in [models_] (the
    labels were changed after the fit), [predictD] raises [KeyError] for
    the first such response, the ones before it having been predicted;
    the estimator is left as it was. *)
Theorem predictD_missing_model_raises (data : DataFrame) (w : world)
    (ms : gmap string model) (fs : gmap string (gmap string effect))
    (X : DataFrame) (pre post : list string) (y : string)
    (cols : list pvalue) :
  models_ (self w) = Some ms →
  factors_ (self w) = Some fs →
  createX data w = (Ok X, w) →
  check_array X = Ok () →
  py_iter (yLabels (self w)) = Ok (pre ++ y :: post) →
  Forall2 (is_prediction ms X) pre cols →
  ms !! y = None →
  predictD data w = (Raise (Exn KeyError y []), w).
Proof.
  intros Hms Hfs HX Hchk Hys Hpred Hy.
  unfold predictD, check_is_fitted. unfold bind at 1 2. unfold get_self at 1.
  rewrite Hms, Hfs. unfold ret at 1. unfold bind at 1. rewrite HX.
  unfold bind at 1. unfold lift at 1. rewrite Hchk.
  unfold bind at 1. unfold get_self at 1.
  unfold bind at 1. unfold lift at 1. rewrite Hys.
  by eapply predictD_loop_missing.
Qed.

(** *** The dictionary of effects *)

Lemma foldl_insert_not_in {K V W} `{Countable K} (g : V → W)
    (l : list (K * V)) :
  ∀ (d : gmap K W) (k : K),
    k ∉ l.*1 →
    foldl (λ d '(name, elem), <[name := g elem]> d) d l !! k = d !! k.
Proof.
  induction l as [|[k' v] l IH]; intros d k Hk; simpl; [done|].
  simpl in Hk. apply not_elem_of_cons in Hk as [Hne Hk].
  rewrite IH; [|done]. by rewrite lookup_insert_ne.
Qed.

Lemma foldl_insert_in {K V W} `{Countable K} (g : V → W)
    (l : list (K * V)) :
  ∀ (d : gmap K W) (k : K),
    k ∈ l.*1 →
    ∃ v, (k, v) ∈ l ∧
         foldl (λ d '(name, elem), <[name := g elem]> d) d l !! k
           = Some (g v).
Proof.
  induction l as [|[k' v] l IH]; intros d k Hk; simpl in *.
  - by apply elem_of_nil in Hk.
  - destruct (decide (k ∈ l.*1)) as [Hin|Hnot].
    + destruct (IH (<[k' := g v]> d) k Hin) as (v' & Hv' & Hl).
      exists v'. split; [by right|done].
    + apply elem_of_cons in Hk as [->|Hk]; [|done].
      exists v. split; [by left|].
      rewrite foldl_insert_not_in; [|done]. by rewrite lookup_insert_eq.
Qed.

(** X8: [_factor] returns one dictionary for the random and the fixed
    effects of a model.  A name among the fixed effects maps to a fixed
    effect, also when a random effect has the same name; any other name
    among the random effects maps to the converted random effect; no other
    name is in the dictionary. *)
Theorem factor_fixed_effects_override (m : model)
    (rEffs fEffs : list (string * rvalue)) :
  random_effects m = Ok rEffs →
  fixed_effects m = Ok fEffs →
  ∃ factor, _factor m = Ok factor ∧
    (∀ name, name ∈ fEffs.*1 →
       ∃ e, (name, e) ∈ fEffs ∧ factor !! name = Some (FixedEffect e)) ∧
    (∀ name, name ∉ fEffs.*1 → name ∈ rEffs.*1 →
       ∃ e, (name, e) ∈ rEffs ∧
            factor !! name = Some (RandomEffect (ri2py e))) ∧
    (∀ name, name ∉ fEffs.*1 → name ∉ rEffs.*1 → factor !! name = None).
Proof.
  intros Hr Hf. unfold _factor. rewrite Hr, Hf. eexists. split; [done|].
  split; [|split].
  - intros name Hin. by apply (foldl_insert_in FixedEffect).
  - intros name Hnf Hin.
    rewrite (foldl_insert_not_in FixedEffect); [|done].
    by apply (foldl_insert_in (λ e, RandomEffect (ri2py e))).
  - intros name Hnf Hnr.
    rewrite (foldl_insert_not_in FixedEffect); [|done].
    by rewrite (foldl_insert_not_in (λ e, RandomEffect (ri2py e))).
Qed.

(** *** Searching for formulas *)

Lemma only_searched_refl w : only_searched w w.
Proof. repeat split. exists []. by rewrite app_nil_r. Qed.

Lemma only_searched_trans w1 w2 w3 :
  only_searched w1 w2 → only_searched w2 w3 → only_searched w1 w3.
Proof.
  intros (?&?&?&?&?& n1 & Hc1 & Hs1) (?&?&?&?&?& n2 & Hc2 & Hs2).
  repeat split; try congruence.
  exists (n1 ++ n2). split; [by rewrite Hc2, Hc1, app_assoc|].
  unfold lmer_formulas in *. by rewrite omap_app, Hs1, Hs2.
Qed.

Lemma only_searched_bind {A B} (m : M world A) (k : A → M world B) :
  (∀ w, only_searched w (m w).2) →
  (∀ a w, only_searched w (k a w).2) →
  ∀ w, only_searched w ((let* a := m in k a) w).2.
Proof.
  intros Hm Hk w. unfold bind. specialize (Hm w).
  destruct (m w) as [[a|e] w1]; simpl in *; [|done].
  eapply only_searched_trans; [exact Hm|apply Hk].
Qed.

Ltac searched_here :=
  first [ apply only_searched_refl
        | simpl; repeat split; exists []; by rewrite app_nil_r ].

Lemma chooseFormula_loop_only_searched data grid n_jobs cv (ys : list string) :
  ∀ acc w,
    only_searched w (chooseFormula_loop data grid n_jobs cv ys acc w).2.
Proof.
  induction ys as [|y ys IH]; intros acc; simpl.
  - intros; apply only_searched_refl.
  - apply only_searched_bind; [intros; searched_here|intros _].
    apply only_searched_bind; [intros; searched_here|intros est].
    apply only_searched_bind.
    { intros w. repeat split. eexists. split; done. }
    intros _. apply only_searched_bind.
    { intros w. rewrite createX_store. apply only_searched_refl. }
    intros X.
    apply only_searched_bind; [intros; searched_here|intros s].
    apply only_searched_bind; [intros; searched_here|intros Y].
    apply only_searched_bind; [intros; searched_here|intros res].
    apply only_searched_bind; [|intros _; apply IH].
    intros w. unfold append_cv_results, bind, get_self.
    destruct (cv_results_ (self w)); searched_here.
Qed.

(** Where the loop stands when it is left: after the last response if it
    ran to its end, at the response whose search raised otherwise. *)
Lemma chooseFormula_loop_inv data grid n_jobs cv (ys : list string) :
  ∀ acc w rs,
    cv_results_ (self w) = Some rs →
    match chooseFormula_loop data grid n_jobs cv ys acc w with
    | (Ok fc, w') =>
        length fc = length acc + length ys ∧
        ∃ rs', cv_results_ (self w') = Some rs' ∧
               length rs' = length rs + length ys
    | (Raise e, w') =>
        ∃ y, y ∈ ys ∧ yLabels (self w') = PList [y]
    end.
Proof.
  induction ys as [|y ys IH]; intros acc w rs Hrs.
  - simpl. split; [lia|]. exists rs. split; [done|lia].
  - simpl.
    unfold bind at 1. unfold update_self at 1.
    unfold bind at 1. unfold get_self at 1.
    unfold bind at 1. unfold log at 1. simpl.
    set (est := set_yLabels (PList [y]) (self w)).
    set (c := CallGridSearch est grid n_jobs cv false).
    set (w1 := World est (calls w ++ [c])).
    assert (∃ y', y' ∈ y :: ys ∧ yLabels (self w1) = PList [y']) as Hstop.
    { exists y. split; [left|done]. }
    unfold bind at 1. pose proof (createX_store data w1) as HX.
    destruct (createX data w1) as [[X|e] w0]; simpl in HX; subst w0; [|done].
    unfold bind at 1. unfold get_self at 1.
    unfold bind at 1. unfold lift at 1.
    destruct (createY (self w1) data) as [Y|e]; [|done].
    unfold bind at 1. unfold lift at 1.
    destruct (GridSearchCV_fit est grid n_jobs cv X Y) as [res|e]; [|done].
    unfold bind at 1. unfold append_cv_results, bind, get_self. simpl.
    rewrite Hrs. simpl.
    match goal with
    | |- context [chooseFormula_loop _ _ _ _ _ ?acc' ?w2] =>
        specialize (IH acc' w2 (rs ++ [res.2]) eq_refl);
        destruct (chooseFormula_loop data grid n_jobs cv ys acc' w2)
          as [[fc|e] w']
    end.
    + destruct IH as (Hlen & rs' & Hrs' & Hlen').
      rewrite length_app in Hlen, Hlen'. simpl in *.
      split; [lia|]. exists rs'. split; [done|lia].
    + destruct IH as (y' & Hin & Hy'). exists y'. split; [by right|done].
Qed.

Lemma chooseFormula_search_inv data grid n_jobs cv (w : world)
    (ys : list string) :
  py_iter (yLabels (self w)) = Ok ys →
  only_searched w (chooseFormula_search data grid n_jobs cv w).2 ∧
  match chooseFormula_search data grid n_jobs cv w with
  | (Ok (y0, fc), w') =>
      y0 = yLabels (self w) ∧ length fc = length ys ∧
      ∃ rs, cv_results_ (self w') = Some rs ∧ length rs = length ys
  | (Raise e, w') => ∃ y, y ∈ ys ∧ yLabels (self w') = PList [y]
  end.
Proof.
  intros Hys.
  set (w0 := World (set_cv_results (Some []) (self w)) (calls w)).
  assert (chooseFormula_search data grid n_jobs cv w
          = match chooseFormula_loop data grid n_jobs cv ys [] w0 with
            | (Ok fc, w') => (Ok (yLabels (self w), fc), w')
            | (Raise e, w') => (Raise e, w')
            end) as ->.
  { unfold chooseFormula_search.
    unfold bind at 1. unfold update_self at 1.
    unfold bind at 1. unfold get_self at 1.
    unfold bind at 1. unfold lift at 1. simpl. rewrite Hys.
    unfold bind at 1. fold w0.
    by destruct (chooseFormula_loop data grid n_jobs cv ys [] w0) as [[?|?] ?]. }
  pose proof (chooseFormula_loop_only_searched data grid n_jobs cv ys [] w0)
    as Hframe.
  pose proof (chooseFormula_loop_inv data grid n_jobs cv ys [] w0 [] eq_refl)
    as Hinv.
  destruct (chooseFormula_loop data grid n_jobs cv ys [] w0) as [[fc|e] w'];
    simpl in *.
  - split.
    + eapply only_searched_trans; [|exact Hframe]. subst w0. searched_here.
    + done.
  - split; [|done].
    eapply only_searched_trans; [|exact Hframe]. subst w0. searched_here.
Qed.

(** X9: when [chooseFormula] is called with [refit=False] and returns,
    [self.formulas] is a list with one chosen formula for each response,
    [self.cv_results_] has one entry for each response, [self.yLabels] is
    what it was, and the two lengths agree as lines 43-48 of [fitD] want
    them; no model has been fitted. *)
Theorem chooseFormula_without_refit (data : DataFrame) (grid : pyval)
    (n_jobs : Z) (cv : option cvspec) (w w' : world) (ys : list string) :
  py_iter (yLabels (self w)) = Ok ys →
  chooseFormula data grid n_jobs cv false w = (Ok (), w') →
  ∃ fc rs,
    formulas (self w') = PList fc ∧ length fc = length ys ∧
    cv_results_ (self w') = Some rs ∧ length rs = length ys ∧
    yLabels (self w') = yLabels (self w) ∧
    py_len (formulas (self w')) = py_len (yLabels (self w')) ∧
    models_ (self w') = models_ (self w) ∧
    factors_ (self w') = factors_ (self w).
Proof.
  intros Hys Hrun.
  destruct (chooseFormula_search_inv data grid n_jobs cv w ys Hys)
    as [Hframe Hinv].
  unfold chooseFormula in Hrun. unfold bind at 1 in Hrun.
  destruct (chooseFormula_search data grid n_jobs cv w) as [[[y0 fc]|e] ws];
    [|done].
  destruct Hinv as (-> & Hlen & rs & Hrs & Hlrs).
  destruct Hframe as (_ & _ & _ & Hms & Hfs & _).
  unfold bind, update_self, ret in Hrun. simpl in Hrun, Hms, Hfs.
  injection Hrun as <-. simpl.
  exists fc, rs. repeat split; try done.
  rewrite (py_iter_len _ _ Hys). by rewrite Hlen.
Qed.

(** X10: when the loop of [chooseFormula] over the responses is left by
    an exception, [chooseFormula] raises that exception with
    [self.yLabels] still narrowed to the one response that was being
    searched; [self.formulas], [models_] and [factors_] are what they
    were, and no model has been fitted, whatever [refit] is. *)
Theorem chooseFormula_interrupted_keeps_one_label (data : DataFrame)
    (grid : pyval) (n_jobs : Z) (cv : option cvspec) (refit : bool)
    (w : world) (ys : list string) :
  py_iter (yLabels (self w)) = Ok ys →
  raises (chooseFormula_search data grid n_jobs cv w).1 = true →
  let r := chooseFormula data grid n_jobs cv refit w in
  raises r.1 = true ∧
  (∃ y, y ∈ ys ∧ yLabels (self r.2) = PList [y]) ∧
  formulas (self r.2) = formulas (self w) ∧
  models_ (self r.2) = models_ (self w) ∧
  factors_ (self r.2) = factors_ (self w) ∧
  ∃ new, calls r.2 = calls w ++ new ∧ lmer_formulas new = [].
Proof.
  intros Hys Hraise r. subst r.
  destruct (chooseFormula_search_inv data grid n_jobs cv w ys Hys)
    as [Hframe Hinv].
  destruct (chooseFormula_search data grid n_jobs cv w)
    as [[[y0 fc]|e] ws] eqn:Hs; [done|].
  unfold chooseFormula. rewrite (run_bind_raise _ _ w ws e Hs). simpl in *.
  destruct Hframe as (_ & Hf & _ & Hms & Hfs & Hcalls).
  done.
Qed.

(** X11: when [chooseFormula] is called with [refit=True] and returns,
    the estimator is fitted with the chosen formulas: [self.formulas] is
    the list of them, one for each response, the calls to [lmer] are
    exactly the fits [yLabels[i] ~ formulas[i]] in order,
    [self.yLabels] is what it was, and [models_] has an entry for each
    response. *)
Theorem chooseFormula_with_refit (data : DataFrame) (grid : pyval)
    (n_jobs : Z) (cv : option cvspec) (w w' : world) (ys : list string) :
  py_iter (yLabels (self w)) = Ok ys →
  chooseFormula data grid n_jobs cv true w = (Ok (), w') →
  ∃ fc ms new,
    formulas (self w') = PList fc ∧ length fc = length ys ∧
    yLabels (self w') = yLabels (self w) ∧
    models_ (self w') = Some ms ∧ (∀ y, is_Some (ms !! y) ↔ y ∈ ys) ∧
    calls w' = calls w ++ new ∧
    lmer_formulas new = zip_with (λ y f, y +:+ " ~ " +:+ f) ys fc.
Proof.
  intros Hys Hrun.
  destruct (chooseFormula_search_inv data grid n_jobs cv w ys Hys)
    as [Hframe Hinv].
  unfold chooseFormula in Hrun. unfold bind at 1 in Hrun.
  destruct (chooseFormula_search data grid n_jobs cv w) as [[[y0 fc]|e] ws];
    [|done].
  destruct Hinv as (-> & Hlen & _).
  destruct Hframe as (_ & _ & _ & _ & _ & new1 & Hcalls1 & Hl1).
  unfold bind at 1 in Hrun. unfold update_self at 1 in Hrun.
  unfold bind at 1 in Hrun. unfold update_self at 1 in Hrun.
  simpl in Hrun, Hcalls1.
  set (w3 := World (set_yLabels (yLabels (self w))
                      (set_formulas (PList fc) (self ws))) (calls ws)) in Hrun.
  destruct (fitD_one_formula_per_response_aux data w3 fc ys)
    as (Hformulas & new2 & Hcalls2 & _ & Hall); [by right|done|done|].
  destruct (fitD_returns_inv data w3 w' Hrun)
    as (ys' & ms & fs & Hys' & Hy & Hms & _ & Hdm & _).
  rewrite Hrun in Hformulas, Hcalls2, Hall. simpl in *.
  rewrite Hy, Hys in Hys'. simplify_eq.
  exists fc, ms, (new1 ++ new2). repeat split; try done.
  - intros Hin. apply elem_of_dom in Hin. rewrite Hdm in Hin.
    by apply elem_of_list_to_set in Hin.
  - intros Hin. apply elem_of_dom. rewrite Hdm. by apply elem_of_list_to_set.
  - by rewrite Hcalls2, Hcalls1, app_assoc.
  - unfold lmer_formulas in *. rewrite omap_app, Hl1. simpl. by apply Hall.
Qed.

End mixed_more.

Section mixed_more_examples.
Import Py Mixed Demo.

(** Two responses, each with a formula of its own. *)
Lemma fitD_one_formula_per_response_witness :
  let w := Demo.world (PList ["a"; "b"]) (PTuple ["x"; "x + (1 | x)"]) in
  let r := fitD Demo.data w in
  formulas (self r.2) = formulas (self w) ∧
  ∃ new, calls r.2 = calls w ++ new ∧
    lmer_formulas new `prefix_of` ["a ~ x"; "b ~ x + (1 | x)"] ∧
    (r.1 = Ok () → lmer_formulas new = ["a ~ x"; "b ~ x + (1 | x)"]).
Proof.
  intros w.
  apply (fitD_one_formula_per_response Demo.data w ["x"; "x + (1 | x)"]
           ["a"; "b"]); [by left|reflexivity|reflexivity].
Defined.

(** A fit on two responses with one formula. *)
Lemma fitD_leaves_fitted_estimator_witness :
  let w := Demo.world (PList ["a"; "b"]) (PStr "x") in
  ∃ ys ms fs,
    py_iter (yLabels (self (fitD Demo.data w).2)) = Ok ys ∧
    models_ (self (fitD Demo.data w).2) = Some ms ∧
    factors_ (self (fitD Demo.data w).2) = Some fs ∧
    (∀ y, is_Some (ms !! y) ↔ y ∈ ys) ∧
    (∀ y, is_Some (fs !! y) ↔ y ∈ ys) ∧
    is_str (formulas (self (fitD Demo.data w).2)) = false ∧
    py_len (formulas (self (fitD Demo.data w).2)) = Ok (length ys).
Proof.
  intros w.
  apply (fitD_leaves_fitted_estimator Demo.data w (fitD Demo.data w).2).
  vm_compute. reflexivity.
Defined.

(** That fit, followed by a prediction on the same table. *)
Lemma predictD_after_fitD_witness :
  let w := Demo.world (PList ["a"; "b"]) (PStr "x") in
  let w' := (fitD Demo.data w).2 in
  ∃ Y, predictD Demo.data w' = (Ok Y, w') ∧ df_columns Y = ["a"; "b"].
Proof.
  intros w w'.
  apply (predictD_after_fitD Demo.data Demo.data w w' [("x", [1; 2; 3]%Z)]
           ["a"; "b"]).
  - vm_compute. reflexivity.
  - reflexivity.
  - apply (bool_decide_unpack _). vm_compute. exact I.
  - vm_compute. reflexivity.
  - reflexivity.
  - intros ms y m _ _. eexists. reflexivity.
Defined.

(** An estimator that has not been fitted, and a three-by-one array. *)
Lemma predict_before_fit_raises_witness :
  let w := Demo.world (PList ["a"]) (PStr "x") in
  (∃ e, predictD Demo.data w = (Raise e, w) ∧ kind e = NotFittedError) ∧
  (∃ e, predict [[1; 2; 3]%Z] w = (Raise e, w) ∧ kind e = NotFittedError).
Proof.
  intros w.
  apply (predict_before_fit_raises Demo.data [[1; 2; 3]%Z]
           [("x", [1; 2; 3]%Z)] w); [by left|reflexivity|reflexivity].
Defined.

(** Fitted on [a], then asked for [a] and [c]. *)
Lemma predictD_missing_model_raises_witness :
  let fitted := (fitD Demo.data (Demo.world (PList ["a"]) (PStr "x"))).2 in
  let w := World (set_yLabels (PList ["a"; "c"]) (self fitted)) [] in
  predictD Demo.data w = (Raise (Exn KeyError "c" []), w).
Proof.
  intros fitted w.
  eapply (predictD_missing_model_raises Demo.data w _ _
            [("x", [1; 2; 3]%Z)] ["a"] [] "c" [[5%Z]]).
  - vm_compute. reflexivity.
  - vm_compute. reflexivity.
  - vm_compute. reflexivity.
  - reflexivity.
  - reflexivity.
  - repeat constructor. do 2 eexists. (split; [|split]); vm_compute; reflexivity.
  - vm_compute. reflexivity.
Defined.

(** The effects of a model of the example library. *)
Lemma factor_fixed_effects_override_witness :
  ∃ factor, _factor "a ~ x" = Ok factor ∧
    (∀ name, name ∈ ["(Intercept)"] →
       ∃ e, (name, e) ∈ [("(Intercept)", [0%Z])] ∧
            factor !! name = Some (FixedEffect e)) ∧
    (∀ name, name ∉ ["(Intercept)"] → name ∈ ["group"] →
       ∃ e, (name, e) ∈ [("group", [1; 2]%Z)] ∧
            factor !! name = Some (RandomEffect e)) ∧
    (∀ name, name ∉ ["(Intercept)"] → name ∉ ["group"] →
       factor !! name = None).
Proof.
  apply (factor_fixed_effects_override (H0 := Demo.externals) "a ~ x"
           [("group", [1; 2]%Z)] [("(Intercept)", [0%Z])]);
    reflexivity.
Defined.

(** A search over two formulas for two responses, without and with the
    refit, and one over an empty grid, which the example library
    refuses. *)
Lemma chooseFormula_without_refit_witness :
  let w := Demo.world (PList ["a"; "b"]) (PStr "x") in
  let w' := (chooseFormula Demo.data (PList ["x"; "1"]) 2 None false w).2 in
  ∃ fc rs,
    formulas (self w') = PList fc ∧ length fc = 2 ∧
    cv_results_ (self w') = Some rs ∧ length rs = 2 ∧
    yLabels (self w') = yLabels (self w) ∧
    py_len (formulas (self w')) = py_len (yLabels (self w')) ∧
    models_ (self w') = models_ (self w) ∧
    factors_ (self w') = factors_ (self w).
Proof.
  intros w w'.
  apply (chooseFormula_without_refit Demo.data (PList ["x"; "1"]) 2 None w w'
           ["a"; "b"]); [reflexivity|vm_compute; reflexivity].
Defined.

Lemma chooseFormula_interrupted_keeps_one_label_witness :
  let w := Demo.world (PList ["a"; "b"]) (PStr "x") in
  let r := chooseFormula Demo.data (PList []) 2 None true w in
  raises r.1 = true ∧
  (∃ y, y ∈ ["a"; "b"] ∧ yLabels (self r.2) = PList [y]) ∧
  formulas (self r.2) = formulas (self w) ∧
  models_ (self r.2) = models_ (self w) ∧
  factors_ (self r.2) = factors_ (self w) ∧
  ∃ new, calls r.2 = calls w ++ new ∧ lmer_formulas new = [].
Proof.
  intros w.
  apply (chooseFormula_interrupted_keeps_one_label Demo.data (PList []) 2 None
           true w ["a"; "b"]); [reflexivity|vm_compute; reflexivity].
Defined.

Lemma chooseFormula_with_refit_witness :
  let w := Demo.world (PList ["a"; "b"]) (PStr "x") in
  let w' := (chooseFormula Demo.data (PList ["x"; "1"]) 2 None true w).2 in
  ∃ fc ms new,
    formulas (self w') = PList fc ∧ length fc = 2 ∧
    yLabels (self w') = yLabels (self w) ∧
    models_ (self w') = Some ms ∧
    (∀ y, is_Some (ms !! y) ↔ y ∈ ["a"; "b"]) ∧
    calls w' = calls w ++ new ∧
    lmer_formulas new = zip_with (λ y f, y +:+ " ~ " +:+ f) ["a"; "b"] fc.
Proof.
  intros w w'.
  apply (chooseFormula_with_refit Demo.data (PList ["x"; "1"]) 2 None w w'
           ["a"; "b"]); [reflexivity|vm_compute; reflexivity].
Defined.

End mixed_more_examples.

(** ** The plotting helpers *)

Section plot_facts.
Import Py Plot.
Context `{!Metrics}.

(** [np_unique] keeps exactly the entries of its argument, in ascending
    order and once each. *)
Lemma elem_of_insert_unique (x y : Z) (l : list Z) :
  y ∈ insert_unique x l ↔ y = x ∨ y ∈ l.
Proof.
  induction l as [|z l IH]; simpl.
  - rewrite list_elem_of_singleton, elem_of_nil. tauto.
  - destruct (Z.ltb_spec x z); [by rewrite !elem_of_cons|].
    destruct (Z.eqb_spec x z) as [->|].
    + rewrite !elem_of_cons. tauto.
    + rewrite !elem_of_cons, IH. tauto.
Qed.

Lemma elem_of_np_unique (y : Z) (l : list Z) : y ∈ np_unique l ↔ y ∈ l.
Proof.
  unfold np_unique. induction l as [|x l IH]; simpl; [done|].
  rewrite elem_of_insert_unique, IH, elem_of_cons. done.
Qed.



(** An object that exists is not the object about to be constructed. *)
Lemma plotPrecRecMN_classes_run (y : ref) (st : pyplot) :
  oid y < next_oid st →
  plotPrecRecMN_classes y st =
    (Ok (ClassArray (np_unique (entries (deref y)))),
     PyPlot (S (next_oid st)) (figures st) (drawn st)).
Proof.
  intros Hlt. unfold plotPrecRecMN_classes, bind, new_object, py_is.
  destruct (Nat.eqb_spec (oid y) (next_oid st)); [lia|done].
Qed.

Lemma plotPrecRecMN_run (y : ref) (yp : ndarray) (ax : option axes)
    (labels : option (list string)) (st : pyplot) :
  oid y < next_oid st →
  plotPrecRecMN y yp ax labels st =
    (let* (fig, ax) := figure_and_axes ax in
     new_object ;;;
     plotPrecRecMN_body fig ax (ClassArray (np_unique (entries (deref y))))
       (deref y) yp labels) st.
Proof.
  intros Hlt. unfold plotPrecRecMN.
  destruct ax as [a|];
    unfold figure_and_axes, plt_figure, add_subplot, modify, ret, bind; simpl;
    (rewrite plotPrecRecMN_classes_run; [done|simpl; lia]).
Qed.

(** C8: [plotPrecRecMN] always binds [classes] to [np.unique(y)].  The
    test of line 186 compares [y], an object that exists when the call is
    made, with the [CategoricalDtype] instance constructed on that very
    line; the two never have the same identity, so the branch that reads
    [y.cat.categories] is not taken, and the rest of the call runs with
    the array of distinct entries of [y]. *)
Theorem plotPrecRecMN_classes_are_np_unique (y : ref) (yp : ndarray)
    (ax : option axes) (labels : option (list string)) (st : pyplot) :
  oid y < next_oid st →
  plotPrecRecMN_classes y st =
    (Ok (ClassArray (np_unique (entries (deref y)))),
     PyPlot (S (next_oid st)) (figures st) (drawn st)) ∧
  plotPrecRecMN y yp ax labels st =
    (let* (fig, ax) := figure_and_axes ax in
     new_object ;;;
     plotPrecRecMN_body fig ax (ClassArray (np_unique (entries (deref y))))
       (deref y) yp labels) st.
Proof.
  intros Hlt.
  split; [by apply plotPrecRecMN_classes_run|by apply plotPrecRecMN_run].
Qed.


(** *** Running a sequence *)

Lemma bind_ok {S A B} (m : M S A) (k : A → M S B) (s s' : S) (a : A) :
  m s = (Ok a, s') → (let* x := m in k x) s = k a s'.
Proof. intros Hm. unfold bind. by rewrite Hm. Qed.

Lemma bind_raises {S A B} (m : M S A) (k : A → M S B) (s : S) :
  raises (m s).1 = true → raises ((let* x := m in k x) s).1 = true.
Proof. unfold bind. by destruct (m s) as [[a|e] s']. Qed.

(** What [figure_and_axes] does: with no axes supplied, one figure and one
    axes object are made; with axes supplied, nothing is. *)
Lemma figure_and_axes_None (st : pyplot) :
  figure_and_axes None st =
    (Ok (Some (next_oid st), Axes (S (next_oid st)) (next_oid st)),
     PyPlot (S (S (next_oid st))) (figures st ++ [next_oid st]) (drawn st)).
Proof. done. Qed.

Lemma figure_and_axes_Some (a : axes) (st : pyplot) :
  figure_and_axes (Some a) st = (Ok (None, a), st).
Proof. done. Qed.

Lemma plotPrecRec_body_mismatch fig a y yp label st :
  shape y !! 0 ≠ shape yp !! 0 →
  raises (plotPrecRec_body fig a y yp label st).1 = true.
Proof.
  intros Hne. unfold plotPrecRec_body, bind, lift, shape_at.
  destruct (shape y !! 0) as [ry|]; [|done].
  destruct (shape yp !! 0) as [rp|]; [|done].
  destruct (Nat.eqb_spec ry rp); [congruence|done].
Qed.

Lemma plotPrecRecMN_validate_mismatch cls y yp labels st :
  (∀ u, cls = ClassArray u →
     shape yp !! 1 ≠ Some (length u) ∨
     (∃ l, labels = Some l ∧ length l ≠ length u) ∨
     shape y !! 0 ≠ shape yp !! 0) →
  raises (plotPrecRecMN_validate cls y yp labels st).1 = true.
Proof.
  intros Hmis. unfold plotPrecRecMN_validate, bind, lift.
  destruct cls as [u|u]; [done|]. simpl.
  destruct (Hmis u eq_refl) as [Hc|[(l & -> & Hl)|Hr]]; unfold shape_at.
  - destruct (shape yp !! 1) as [c|]; [|done].
    destruct (Nat.eqb_spec (length u) c); [congruence|done].
  - destruct (shape yp !! 1) as [c|]; [|done].
    rewrite length_fmap.
    destruct (Nat.eqb_spec (length u) c); [|done].
    destruct (Nat.eqb_spec c (length l)); [lia|done].
  - destruct (shape yp !! 1) as [c|]; [|done].
    destruct (_ && _); [|done]. simpl.
    destruct (shape y !! 0) as [ry|]; [|done].
    destruct (shape yp !! 0) as [rp|]; [|done].
    destruct (Nat.eqb_spec ry rp); [congruence|done].
Qed.

(** C6: [plotPrecRec] raises whenever the first dimensions of [y] and
    [yp] differ; [plotPrecRecMN] raises whenever the number of distinct
    entries of [y], the number of columns of [yp] and the number of
    supplied labels are not all equal, and whenever the first dimensions of
    [y] and [yp] differ. *)
Theorem precision_recall_mismatch_raises :
  (∀ (y yp : ndarray) (ax : option axes) (label : option string)
     (st : pyplot),
     shape y !! 0 ≠ shape yp !! 0 →
     raises (plotPrecRec y yp ax label st).1 = true) ∧
  (∀ (y : ref) (yp : ndarray) (ax : option axes)
     (labels : option (list string)) (st : pyplot),
     let n_classes := length (np_unique (entries (deref y))) in
     shape yp !! 1 ≠ Some n_classes ∨
     (∃ l, labels = Some l ∧ length l ≠ n_classes) ∨
     shape (deref y) !! 0 ≠ shape yp !! 0 →
     raises (plotPrecRecMN y yp ax labels st).1 = true).
Proof.
  split.
  - intros y yp ax label st Hne. unfold plotPrecRec.
    destruct ax as [a|].
    + erewrite bind_ok; [|apply figure_and_axes_Some].
      by apply plotPrecRec_body_mismatch.
    + erewrite bind_ok; [|apply figure_and_axes_None].
      by apply plotPrecRec_body_mismatch.
  - intros y yp ax labels st n_classes Hmis. unfold plotPrecRecMN.
    assert (∀ fig a st',
      raises ((let* cls := plotPrecRecMN_classes y in
               plotPrecRecMN_body fig a cls (deref y) yp labels) st').1
      = true) as Hrest.
    { intros fig a st'. unfold plotPrecRecMN_classes.
      unfold bind at 1 2. unfold new_object at 1.
      destruct (py_is _ _).
      - destruct (categories (deref y)) as [cats|]; [|done].
        unfold ret at 1. unfold plotPrecRecMN_body.
        apply bind_raises, plotPrecRecMN_validate_mismatch. done.
      - unfold ret at 1. unfold plotPrecRecMN_body.
        apply bind_raises, plotPrecRecMN_validate_mismatch.
        intros u Hu. by simplify_eq. }
    destruct ax as [a|].
    + erewrite bind_ok; [|apply figure_and_axes_Some]. apply Hrest.
    + erewrite bind_ok; [|apply figure_and_axes_None]. apply Hrest.
Qed.

(** *** Where things are drawn *)












(** *** When the checks pass *)


(** When [precision_recall_curve] refuses its arguments, the call raises
    what it raises, the checks having passed. *)
Lemma plotPrecRec_body_curve_raises fig a y yp label st e :
  rows_match y yp →
  curve_error (term_of y) (term_of yp) = Some e →
  plotPrecRec_body fig a y yp label st = (Raise e, st).
Proof.
  intros (n & Hy & Hp) Hcurve.
  unfold plotPrecRec_body, bind, lift, shape_at, precision_recall_curve.
  rewrite Hy, Hp, Hcurve. by rewrite Nat.eqb_refl.
Qed.


Lemma enumerate_from_bounds {A} (xs : list A) :
  ∀ i, Forall (λ ix, ix.1 < i + length xs) (enumerate_from i xs).
Proof.
  induction xs as [|x xs IH]; intros i; simpl; constructor; simpl; [lia|].
  eapply Forall_impl; [apply (IH (S i))|]. simpl. intros; lia.
Qed.

Lemma enumerate_from_values {A} (xs : list A) :
  ∀ i, (enumerate_from i xs).*2 = xs.
Proof. induction xs as [|x xs IH]; intros i; simpl; [done|by rewrite IH]. Qed.





(** *** The guards of [plotResiduals] *)

Lemma promote_promoted (a : ndarray) :
  shape a ≠ [] → promote a = Ok (promoted a).
Proof.
  intros Hs. unfold promoted, promote, new_axis.
  destruct (decide (ndim a = 1)); [|done].
  destruct (shape a); done.
Qed.

Lemma promoted_two_dims (a : ndarray) :
  shape a ≠ [] → ∃ r c rest, shape (promoted a) = r :: c :: rest.
Proof.
  intros Hs. unfold promoted, promote, new_axis, ndim.
  destruct (shape a) as [|r [|c rest]] eqn:E; [done| |]; simpl.
  - by exists r, 1, [].
  - rewrite E. by exists r, c, rest.
Qed.

Lemma resolve_labels_cases a labels msg st (r c : nat) (rest : list nat) :
  shape a = r :: c :: rest →
  (resolve_labels a labels msg st
     = (Raise (exception msg [FNat (labels_length a labels); FNat c]), st) ∧
   ∃ l, labels = Some l ∧ length l ≠ c) ∨
  (∃ ls, resolve_labels a labels msg st = (Ok ls, st) ∧
         length ls = labels_length a labels ∧
         ∀ l, labels = Some l → length l = c).
Proof.
  intros Hs. unfold resolve_labels, default_labels, labels_length, bind, lift,
    shape_at. rewrite Hs. simpl.
  destruct labels as [l|].
  - destruct (Nat.eqb_spec (length l) c) as [Heq|Hne]; simpl.
    + right. exists l. split; [done|]. split; [done|].
      intros ? [= <-]. done.
    + left. split; [done|]. by exists l.
  - right. destruct (columns a) as [cs|].
    + exists cs. split; [done|]. split; done.
    + exists (replicate c ""). rewrite length_replicate.
      split; [done|]. split; done.
Qed.

Lemma add_units_ok (us : list string) :
  ∀ (i : nat) (labels : list string),
    i + length us ≤ length labels →
    ∃ ls, add_units labels (enumerate_from i us) = Ok ls ∧
          length ls = length labels.
Proof.
  induction us as [|u us IH]; intros i labels Hle; simpl.
  - by exists labels.
  - simpl in Hle.
    destruct (lookup_lt_is_Some_2 labels i) as [s Hs]; [lia|].
    rewrite Hs.
    destruct (IH (S i) (<[i:=s +:+ " (" +:+ u +:+ ")"]> labels)) as (ls & -> & Hl).
    { rewrite length_insert. lia. }
    exists ls. split; [done|]. by rewrite Hl, length_insert.
Qed.

Lemma apply_units_cases labels units msg st :
  (apply_units labels units msg st
     = (Raise (exception msg [FNat (length (default [] units));
                               FNat (length labels)]), st) ∧
   ∃ us, units = Some us ∧ length us ≠ length labels) ∨
  (∃ ls, apply_units labels units msg st = (Ok ls, st) ∧
         length ls = length labels ∧
         ∀ us, units = Some us → length us = length labels).
Proof.
  unfold apply_units. destruct units as [us|]; simpl.
  - destruct (Nat.eqb_spec (length us) (length labels)) as [Heq|Hne]; simpl.
    + right. unfold lift, enumerate.
      destruct (add_units_ok us 0 labels) as (ls & -> & Hl); [simpl; lia|].
      exists ls. split; [done|]. split; [done|]. intros ? [= <-]. done.
    + left. split; [done|]. by exists us.
  - right. exists labels. split; [done|]. split; done.
Qed.

(** The guards either raise one of their own exceptions, having touched
    nothing, or let through a call on which all six tests hold. *)
Lemma plotResiduals_checks_cases X Y Yp xLabels xUnits yLabels yUnits st :
  shape X ≠ [] → shape Y ≠ [] → shape Yp ≠ [] →
  (∃ e, plotResiduals_checks X Y Yp xLabels xUnits yLabels yUnits st
          = (Raise e, st) ∧ descriptive e) ∨
  (∃ xls yls,
     plotResiduals_checks X Y Yp xLabels xUnits yLabels yUnits st
       = (Ok (Checked (promoted X) (promoted Y) (promoted Yp) xls yls), st) ∧
     shape (promoted Y) = shape (promoted Yp) ∧
     shape (promoted X) !! 0 = shape (promoted Y) !! 0 ∧
     (∀ l, xLabels = Some l → shape (promoted X) !! 1 = Some (length l)) ∧
     (∀ l, yLabels = Some l → shape (promoted Y) !! 1 = Some (length l)) ∧
     (∀ us, xUnits = Some us → length us = labels_length (promoted X) xLabels) ∧
     (∀ us, yUnits = Some us → length us = labels_length (promoted Y) yLabels) ∧
     length xls = labels_length (promoted X) xLabels ∧
     length yls = labels_length (promoted Y) yLabels).
Proof.
  intros HX HY HYp.
  destruct (promoted_two_dims X HX) as (rx & cx & restx & HsX).
  destruct (promoted_two_dims Y HY) as (ry & cy & resty & HsY).
  unfold plotResiduals_checks.
  erewrite bind_ok; [|unfold lift; by rewrite promote_promoted].
  erewrite bind_ok; [|unfold lift; by rewrite promote_promoted].
  erewrite bind_ok; [|unfold lift; by rewrite promote_promoted].
  assert (∀ msg args, msg ∈ plotResiduals_messages →
            descriptive (exception msg args)) as Hdesc.
  { intros msg args Hin. by split. }
  destruct (bool_decide_reflect (shape (promoted Y) = shape (promoted Yp)))
    as [Hsame|Hdiff]; simpl; last first.
  { left. eexists. split; [done|]. apply Hdesc.
    unfold plotResiduals_messages. rewrite !elem_of_cons. tauto. }
  erewrite bind_ok; [|unfold lift, shape_at; by rewrite HsX].
  erewrite bind_ok; [|unfold lift, shape_at; by rewrite HsY].
  destruct (Nat.eqb_spec rx ry) as [Hrows|Hrows]; simpl; last first.
  { left. eexists. split; [done|]. apply Hdesc.
    unfold plotResiduals_messages. rewrite !elem_of_cons. tauto. }
  destruct (resolve_labels_cases (promoted X) xLabels msg_xLabels st
              rx cx restx HsX) as [[Hres _]|(xls0 & Hres & Hxl0 & Hxc)].
  { left. eexists. split; [unfold bind at 1; by rewrite Hres|]. apply Hdesc.
    unfold plotResiduals_messages. rewrite !elem_of_cons. tauto. }
  erewrite bind_ok; [|exact Hres].
  destruct (apply_units_cases xls0 xUnits msg_xUnits st)
    as [[Hau _]|(xls & Hau & Hxl & Hxu)].
  { left. eexists. split; [unfold bind at 1; by rewrite Hau|]. apply Hdesc.
    unfold plotResiduals_messages. rewrite !elem_of_cons. tauto. }
  erewrite bind_ok; [|exact Hau].
  destruct (resolve_labels_cases (promoted Y) yLabels msg_yLabels st
              ry cy resty HsY) as [[Hres' _]|(yls0 & Hres' & Hyl0 & Hyc)].
  { left. eexists. split; [unfold bind at 1; by rewrite Hres'|]. apply Hdesc.
    unfold plotResiduals_messages. rewrite !elem_of_cons. tauto. }
  erewrite bind_ok; [|exact Hres'].
  destruct (apply_units_cases ((λ yLabel, yLabel +:+ " Error") <$> yls0)
              yUnits msg_yUnits st) as [[Hau' _]|(yls & Hau' & Hyl & Hyu)].
  { left. eexists. split; [unfold bind at 1; by rewrite Hau'|]. apply Hdesc.
    unfold plotResiduals_messages. rewrite !elem_of_cons. tauto. }
  erewrite bind_ok; [|exact Hau'].
  rewrite length_fmap in Hyl, Hyu.
  right. exists xls, yls. split; [done|].
  split; [done|]. split; [by rewrite HsX, HsY, Hrows|].
  split; [intros l Hl; rewrite HsX; simpl; by rewrite (Hxc l Hl)|].
  split; [intros l Hl; rewrite HsY; simpl; by rewrite (Hyc l Hl)|].
  split; [intros us Hus; by rewrite (Hxu us Hus)|].
  split; [intros us Hus; by rewrite (Hyu us Hus)|].
  split; congruence.
Qed.

(** C5: once one-dimensional inputs have been promoted, [plotResiduals]
    raises an [Exception] carrying one of its six messages, and does so
    before anything has been created or drawn, whenever [Y] and [Yp]
    differ in shape, [X] and [Y] differ in rows, supplied [xLabels] or
    [yLabels] differ in length from the columns of [X] or [Y], or supplied
    [xUnits] or [yUnits] differ in length from the label list they go
    with. *)
Theorem plotResiduals_mismatch_raises (X Y Yp : ndarray)
    (xLabels xUnits yLabels yUnits : option (list string)) (st : pyplot) :
  shape X ≠ [] → shape Y ≠ [] → shape Yp ≠ [] →
  shape (promoted Y) ≠ shape (promoted Yp) ∨
  shape (promoted X) !! 0 ≠ shape (promoted Y) !! 0 ∨
  (∃ l, xLabels = Some l ∧ shape (promoted X) !! 1 ≠ Some (length l)) ∨
  (∃ l, yLabels = Some l ∧ shape (promoted Y) !! 1 ≠ Some (length l)) ∨
  (∃ us, xUnits = Some us ∧ length us ≠ labels_length (promoted X) xLabels) ∨
  (∃ us, yUnits = Some us ∧ length us ≠ labels_length (promoted Y) yLabels) →
  ∃ e, plotResiduals X Y Yp xLabels xUnits yLabels yUnits st = (Raise e, st) ∧
       kind e = Exception ∧ template e ∈ plotResiduals_messages.
Proof.
  intros HX HY HYp Hmis.
  destruct (plotResiduals_checks_cases X Y Yp xLabels xUnits yLabels yUnits st
              HX HY HYp)
    as [(e & Hraise & Hk & Ht)
       |(xls & yls & _ & H1 & H2 & H3 & H4 & H5 & H6 & _)].
  - exists e. split; [|done].
    unfold plotResiduals, bind. by rewrite Hraise.
  - exfalso.
    destruct Hmis as [?|[?|[(l & Hl & ?)|[(l & Hl & ?)|[(us & Hu & ?)
                     |(us & Hu & ?)]]]]]; eauto.
Qed.

(** *** One figure for each column *)

Lemma correlationPlot_one_ok it st :
  ∃ st', correlationPlot_one it st = (Ok (next_oid st), st') ∧
         figures st' = figures st ++ [next_oid st].
Proof.
  destruct it as [[[y yp] [l|]] [u|]]; eexists; split; reflexivity.
Qed.

Lemma collect_correlationPlot_one its :
  ∀ acc st, ∃ new st',
    collect its correlationPlot_one acc st = (Ok (acc ++ new), st') ∧
    length new = length its ∧
    figures st' = figures st ++ new.
Proof.
  induction its as [|it its IH]; intros acc st; simpl.
  - exists [], st. by rewrite !app_nil_r.
  - destruct (correlationPlot_one_ok it st) as (st1 & Hone & Hfig).
    erewrite bind_ok; [|exact Hone].
    destruct (IH (acc ++ [next_oid st]) st1) as (new & st' & -> & Hlen & Hfig').
    exists (next_oid st :: new), st'. split; [by rewrite <- app_assoc|].
    split; [simpl; by rewrite Hlen|].
    by rewrite Hfig', Hfig, <- app_assoc.
Qed.

Lemma length_zip4 {A B C D} (k : nat) (a : list A) (b : list B) (c : list C)
    (d : list D) :
  length a = k → length b = k → length c = k → length d = k →
  length (zip4 a b c d) = k.
Proof.
  revert a b c d. induction k as [|k IH]; intros [|x a] [|y b] [|z c] [|w d];
    simpl; intros; try done.
  f_equal. apply IH; lia.
Qed.

(** [correlationPlot], on two-dimensional [Y] and [Yp] of one shape with
    [k] columns and more than one row, with [labels] and [units] absent or
    of length [k], returns [k] figures, all of them new. *)
Lemma correlationPlot_one_figure_per_column (Y Yp : ndarray)
    (labels units : option (list (option string))) (r k : nat) (st : pyplot) :
  shape Y = [r; k] →
  shape Yp = [r; k] →
  1 < r →
  (∀ l, labels = Some l → length l = k) →
  (∀ l, units = Some l → length l = k) →
  (∀ cs, columns Y = Some cs → length cs = k) →
  ∃ figs st',
    correlationPlot Y Yp labels units st = (Ok figs, st') ∧
    length figs = k ∧
    figures st' = figures st ++ figs.
Proof.
  intros HY HYp Hr Hl Hu Hcs. unfold correlationPlot.
  set (labels1 := if is_DataFrame Y then _ else labels).
  set (Y1 := if is_DataFrame Y then values Y else Y).
  set (Yp1 := if is_DataFrame Yp then values Yp else Yp).
  assert (shape Y1 = [r; k]) as HY1 by (subst Y1; by destruct (is_DataFrame Y)).
  assert (shape Yp1 = [r; k]) as HYp1
    by (subst Yp1; by destruct (is_DataFrame Yp)).
  assert (∀ l, labels1 = Some l → length l = k) as Hl1.
  { subst labels1. unfold is_DataFrame.
    destruct (columns Y) as [cs|] eqn:Ecs; [|done].
    destruct labels as [l0|]; [done|].
    intros l [= <-]. rewrite length_fmap. by apply Hcs. }
  clearbody labels1 Y1 Yp1.
  assert (∀ a, shape a = [r; k] → promote a = Ok a) as Hprom.
  { intros a Ha. unfold promote, ndim. rewrite Ha. done. }
  assert (∀ a, shape a = [r; k] → row_to_column a = Ok a) as Hrow.
  { intros a Ha. unfold row_to_column, shape_at. rewrite Ha. simpl.
    rewrite decide_False; [done|lia]. }
  erewrite bind_ok; [|unfold lift; by rewrite Hprom].
  erewrite bind_ok; [|unfold lift; by rewrite Hprom].
  erewrite bind_ok; [|unfold lift; by rewrite Hrow].
  erewrite bind_ok; [|unfold lift; by rewrite Hrow].
  set (labels2 := default (replicate k None) labels1).
  erewrite (bind_ok _ _ st st labels2); last first.
  { subst labels2. destruct labels1; [done|].
    unfold bind, lift, shape_at. by rewrite HY1. }
  set (units2 := default (replicate k None) units).
  erewrite (bind_ok _ _ st st units2); last first.
  { subst units2. destruct units; [done|].
    unfold bind, lift, shape_at. by rewrite HY1. }
  erewrite bind_ok; [|unfold lift, items, transpose; simpl; by rewrite HY1].
  erewrite bind_ok; [|unfold lift, items, transpose; simpl; by rewrite HYp1].
  match goal with
  | |- context [collect ?its _ _ _] =>
      destruct (collect_correlationPlot_one its [] st)
        as (figs & st' & Hrun & Hlen & Hfig);
      assert (length its = k) as Hk
  end.
  { apply length_zip4.
    - by rewrite length_map, length_seq.
    - by rewrite length_map, length_seq.
    - subst labels2. destruct labels1 as [l|]; simpl;
        [by apply Hl1|by rewrite length_replicate].
    - subst units2. destruct units as [l|]; simpl;
        [by apply Hu|by rewrite length_replicate]. }
  exists figs, st'. split; [exact Hrun|]. split; [by rewrite Hlen|done].
Qed.

Lemma plotResiduals_axes_ok c fig i (rx cx ry cy : nat)
    (restx resty : list nat) :
  columns (cX c) = None → columns (cY c) = None → columns (cYp c) = None →
  shape (cX c) = rx :: cx :: restx →
  shape (cY c) = ry :: cy :: resty →
  shape (cYp c) = ry :: cy :: resty →
  i < cx →
  ∀ jys ax st,
    Forall (λ jy : nat * string, jy.1 < cy) jys →
    ∃ ax' st',
      plotResiduals_axes c fig i jys ax st = (Ok ax', st') ∧
      figures st' = figures st ∧
      (is_Some ax ∨ jys ≠ [] → is_Some ax').
Proof.
  intros HcX HcY HcYp HsX HsY HsYp Hi.
  induction jys as [|[j yLabel] jys IH]; intros ax st Hlt; simpl.
  - exists ax, st. split; [done|]. split; [done|]. intros [?|?]; done.
  - apply Forall_cons in Hlt as [Hj Hlt]. simpl in Hj.
    erewrite bind_ok; [|reflexivity].
    erewrite bind_ok;
      [|unfold lift, getcol; rewrite HcX, HsX, decide_True; done].
    erewrite bind_ok;
      [|unfold lift, getcol; rewrite HcYp, HsYp, decide_True; done].
    erewrite bind_ok;
      [|unfold lift, getcol; rewrite HcY, HsY, decide_True; done].
    erewrite bind_ok; [|reflexivity].
    erewrite bind_ok; [|reflexivity].
    cbv beta iota.
    match goal with
    | |- context [plotResiduals_axes c fig i jys ?ax1 ?st1] =>
        destruct (IH ax1 st1 Hlt) as (ax' & st' & -> & Hfig & Hsome)
    end.
    exists ax', st'. split; [done|]. split; [done|].
    intros _. apply Hsome. by left.
Qed.

Lemma plotResiduals_figures_ok c (rx cx ry cy : nat)
    (restx resty : list nat) :
  columns (cX c) = None → columns (cY c) = None → columns (cYp c) = None →
  shape (cX c) = rx :: cx :: restx →
  shape (cY c) = ry :: cy :: resty →
  shape (cYp c) = ry :: cy :: resty →
  length (c_yLabels c) = cy →
  0 < cy →
  ∀ ixs ax figs st,
    Forall (λ ix : nat * string, ix.1 < cx) ixs →
    ∃ new st',
      plotResiduals_figures c ixs ax figs st = (Ok (figs ++ new), st') ∧
      length new = length ixs ∧
      figures st' = figures st ++ new.
Proof.
  intros HcX HcY HcYp HsX HsY HsYp Hyl Hcy.
  induction ixs as [|[i xLabel] ixs IH]; intros ax figs st Hlt; simpl.
  - exists [], st. by rewrite !app_nil_r.
  - apply Forall_cons in Hlt as [Hi Hlt]. simpl in Hi.
    erewrite bind_ok; [|reflexivity].
    cbv beta iota.
    match goal with
    | |- context [Py.bind (plotResiduals_axes c ?fig i ?jys ax) _ ?st1] =>
        destruct (plotResiduals_axes_ok c fig i rx cx ry cy restx resty
                    HcX HcY HcYp HsX HsY HsYp Hi jys ax st1)
          as (ax' & st2 & Hax & Hfig & Hsome)
    end.
    { rewrite <- Hyl. apply (enumerate_from_bounds (c_yLabels c) 0). }
    erewrite bind_ok; [|exact Hax].
    destruct Hsome as [a ->].
    { right. destruct (c_yLabels c); simpl in *; [lia|done]. }
    erewrite bind_ok; [|reflexivity].
    cbv beta iota.
    match goal with
    | |- context [plotResiduals_figures c ixs ?ax1 ?figs1 ?st3] =>
        destruct (IH ax1 figs1 st3 Hlt) as (new & st' & -> & Hlen & Hfig')
    end.
    exists (next_oid st :: new), st'. split; [by rewrite <- app_assoc|].
    split; [simpl; by rewrite Hlen|].
    rewrite Hfig'. simpl. rewrite Hfig. simpl. by rewrite <- app_assoc.
Qed.

Lemma promoted_columns (a : ndarray) :
  columns a = None → columns (promoted a) = None.
Proof.
  intros Ha. unfold promoted, promote, new_axis.
  destruct (decide (ndim a = 1)); [|done].
  by destruct (shape a).
Qed.

(** [plotResiduals], on NumPy arrays that pass the guards, with [m]
    columns in [X] and at least one column in [Y], returns [m] figures,
    all of them new. *)
Lemma plotResiduals_one_figure_per_column (X Y Yp : ndarray)
    (xLabels xUnits yLabels yUnits : option (list string)) (c : checked)
    (m cy : nat) (st : pyplot) :
  columns X = None → columns Y = None → columns Yp = None →
  plotResiduals_checks X Y Yp xLabels xUnits yLabels yUnits st = (Ok c, st) →
  shape (promoted X) !! 1 = Some m →
  shape (promoted Y) !! 1 = Some (S cy) →
  ∃ figs st',
    plotResiduals X Y Yp xLabels xUnits yLabels yUnits st = (Ok figs, st') ∧
    length figs = m ∧
    figures st' = figures st ++ figs.
Proof.
  intros HcX HcY HcYp Hchk Hm Hcy.
  assert (shape X ≠ [] ∧ shape Y ≠ [] ∧ shape Yp ≠ []) as (HX & HY & HYp).
  { unfold plotResiduals_checks, bind, lift, promote, new_axis, ndim in Hchk.
    destruct (shape X) as [|? [|? ?]] eqn:EX; simpl in *;
    destruct (shape Y) as [|? [|? ?]] eqn:EY; simpl in *;
    destruct (shape Yp) as [|? [|? ?]] eqn:EYp; simpl in *;
      try done; unfold shape_at in Hchk;
      repeat (rewrite ?EX, ?EY, ?EYp in Hchk; simpl in Hchk);
      try (case_bool_decide; simpl in *; done); done. }
  destruct (plotResiduals_checks_cases X Y Yp xLabels xUnits yLabels yUnits st
              HX HY HYp)
    as [(e & Hraise & _)
       |(xls & yls & Hok & H1 & H2 & H3 & H4 & _ & _ & Hxl & Hyl)];
    [congruence|].
  rewrite Hok in Hchk. simplify_eq.
  pose proof (promoted_columns X HcX) as HpX.
  pose proof (promoted_columns Y HcY) as HpY.
  pose proof (promoted_columns Yp HcYp) as HpYp.
  destruct (promoted_two_dims X HX) as (rx & cx & restx & HsX).
  destruct (promoted_two_dims Y HY) as (ry & cy' & resty & HsY).
  rewrite HsX in Hm. rewrite HsY in Hcy. simplify_eq/=.
  assert (length xls = m) as Hxm.
  { rewrite Hxl. unfold labels_length. rewrite HpX, HsX. simpl.
    destruct xLabels as [l|]; [|done].
    specialize (H3 l eq_refl). rewrite HsX in H3. by simplify_eq/=. }
  assert (length yls = S cy) as Hym.
  { rewrite Hyl. unfold labels_length. rewrite HpY, HsY. simpl.
    destruct yLabels as [l|]; [|done].
    specialize (H4 l eq_refl). rewrite HsY in H4. by simplify_eq/=. }
  unfold plotResiduals. erewrite bind_ok; [|exact Hok]. simpl.
  destruct (plotResiduals_figures_ok
              (Checked (promoted X) (promoted Y) (promoted Yp) xls yls)
              rx m ry (S cy) restx resty HpX HpY HpYp HsX HsY)
    with (ixs := enumerate xls) (ax := @None axes) (figs := @nil nat)
         (st := st)
    as (new & st' & Hrun & Hlen & Hfig); simpl.
  - by rewrite <- H1.
  - done.
  - lia.
  - rewrite <- Hxm. apply (enumerate_from_bounds xls 0).
  - exists new, st'. split; [exact Hrun|]. split; [|done].
    rewrite Hlen. unfold enumerate.
    rewrite <- (length_fmap snd), enumerate_from_values. done.
Qed.

End plot_facts.

Section plot_examples.
Import Py Plot Demo.

(** Three class codes, the array being object number 4 of 7. *)
Lemma plotPrecRecMN_classes_are_np_unique_witness :
  let y := Ref 4 (codes "y" [2; 0; 2; 1; 0]%Z) in
  let yp := matrix "yp" 5 3 in
  plotPrecRecMN_classes y (fresh 7) =
    (Ok (ClassArray [0; 1; 2]%Z), PyPlot 8 [] []) ∧
  plotPrecRecMN y yp None None (fresh 7) =
    (let* (fig, ax) := figure_and_axes None in
     new_object ;;;
     plotPrecRecMN_body fig ax (ClassArray [0; 1; 2]%Z) (deref y) yp None)
      (fresh 7).
Proof.
  intros y yp.
  apply (plotPrecRecMN_classes_are_np_unique y yp None None (fresh 7)).
  simpl. lia.
Defined.

(** Five rows against four; and three classes against two columns. *)
Lemma precision_recall_mismatch_raises_witness :
  raises (plotPrecRec (vector "y" 5) (vector "yp" 4) None None (fresh 0)).1
    = true ∧
  raises (plotPrecRecMN (Ref 0 (codes "y" [2; 0; 2; 1; 0]%Z))
            (matrix "yp" 5 2) None None (fresh 1)).1 = true.
Proof.
  split.
  - apply (proj1 precision_recall_mismatch_raises). simpl. discriminate.
  - apply (proj2 precision_recall_mismatch_raises). left. simpl. discriminate.
Defined.

(** Two predictors and one response, with three [xLabels]. *)
Lemma plotResiduals_mismatch_raises_witness :
  ∃ e, plotResiduals (matrix "X" 4 2) (vector "Y" 4) (vector "Yp" 4)
         (Some ["u"; "v"; "w"]) None None None (fresh 0)
       = (Raise e, fresh 0) ∧
       kind e = Exception ∧ template e ∈ plotResiduals_messages.
Proof.
  apply (plotResiduals_mismatch_raises (matrix "X" 4 2) (vector "Y" 4)
           (vector "Yp" 4) (Some ["u"; "v"; "w"]) None None None (fresh 0));
    [discriminate|discriminate|discriminate|].
  right; right; left. exists ["u"; "v"; "w"]. split; [reflexivity|].
  simpl. discriminate.
Defined.



(** Rows that agree are not enough either: when scikit-learn refuses [y]
    at line 165, the figure has been made, nothing is drawn and no handle
    comes back. *)
Example plotPrecRec_curve_refused :
  let r := plotPrecRec (vector "counts" 3) (vector "yp" 3) None None
             (fresh 0) in
  figures r.2 = [0] ∧ drawn r.2 = [] ∧
  r.1 = Raise (Exn LibraryError "multiclass format is not supported" []).
Proof. repeat split. Qed.

(** C3 at a [DataFrame]: [X] has the single column [u] and two rows, [Y]
    and [Yp] are two-by-one arrays.  The guards pass and the label of the
    figure is taken from [X.columns]; the first figure is made, and then
    [X[:, 0]] raises.  No list of figures is returned. *)
Theorem plotResiduals_fails_on_DataFrame :
  let X := frame "X" 2 ["u"] in
  let Y := matrix "Y" 2 1 in
  let Yp := matrix "Yp" 2 1 in
  let r := plotResiduals X Y Yp None None None None (fresh 0) in
  plotResiduals_checks X Y Yp None None None None (fresh 0)
    = (Ok (Checked X Y Yp ["u"] [" Error"]), fresh 0) ∧
  shape X !! 1 = Some 1 ∧
  figures r.2 = [0] ∧
  r.1 = Raise (Exn LibraryError "(slice(None, None, None), {}) is not a column"
                   [FNat 0]).
Proof. repeat split. Qed.

(** The same call on arrays returns its one figure. *)
Example plotResiduals_on_arrays :
  let r := plotResiduals (matrix "X" 2 1) (matrix "Y" 2 1) (matrix "Yp" 2 1)
             None None None None (fresh 0) in
  r.1 = Ok [0] ∧ figures r.2 = [0].
Proof. split; reflexivity. Qed.

(** With no column in [Y] the inner loop never binds [ax], and line 297
    raises after the first figure has been made. *)
Example plotResiduals_without_responses :
  let r := plotResiduals (matrix "X" 2 1) (matrix "Y" 2 0) (matrix "Yp" 2 0)
             None None None None (fresh 0) in
  kind <$> (match r.1 with Raise e => Some e | Ok _ => None end)
    = Some UnboundLocalError ∧
  figures r.2 = [0].
Proof. split; reflexivity. Qed.

(** A frame with two columns and three rows against an array. *)
Example correlationPlot_two_columns :
  let r := correlationPlot (frame "Y" 3 ["a"; "b"]) (matrix "Yp" 3 2)
             None (Some [Some "m"; None]) (fresh 0) in
  r.1 = Ok [0; 2] ∧ figures r.2 = [0; 2] ∧
  (Axes 1 0, Title "a") ∈ drawn r.2 ∧ (Axes 3 2, Title "b") ∈ drawn r.2.
Proof.
  split; [reflexivity|]. split; [reflexivity|].
  split; apply list_elem_of_In; simpl;
    repeat (first [left; reflexivity | right]).
Qed.

(** A single row is turned into a column, and one figure comes back
    however many entries the row has. *)
Example correlationPlot_single_row :
  (correlationPlot (matrix "Y" 1 3) (matrix "Yp" 1 3) None None (fresh 0)).1
    = Ok [0].
Proof. reflexivity. Qed.

End plot_examples.

(** ** The plotting helpers, further *)

Section plot_more.
Import Py Plot.
Context `{!Metrics}.

(** *** [correlationPlot], figure by figure *)

Lemma correlationPlot_one_run it st :
  correlationPlot_one it st =
    (Ok (next_oid st),
     PyPlot (S (S (next_oid st))) (figures st ++ [next_oid st])
       (drawn st ++
        correlationPlot_drawn (Axes (S (next_oid st)) (next_oid st)) it)).
Proof.
  destruct st as [n figs dr].
  destruct it as [[[y yp] [l|]] [u|]]; unfold correlationPlot_one, bind,
    plt_figure, add_subplot, new_object, modify, draw, addText, ret; simpl;
    by rewrite <- !app_assoc.
Qed.

Lemma collect_correlationPlot_run its :
  ∀ acc st,
    collect its correlationPlot_one acc st =
      (Ok (acc ++ imap (λ i _, next_oid st + 2 * i) its),
       PyPlot (next_oid st + 2 * length its)
         (figures st ++ imap (λ i _, next_oid st + 2 * i) its)
         (drawn st ++
          mjoin (imap (λ i it,
                   correlationPlot_drawn
                     (Axes (S (next_oid st + 2 * i)) (next_oid st + 2 * i)) it)
                 its))).
Proof.
  induction its as [|it its IH]; intros acc st.
  - simpl. rewrite !app_nil_r, Nat.add_0_r. by destruct st.
  - cbn [collect]. unfold bind at 1. rewrite correlationPlot_one_run.
    rewrite IH. cbn [next_oid figures drawn].
    rewrite !imap_cons. cbn [length mjoin].
    assert (imap (λ i _, S (S (next_oid st)) + 2 * i) its
            = imap ((λ i _, next_oid st + 2 * i) ∘ S) its) as ->.
    { apply imap_ext. intros i x _. unfold compose. lia. }
    assert (imap (λ i it0,
              correlationPlot_drawn
                (Axes (S (S (S (next_oid st)) + 2 * i))
                      (S (S (next_oid st)) + 2 * i)) it0) its
            = imap ((λ i it0,
                correlationPlot_drawn
                  (Axes (S (next_oid st + 2 * i)) (next_oid st + 2 * i)) it0)
                    ∘ S) its) as ->.
    { apply imap_ext. intros i x _. unfold compose.
      replace (S (S (next_oid st)) + 2 * i) with (next_oid st + 2 * S i)
        by lia. done. }
    rewrite Nat.mul_0_r, Nat.add_0_r, <- !app_assoc. simpl.
    do 2 f_equal. f_equal. lia.
Qed.

Lemma length_zip4_min {A B C D} (a : list A) (b : list B) (c : list C)
    (d : list D) :
  length (zip4 a b c d)
    = length a `min` (length b `min` (length c `min` length d)).
Proof.
  revert b c d. induction a as [|x a IH]; intros [|y b] [|z c] [|w d];
    simpl; rewrite ?IH; lia.
Qed.

Lemma items_transpose_2d (a : ndarray) (r k : nat) :
  shape a = [r; k] →
  items (transpose a) = Ok (column_item a <$> seq 0 k).
Proof.
  intros Ha. unfold items, transpose, column_item. simpl. by rewrite Ha.
Qed.

(** X12: on two-dimensional [Y] and [Yp] of one shape, with more than one
    row, [correlationPlot] does not raise, whatever the lengths of
    [labels] and [units]: it walks the columns of [Y] and [Yp], the labels
    (those supplied, else the columns of a [DataFrame], else none) and the
    units together and stops with the shortest.  Pass [i] makes the figure
    numbered [n + 2i] and its axes [n + 2i + 1], [n] being the next free
    identity, and draws on them the scatter of column [i], the axis labels
    with the unit, the title when there is a label, the squared limits,
    the diagonal and the three statistics. *)
Theorem correlationPlot_figure_by_figure (Y Yp : ndarray)
    (labels units : option (list (option string))) (r k : nat) (st : pyplot) :
  shape Y = [r; k] →
  shape Yp = [r; k] →
  1 < r →
  let Y1 := if is_DataFrame Y then values Y else Y in
  let Yp1 := if is_DataFrame Yp then values Yp else Yp in
  let labels1 :=
    match labels, columns Y with
    | Some l, _ => l
    | None, Some cs => Some <$> cs
    | None, None => replicate k None
    end in
  let units1 := default (replicate k None) units in
  let its := zip4 (column_item Y1 <$> seq 0 k) (column_item Yp1 <$> seq 0 k)
                  labels1 units1 in
  length its = k `min` (length labels1 `min` length units1) ∧
  correlationPlot Y Yp labels units st =
    (Ok (imap (λ i _, next_oid st + 2 * i) its),
     PyPlot (next_oid st + 2 * length its)
       (figures st ++ imap (λ i _, next_oid st + 2 * i) its)
       (drawn st ++
        mjoin (imap (λ i it,
                 correlationPlot_drawn
                   (Axes (S (next_oid st + 2 * i)) (next_oid st + 2 * i)) it)
               its))).
Proof.
  intros HY HYp Hr Y1 Yp1 labels1 units1 its. split.
  - subst its. rewrite length_zip4_min, !length_fmap, !length_seq. lia.
  - assert (shape Y1 = [r; k]) as HY1
      by (subst Y1; by destruct (is_DataFrame Y)).
    assert (shape Yp1 = [r; k]) as HYp1
      by (subst Yp1; by destruct (is_DataFrame Yp)).
    assert (∀ a, shape a = [r; k] → promote a = Ok a) as Hprom.
    { intros a Ha. unfold promote, ndim. rewrite Ha. done. }
    assert (∀ a, shape a = [r; k] → row_to_column a = Ok a) as Hrow.
    { intros a Ha. unfold row_to_column, shape_at. rewrite Ha. simpl.
      rewrite decide_False; [done|lia]. }
    unfold correlationPlot. fold Y1 Yp1.
    set (labels0 := if is_DataFrame Y then _ else labels).
    assert (default (replicate k None) labels0 = labels1) as Hlabels.
    { subst labels0 labels1. unfold is_DataFrame.
      destruct (columns Y), labels; done. }
    clearbody labels0.
    erewrite bind_ok; [|unfold lift; by rewrite Hprom].
    erewrite bind_ok; [|unfold lift; by rewrite Hprom].
    erewrite bind_ok; [|unfold lift; by rewrite Hrow].
    erewrite bind_ok; [|unfold lift; by rewrite Hrow].
    erewrite (bind_ok _ _ st st labels1); last first.
    { rewrite <- Hlabels. destruct labels0; [done|].
      unfold bind, lift, shape_at. by rewrite HY1. }
    erewrite (bind_ok _ _ st st units1); last first.
    { subst units1. destruct units; [done|].
      unfold bind, lift, shape_at. by rewrite HY1. }
    erewrite bind_ok;
      [|unfold lift; by rewrite (items_transpose_2d Y1 r k HY1)].
    erewrite bind_ok;
      [|unfold lift; by rewrite (items_transpose_2d Yp1 r k HYp1)].
    fold its. by rewrite collect_correlationPlot_run.
Qed.

Lemma promote_vector_or_row (a : ndarray) (n : nat) :
  shape a = [n] ∨ shape a = [1; n] →
  ∃ a', promote a = Ok a' ∧ (shape a' = [n; 1] ∨ shape a' = [1; n]).
Proof.
  intros [Ha|Ha]; unfold promote, ndim, new_axis; rewrite Ha; simpl.
  - eexists. split; [done|]. by left.
  - exists a. split; [done|]. by right.
Qed.

Lemma row_to_column_vector_or_row (a : ndarray) (n : nat) :
  1 < n →
  shape a = [n; 1] ∨ shape a = [1; n] →
  ∃ a', row_to_column a = Ok a' ∧ shape a' = [n; 1].
Proof.
  intros Hn [Ha|Ha]; unfold row_to_column, shape_at; rewrite Ha; simpl.
  - rewrite decide_False; [|lia]. by exists a.
  - eexists. split; [done|]. simpl. by rewrite Ha.
Qed.

(** X13: a one-dimensional array of [n > 1] entries and an array with a
    single row of [n] entries are both taken for one column: given [Y]
    and [Yp] of these two kinds, in any combination, [correlationPlot]
    returns exactly one figure, however large [n] is. *)
Theorem correlationPlot_single_series (Y Yp : ndarray)
    (labels units : option (list (option string))) (n : nat) (st : pyplot) :
  shape Y = [n] ∨ shape Y = [1; n] →
  shape Yp = [n] ∨ shape Yp = [1; n] →
  1 < n →
  (∀ l, labels = Some l → l ≠ []) →
  (∀ l, units = Some l → l ≠ []) →
  (∀ cs, columns Y = Some cs → cs ≠ []) →
  ∃ st', correlationPlot Y Yp labels units st = (Ok [next_oid st], st') ∧
         figures st' = figures st ++ [next_oid st].
Proof.
  intros HY HYp Hn Hl Hu Hcs. unfold correlationPlot.
  set (labels0 := if is_DataFrame Y then _ else labels).
  set (Y1 := if is_DataFrame Y then values Y else Y).
  set (Yp1 := if is_DataFrame Yp then values Yp else Yp).
  assert (shape Y1 = [n] ∨ shape Y1 = [1; n]) as HY1
    by (subst Y1; by destruct (is_DataFrame Y)).
  assert (shape Yp1 = [n] ∨ shape Yp1 = [1; n]) as HYp1
    by (subst Yp1; by destruct (is_DataFrame Yp)).
  assert (∀ l, labels0 = Some l → l ≠ []) as Hl0.
  { subst labels0. unfold is_DataFrame.
    destruct (columns Y) as [cs|] eqn:Ecs; [|done].
    destruct labels as [l0|]; [done|].
    intros l [= <-]. specialize (Hcs cs eq_refl). by destruct cs. }
  clearbody labels0 Y1 Yp1.
  destruct (promote_vector_or_row Y1 n HY1) as (Y2 & HpY & HY2).
  destruct (promote_vector_or_row Yp1 n HYp1) as (Yp2 & HpYp & HYp2).
  destruct (row_to_column_vector_or_row Y2 n Hn HY2) as (Y3 & HrY & HY3).
  destruct (row_to_column_vector_or_row Yp2 n Hn HYp2) as (Yp3 & HrYp & HYp3).
  erewrite bind_ok; [|unfold lift; by rewrite HpY].
  erewrite bind_ok; [|unfold lift; by rewrite HpYp].
  erewrite bind_ok; [|unfold lift; by rewrite HrY].
  erewrite bind_ok; [|unfold lift; by rewrite HrYp].
  set (labels2 := default (replicate 1 None) labels0).
  erewrite (bind_ok _ _ st st labels2); last first.
  { subst labels2. destruct labels0; [done|].
    unfold bind, lift, shape_at. by rewrite HY3. }
  set (units2 := default (replicate 1 None) units).
  erewrite (bind_ok _ _ st st units2); last first.
  { subst units2. destruct units; [done|].
    unfold bind, lift, shape_at. by rewrite HY3. }
  erewrite bind_ok;
    [|unfold lift, items, transpose; simpl; by rewrite HY3].
  erewrite bind_ok;
    [|unfold lift, items, transpose; simpl; by rewrite HYp3].
  assert (∃ l ls, labels2 = l :: ls) as (l & ls & ->).
  { subst labels2. destruct labels0 as [[|l ls]|]; simpl; eauto.
    by destruct (Hl0 [] eq_refl). }
  assert (∃ u us, units2 = u :: us) as (u & us & ->).
  { subst units2. destruct units as [[|u us]|]; simpl; eauto.
    by destruct (Hu [] eq_refl). }
  rewrite collect_correlationPlot_run. simpl.
  rewrite Nat.add_0_r. eexists. split; [done|done].
Qed.

(** *** [plotResiduals] at its edges *)

Lemma plotResiduals_checks_inv X Y Yp xLabels xUnits yLabels yUnits c st :
  plotResiduals_checks X Y Yp xLabels xUnits yLabels yUnits st = (Ok c, st) →
  cX c = promoted X ∧ cY c = promoted Y ∧ cYp c = promoted Yp ∧
  shape (promoted Y) = shape (promoted Yp) ∧
  (∃ rx cx restx, shape (promoted X) = rx :: cx :: restx) ∧
  (∃ ry cy resty, shape (promoted Y) = ry :: cy :: resty) ∧
  length (c_xLabels c) = labels_length (promoted X) xLabels ∧
  length (c_yLabels c) = labels_length (promoted Y) yLabels ∧
  (∀ l, xLabels = Some l → shape (promoted X) !! 1 = Some (length l)) ∧
  (∀ l, yLabels = Some l → shape (promoted Y) !! 1 = Some (length l)).
Proof.
  intros Hchk.
  assert (shape X ≠ [] ∧ shape Y ≠ [] ∧ shape Yp ≠ []) as (HX & HY & HYp).
  { unfold plotResiduals_checks, bind, lift, promote, new_axis, ndim in Hchk.
    destruct (shape X) as [|? [|? ?]] eqn:EX; simpl in *;
    destruct (shape Y) as [|? [|? ?]] eqn:EY; simpl in *;
    destruct (shape Yp) as [|? [|? ?]] eqn:EYp; simpl in *;
      try done; unfold shape_at in Hchk;
      repeat (rewrite ?EX, ?EY, ?EYp in Hchk; simpl in Hchk);
      try (case_bool_decide; simpl in *; done); done. }
  destruct (plotResiduals_checks_cases X Y Yp xLabels xUnits yLabels yUnits st
              HX HY HYp)
    as [(e & Hraise & _)
       |(xls & yls & Hok & H1 & _ & H3 & H4 & _ & _ & Hxl & Hyl)];
    [congruence|].
  rewrite Hok in Hchk. simplify_eq. simpl.
  repeat split; try done.
  - by apply promoted_two_dims.
  - by apply promoted_two_dims.
Qed.

Lemma labels_length_array (a : ndarray) (labels : option (list string))
    (n : nat) :
  columns a = None →
  shape a !! 1 = Some n →
  (∀ l, labels = Some l → shape a !! 1 = Some (length l)) →
  labels_length a labels = n.
Proof.
  intros Hc Hn Hl. unfold labels_length. rewrite Hc, Hn.
  destruct labels as [l|]; [|done].
  specialize (Hl l eq_refl). congruence.
Qed.

(** X14: given NumPy arrays that pass its checks, [X] with [m] columns
    and [Y] with at least one, [plotResiduals] returns [m] figures, all of
    them new. *)
Theorem plotResiduals_figure_per_predictor (X Y Yp : ndarray)
    (xLabels xUnits yLabels yUnits : option (list string)) (c : checked)
    (m cy : nat) (st : pyplot) :
  columns X = None → columns Y = None → columns Yp = None →
  plotResiduals_checks X Y Yp xLabels xUnits yLabels yUnits st = (Ok c, st) →
  shape (promoted X) !! 1 = Some m →
  shape (promoted Y) !! 1 = Some (S cy) →
  ∃ figs st',
    plotResiduals X Y Yp xLabels xUnits yLabels yUnits st = (Ok figs, st') ∧
    length figs = m ∧
    figures st' = figures st ++ figs.
Proof. apply plotResiduals_one_figure_per_column. Qed.

(** X15: a NumPy array [X] without columns gives no figure: when the
    checks pass, [plotResiduals] returns the empty list, and nothing has
    been created or drawn. *)
Theorem plotResiduals_without_predictors (X Y Yp : ndarray)
    (xLabels xUnits yLabels yUnits : option (list string)) (c : checked)
    (st : pyplot) :
  columns X = None →
  shape (promoted X) !! 1 = Some 0 →
  plotResiduals_checks X Y Yp xLabels xUnits yLabels yUnits st = (Ok c, st) →
  plotResiduals X Y Yp xLabels xUnits yLabels yUnits st = (Ok [], st).
Proof.
  intros HcX H0 Hchk.
  destruct (plotResiduals_checks_inv _ _ _ _ _ _ _ _ _ Hchk)
    as (_ & _ & _ & _ & _ & _ & Hxl & _ & H3 & _).
  rewrite (labels_length_array (promoted X) xLabels 0) in Hxl;
    [|by apply promoted_columns|done|done].
  unfold plotResiduals. erewrite bind_ok; [|exact Hchk].
  destruct (c_xLabels c); [done|done].
Qed.

(** X16: NumPy arrays [Y] and [Yp] without columns leave the inner loop
    of [plotResiduals] empty and the local [ax] unbound: when the checks
    pass and [X] has at least one column, the call makes its first figure
    and then raises [UnboundLocalError] at line 297. *)
Theorem plotResiduals_without_responses_raises (X Y Yp : ndarray)
    (xLabels xUnits yLabels yUnits : option (list string)) (c : checked)
    (m : nat) (st : pyplot) :
  columns X = None → columns Y = None →
  shape (promoted X) !! 1 = Some (S m) →
  shape (promoted Y) !! 1 = Some 0 →
  plotResiduals_checks X Y Yp xLabels xUnits yLabels yUnits st = (Ok c, st) →
  ∃ e st',
    plotResiduals X Y Yp xLabels xUnits yLabels yUnits st = (Raise e, st') ∧
    kind e = UnboundLocalError ∧
    figures st' = figures st ++ [next_oid st] ∧
    drawn st' = drawn st.
Proof.
  intros HcX HcY HmX H0 Hchk.
  destruct (plotResiduals_checks_inv _ _ _ _ _ _ _ _ _ Hchk)
    as (_ & _ & _ & _ & _ & _ & Hxl & Hyl & H3 & H4).
  rewrite (labels_length_array (promoted X) xLabels (S m)) in Hxl;
    [|by apply promoted_columns|done|done].
  rewrite (labels_length_array (promoted Y) yLabels 0) in Hyl;
    [|by apply promoted_columns|done|done].
  unfold plotResiduals. erewrite bind_ok; [|exact Hchk].
  destruct (c_xLabels c) as [|x xs] eqn:Ex; [done|].
  destruct (c_yLabels c) as [|y ys] eqn:Ey; [|done].
  unfold enumerate. simpl. rewrite Ey. simpl.
  eexists _, _. split; [reflexivity|]. simpl. done.
Qed.

(** X17: a [DataFrame] for [X] passes the checks of [plotResiduals], its
    columns serving as labels, but not the loop: when it has at least one
    column and [Y] at least one, the call makes its first figure and the
    first axes and then raises on [X[:, 0]], before anything is drawn. *)
Theorem plotResiduals_DataFrame_raises (X Y Yp : ndarray)
    (xLabels xUnits yLabels yUnits : option (list string)) (c : checked)
    (cs : list string) (r cy : nat) (st : pyplot) :
  columns X = Some cs →
  shape X = [r; length cs] →
  cs ≠ [] →
  columns Y = None →
  shape (promoted Y) !! 1 = Some (S cy) →
  plotResiduals_checks X Y Yp xLabels xUnits yLabels yUnits st = (Ok c, st) →
  ∃ e st',
    plotResiduals X Y Yp xLabels xUnits yLabels yUnits st = (Raise e, st') ∧
    kind e = LibraryError ∧
    figures st' = figures st ++ [next_oid st] ∧
    drawn st' = drawn st.
Proof.
  intros HcX HsX Hcs HcY HmY Hchk.
  destruct (plotResiduals_checks_inv _ _ _ _ _ _ _ _ _ Hchk)
    as (HX & _ & _ & _ & _ & _ & Hxl & Hyl & H3 & H4).
  assert (promoted X = X) as HpX.
  { unfold promoted, promote, ndim. rewrite HsX. done. }
  rewrite HpX in *.
  assert (length (c_xLabels c) = length cs) as Hxl'.
  { rewrite Hxl. unfold labels_length. rewrite HcX.
    destruct xLabels as [l|]; [|done].
    specialize (H3 l eq_refl). rewrite HsX in H3. by simplify_eq/=. }
  rewrite (labels_length_array (promoted Y) yLabels (S cy)) in Hyl;
    [|by apply promoted_columns|done|done].
  unfold plotResiduals. erewrite bind_ok; [|exact Hchk].
  destruct (c_xLabels c) as [|x xs] eqn:Ex; [by destruct cs|].
  destruct (c_yLabels c) as [|y ys] eqn:Ey; [done|].
  unfold enumerate. simpl. rewrite Ey. simpl.
  unfold bind, plt_figure, add_subplot, new_object, modify, lift, ret, getcol.
  simpl. rewrite HX, HcX. simpl.
  eexists _, _. split; [reflexivity|]. simpl. done.
Qed.

(** *** The labels [plotResiduals] settles on *)

Lemma add_units_zip (us : list string) :
  ∀ (i : nat) (labels : list string),
    i + length us = length labels →
    add_units labels (enumerate_from i us)
      = Ok (take i labels ++
            zip_with (λ l u, l +:+ " (" +:+ u +:+ ")") (drop i labels) us).
Proof.
  induction us as [|u us IH]; intros i labels Hlen; simpl in *.
  - rewrite zip_with_nil_r, app_nil_r, take_ge; [done|lia].
  - destruct (lookup_lt_is_Some_2 labels i) as [s Hs]; [lia|].
    rewrite Hs. rewrite IH; [|rewrite length_insert; lia].
    f_equal. rewrite (drop_S labels s i Hs). simpl.
    rewrite (take_S_r _ i (s +:+ " (" +:+ u +:+ ")"));
      [|apply list_lookup_insert_eq; lia].
    rewrite take_insert_ge; [|lia].
    rewrite drop_insert_lt; [|lia].
    by rewrite <- app_assoc.
Qed.

(** X18: the labels of the figures.  When [xLabels], [xUnits],
    [yLabels] and [yUnits] are all supplied, with the lengths the checks
    ask for, the label of the [i]-th predictor becomes
    [xLabels[i] (xUnits[i])] and that of the [j]-th response
    [yLabels[j] Error (yUnits[j])]. *)
Theorem plotResiduals_labels_with_units (X Y Yp : ndarray)
    (xl xu yl yu : list string) (st : pyplot) :
  shape X ≠ [] → shape Y ≠ [] →
  shape (promoted Y) = shape (promoted Yp) →
  shape (promoted X) !! 0 = shape (promoted Y) !! 0 →
  shape (promoted X) !! 1 = Some (length xl) →
  shape (promoted Y) !! 1 = Some (length yl) →
  length xu = length xl →
  length yu = length yl →
  plotResiduals_checks X Y Yp (Some xl) (Some xu) (Some yl) (Some yu) st =
    (Ok (Checked (promoted X) (promoted Y) (promoted Yp)
           (zip_with (λ l u, l +:+ " (" +:+ u +:+ ")") xl xu)
           (zip_with (λ l u, (l +:+ " Error") +:+ " (" +:+ u +:+ ")") yl yu)),
     st).
Proof.
  intros HX HY Hsame Hrows Hcx Hcy Hxu Hyu.
  assert (shape Yp ≠ []) as HYp.
  { intros HYp. destruct (promoted_two_dims Y HY) as (ry & cy & resty & HsY).
    rewrite HsY in Hsame. unfold promoted, promote, ndim in Hsame.
    rewrite HYp in Hsame. simpl in Hsame. by rewrite HYp in Hsame. }
  destruct (promoted_two_dims X HX) as (rx & cx & restx & HsX).
  destruct (promoted_two_dims Y HY) as (ry & cy & resty & HsY).
  rewrite HsX, HsY in Hrows. rewrite HsX in Hcx. rewrite HsY in Hcy.
  simplify_eq/=.
  unfold plotResiduals_checks.
  erewrite bind_ok; [|unfold lift; by rewrite promote_promoted].
  erewrite bind_ok; [|unfold lift; by rewrite promote_promoted].
  erewrite bind_ok; [|unfold lift; by rewrite promote_promoted].
  rewrite bool_decide_eq_true_2; [|done]. simpl.
  erewrite bind_ok; [|unfold lift, shape_at; by rewrite HsX].
  erewrite bind_ok; [|unfold lift, shape_at; by rewrite HsY].
  rewrite Nat.eqb_refl. simpl.
  erewrite bind_ok; last first.
  { unfold resolve_labels, bind, lift, shape_at. rewrite HsX. simpl.
    by rewrite Nat.eqb_refl. }
  erewrite bind_ok; last first.
  { unfold apply_units, lift, enumerate. rewrite Hxu, Nat.eqb_refl. simpl.
    rewrite (add_units_zip xu 0 xl); [|simpl; lia]. by rewrite drop_0. }
  erewrite bind_ok; last first.
  { unfold resolve_labels, bind, lift, shape_at. rewrite HsY. simpl.
    by rewrite Nat.eqb_refl. }
  erewrite bind_ok; last first.
  { unfold apply_units, lift, enumerate.
    rewrite length_fmap, Hyu, Nat.eqb_refl. simpl.
    rewrite (add_units_zip yu 0); [|simpl; rewrite length_fmap; lia].
    by rewrite drop_0. }
  simpl. unfold ret. do 3 f_equal.
  by rewrite zip_with_fmap_l.
Qed.

(** *** [plotPrecRecMN], curve by curve *)







End plot_more.

(** ** [plotImages] *)

Section images_facts.
Import Py Plot.
Context `{!Imaging}.

Lemma open_all_replicate (p : path) (im : picture) (n : nat) :
  pil_open p = Ok im → open_all (replicate n p) = Ok (replicate n im).
Proof.
  intros Hp. induction n as [|n IH]; simpl; [done|]. by rewrite Hp, IH.
Qed.

Lemma open_all_lookup (images : list path) :
  ∀ ims, open_all images = Ok ims →
    length ims = length images ∧
    ∀ i p, images !! i = Some p →
      ∃ im, ims !! i = Some im ∧ pil_open p = Ok im.
Proof.
  induction images as [|p ps IH]; intros ims Hopen; simpl in Hopen.
  - simplify_eq. split; [done|]. intros i p Hi. by destruct i.
  - destruct (pil_open p) as [im|e] eqn:Hp; [|done].
    destruct (open_all ps) as [ims'|e] eqn:Hps; [|done].
    simplify_eq. destruct (IH ims' eq_refl) as [Hlen Hlook].
    split; [simpl; by rewrite Hlen|].
    intros [|i] q Hi; simpl in *; [simplify_eq; by exists im|].
    by apply Hlook.
Qed.

Lemma open_all_unreadable (images : list path) (p : path) (e : exn) :
  p ∈ images → pil_open p = Raise e → raises (open_all images) = true.
Proof.
  intros Hin Hp. induction images as [|q qs IH]; [by apply elem_of_nil in Hin|].
  simpl. apply elem_of_cons in Hin as [<-|Hin]; [by rewrite Hp|].
  destruct (pil_open q); [|done].
  specialize (IH Hin). by destruct (open_all qs).
Qed.

Lemma for_each_plotImages_one (a : axes)
    (its : list (number * picture * number * number * number)) :
  ∀ c, for_each its (plotImages_one a) c =
         (Ok (),
          Canvas (plot c)
            (shown c ++
             ((λ '(size, im, alpha, x, y), (a, ImShow im alpha x y size))
                <$> its))).
Proof.
  induction its as [|[[[[size im] alpha] x] y] its IH]; intros c.
  - simpl. rewrite app_nil_r. by destruct c.
  - cbn [for_each]. unfold bind at 1.
    unfold plotImages_one at 1, show, modify. rewrite IH.
    cbn [plot shown]. rewrite fmap_cons, <- app_assoc. done.
Qed.

(** A call that gets past lines 314 and 321. *)
Lemma plotImages_run (X Y : list number) (images : arg path)
    (sizes alphas : arg number) (ax : option axes) (ims : list picture)
    (m : number) (fig : option nat) (a : axes) (st1 : pyplot) (c : canvas) :
  open_all (broadcast (length X) images) = Ok ims →
  py_max (broadcast (length X) sizes) = Ok m →
  length X = length Y →
  figure_and_axes ax (plot c) = (Ok (fig, a), st1) →
  plotImages X Y images sizes alphas ax c =
    (Ok (fig_or_ax fig a),
     Canvas st1
       (shown c ++
        plotImages_shown a X Y m (broadcast (length X) sizes) ims
          (broadcast (length X) alphas))).
Proof.
  intros Hopen Hmax Hlen Hfig. unfold plotImages.
  erewrite bind_ok; [|unfold lift; by rewrite Hopen].
  erewrite bind_ok; [|unfold in_plot; by rewrite Hfig].
  cbv beta iota.
  erewrite bind_ok; [|unfold lift; by rewrite Hmax].
  unfold plot_markers. rewrite Hlen, Nat.eqb_refl. cbn [negb].
  unfold bind at 1. unfold show at 1, modify.
  unfold bind at 1. unfold show at 1, modify.
  unfold bind at 1. rewrite for_each_plotImages_one.
  unfold ret, plotImages_shown. cbn [plot shown].
  by rewrite <- !app_assoc.
Qed.

Lemma zip5_replicate {A B C D E} (x : A) (y : B) (z : C) (d : list D) :
  ∀ (e : list E), length e = length d →
    zip5 (replicate (length d) x) (replicate (length d) y)
         (replicate (length d) z) d e
      = zip_with (λ u v, (x, y, z, u, v)) d e.
Proof.
  induction d as [|u d IH]; intros [|v e] Hlen; simplify_eq/=; [done|].
  by rewrite IH.
Qed.

Lemma length_zip5_min {A B C D E} (a : list A) (b : list B) (c : list C)
    (d : list D) (e : list E) :
  length (zip5 a b c d e)
    = length a `min` (length b `min` (length c `min`
        (length d `min` length e))).
Proof.
  revert b c d e.
  induction a as [|x a IH]; intros [|y b] [|z c] [|w d] [|v e];
    simpl; rewrite ?IH; lia.
Qed.

Lemma zip5_lookup {A B C D E} (a : list A) :
  ∀ (b : list B) (c : list C) (d : list D) (e : list E) (i : nat) x y z w v,
    a !! i = Some x → b !! i = Some y → c !! i = Some z →
    d !! i = Some w → e !! i = Some v →
    zip5 a b c d e !! i = Some (x, y, z, w, v).
Proof.
  induction a as [|x0 a IH]; intros [|y0 b] [|z0 c] [|w0 d] [|v0 e] i
    x y z w v Ha Hb Hc Hd He; try done.
  destruct i as [|i]; simpl in *; [by simplify_eq|].
  by apply IH.
Qed.

(** X20: one picture, one size and one opacity serve every point.  When
    [images], [sizes] and [alphas] are single values, the picture can be
    opened and [X] and [Y] are equally long (and not empty, so that [max]
    returns), [plotImages] shows that picture once for each point
    [(X[i], Y[i])], in order, after the markers that set the limits.  It
    returns the axes it was given, or the one new figure. *)
Theorem plotImages_one_picture_for_all_points (X Y : list number) (p : path)
    (im : picture) (s al m : number) (a : axes) (c : canvas) :
  pil_open p = Ok im →
  py_max (replicate (length X) s) = Ok m →
  length X = length Y →
  let pics a := [(a, Markers X Y m); (a, KeepLimits)] ++
                zip_with (λ x y, (a, ImShow im al x y s)) X Y in
  let n := next_oid (plot c) in
  plotImages X Y (One p) (One s) (One al) (Some a) c =
    (Ok (HAxes a), Canvas (plot c) (shown c ++ pics a)) ∧
  plotImages X Y (One p) (One s) (One al) None c =
    (Ok (HFigure n),
     Canvas (PyPlot (S (S n)) (figures (plot c) ++ [n]) (drawn (plot c)))
       (shown c ++ pics (Axes (S n) n))).
Proof.
  intros Hp Hmax Hlen pics n.
  assert (∀ a', plotImages_shown a' X Y m (replicate (length X) s)
                  (replicate (length X) im) (replicate (length X) al)
                = pics a') as Hshown.
  { intros a'. unfold plotImages_shown. subst pics. cbv beta. f_equal.
    rewrite zip5_replicate; [|done].
    clear. revert Y. induction X as [|x X IH]; intros [|y Y]; simpl; try done.
    by rewrite IH. }
  split.
  - rewrite (plotImages_run X Y (One p) (One s) (One al) (Some a)
               (replicate (length X) im) m None a (plot c) c);
      [|by apply open_all_replicate|done|done|done].
    simpl. by rewrite Hshown.
  - rewrite (plotImages_run X Y (One p) (One s) (One al) None
               (replicate (length X) im) m (Some n) (Axes (S n) n)
               (PyPlot (S (S n)) (figures (plot c) ++ [n]) (drawn (plot c))) c);
      [|by apply open_all_replicate|done|done|done].
    simpl. by rewrite Hshown.
Qed.

(** X21: given sequences, [plotImages] stops with the shortest.  When
    the pictures can be opened, [max(sizes)] returns and [X] and [Y] are
    equally long, the call shows as many pictures as the shortest of
    [sizes], [images], [alphas] and [X] has entries, the [i]-th of them
    being [images[i]] at [(X[i], Y[i])] with [sizes[i]] and [alphas[i]];
    the points beyond get the invisible marker only, and no exception is
    raised. *)
Theorem plotImages_stops_with_shortest (X Y : list number)
    (images : list path) (sizes alphas : list number) (m : number)
    (ims : list picture) (a : axes) (c : canvas) :
  open_all images = Ok ims →
  py_max sizes = Ok m →
  length X = length Y →
  ∃ pics,
    plotImages X Y (Many images) (Many sizes) (Many alphas) (Some a) c =
      (Ok (HAxes a),
       Canvas (plot c)
         (shown c ++ [(a, Markers X Y m); (a, KeepLimits)] ++ pics)) ∧
    length pics =
      length sizes `min` (length images `min` (length alphas `min` length X)) ∧
    ∀ i, i < length pics →
      ∃ size p im alpha x y,
        sizes !! i = Some size ∧ images !! i = Some p ∧
        pil_open p = Ok im ∧ alphas !! i = Some alpha ∧
        X !! i = Some x ∧ Y !! i = Some y ∧
        pics !! i = Some (a, ImShow im alpha x y size).
Proof.
  intros Hopen Hmax Hlen.
  destruct (open_all_lookup images ims Hopen) as [Hims Hlook].
  exists ((λ '(size, im, alpha, x, y), (a, ImShow im alpha x y size))
            <$> zip5 sizes ims alphas X Y).
  split; [|split].
  - by rewrite (plotImages_run X Y (Many images) (Many sizes) (Many alphas)
                  (Some a) ims m None a (plot c) c).
  - rewrite length_fmap, length_zip5_min, Hims. lia.
  - intros i Hi. rewrite length_fmap, length_zip5_min, Hims in Hi.
    destruct (lookup_lt_is_Some_2 sizes i) as [size Hsize]; [lia|].
    destruct (lookup_lt_is_Some_2 images i) as [p Hpi]; [lia|].
    destruct (lookup_lt_is_Some_2 alphas i) as [alpha Halpha]; [lia|].
    destruct (lookup_lt_is_Some_2 X i) as [x Hx]; [lia|].
    destruct (lookup_lt_is_Some_2 Y i) as [y Hy]; [lia|].
    destruct (Hlook i p Hpi) as (im & Him & Hp).
    exists size, p, im, alpha, x, y. repeat (split; [done|]).
    rewrite list_lookup_fmap.
    by rewrite (zip5_lookup sizes ims alphas X Y i size im alpha x y).
Qed.

(** X22: no points and a single size.  With [X] empty and [sizes] left a
    single value (as by default), [sizes] becomes the empty tuple and
    [max(sizes)] raises at line 321: the call returns no empty plot.
    Nothing has been shown by then, but when no axes were supplied the
    figure of line 317 has been made already, and it is not handed
    back. *)
Theorem plotImages_without_points_raises (Y : list number) (images : arg path)
    (s : number) (alphas : arg number) (ax : option axes)
    (ims : list picture) (c : canvas) :
  open_all (broadcast 0 images) = Ok ims →
  ∃ e c',
    plotImages [] Y images (One s) alphas ax c = (Raise e, c') ∧
    py_max [] = Raise e ∧
    shown c' = shown c ∧
    figures (plot c') =
      match ax with
      | Some _ => figures (plot c)
      | None => figures (plot c) ++ [next_oid (plot c)]
      end.
Proof.
  intros Hopen. pose proof py_max_empty as Hmax.
  destruct (py_max []) as [m|e] eqn:Hm; [done|].
  unfold plotImages. cbn [length broadcast replicate].
  erewrite bind_ok; [|unfold lift; by rewrite Hopen].
  destruct ax as [a|].
  - erewrite bind_ok; [|reflexivity]. cbv beta iota.
    unfold bind, lift. rewrite Hm.
    exists e, (Canvas (plot c) (shown c)). done.
  - erewrite bind_ok; [|reflexivity]. cbv beta iota.
    unfold bind, lift. rewrite Hm.
    eexists e, _. done.
Qed.

(** X23: the pictures are opened before anything else is done.  When
    one of them cannot be opened, [plotImages] raises without having made
    a figure or shown anything, also for the points whose pictures are
    fine. *)
Theorem plotImages_unreadable_picture (X Y : list number) (images : arg path)
    (sizes alphas : arg number) (ax : option axes) (p : path) (e : exn)
    (c : canvas) :
  p ∈ broadcast (length X) images →
  pil_open p = Raise e →
  ∃ e', plotImages X Y images sizes alphas ax c = (Raise e', c).
Proof.
  intros Hin Hp.
  pose proof (open_all_unreadable _ p e Hin Hp) as Hraise.
  unfold plotImages, bind, lift.
  destruct (open_all (broadcast (length X) images)) as [ims|e']; [done|].
  by exists e'.
Qed.

End images_facts.

Section plot_more_examples.
Import Py Plot Demo Gallery.

(** A frame with two columns against an array, and a single unit: one
    figure, for the first column. *)
Lemma correlationPlot_figure_by_figure_witness :
  let Y := frame "Y" 3 ["a"; "b"] in
  let Yp := matrix "Yp" 3 2 in
  let its := [(column_item (values Y) 0, column_item Yp 0, Some "a", Some "m")] in
  length its = 1 ∧
  correlationPlot Y Yp None (Some [Some "m"]) (fresh 0) =
    (Ok [0],
     PyPlot 2 [0]
       (correlationPlot_drawn (Axes 1 0)
          (column_item (values Y) 0, column_item Yp 0, Some "a", Some "m"))).
Proof.
  intros Y Yp its.
  apply (correlationPlot_figure_by_figure Y Yp None (Some [Some "m"]) 3 2
           (fresh 0)); [reflexivity|reflexivity|lia].
Defined.

(** Four entries in a vector against four in a single row. *)
Lemma correlationPlot_single_series_witness :
  ∃ st', correlationPlot (vector "Y" 4) (matrix "Yp" 1 4) None None (fresh 0)
           = (Ok [0], st') ∧
         figures st' = [0].
Proof.
  apply (correlationPlot_single_series (vector "Y" 4) (matrix "Yp" 1 4)
           None None 4 (fresh 0));
    [by left|by right|lia|discriminate|discriminate|discriminate].
Defined.

(** Two predictors and one response. *)
Lemma plotResiduals_figure_per_predictor_witness :
  ∃ figs st',
    plotResiduals (matrix "X" 4 2) (matrix "Y" 4 1) (matrix "Yp" 4 1)
      None None None None (fresh 0) = (Ok figs, st') ∧
    length figs = 2 ∧
    figures st' = [] ++ figs.
Proof.
  eapply (plotResiduals_figure_per_predictor (matrix "X" 4 2) (matrix "Y" 4 1)
            (matrix "Yp" 4 1) None None None None _ 2 0 (fresh 0));
    [reflexivity|reflexivity|reflexivity|vm_compute; reflexivity
    |reflexivity|reflexivity].
Defined.

(** An array [X] of four rows and no column. *)
Lemma plotResiduals_without_predictors_witness :
  plotResiduals (matrix "X" 4 0) (matrix "Y" 4 1) (matrix "Yp" 4 1)
    None None None None (fresh 0) = (Ok [], fresh 0).
Proof.
  eapply (plotResiduals_without_predictors (matrix "X" 4 0) (matrix "Y" 4 1)
            (matrix "Yp" 4 1) None None None None _ (fresh 0));
    [reflexivity|reflexivity|vm_compute; reflexivity].
Defined.

(** Arrays [Y] and [Yp] of two rows and no column. *)
Lemma plotResiduals_without_responses_raises_witness :
  ∃ e st',
    plotResiduals (matrix "X" 2 1) (matrix "Y" 2 0) (matrix "Yp" 2 0)
      None None None None (fresh 0) = (Raise e, st') ∧
    kind e = UnboundLocalError ∧
    figures st' = [] ++ [0] ∧
    drawn st' = [].
Proof.
  eapply (plotResiduals_without_responses_raises (matrix "X" 2 1)
            (matrix "Y" 2 0) (matrix "Yp" 2 0) None None None None _ 0
            (fresh 0));
    [reflexivity|reflexivity|reflexivity|reflexivity|vm_compute; reflexivity].
Defined.

(** A frame with the single column [u]. *)
Lemma plotResiduals_DataFrame_raises_witness :
  ∃ e st',
    plotResiduals (frame "X" 2 ["u"]) (matrix "Y" 2 1) (matrix "Yp" 2 1)
      None None None None (fresh 0) = (Raise e, st') ∧
    kind e = LibraryError ∧
    figures st' = [] ++ [0] ∧
    drawn st' = [].
Proof.
  eapply (plotResiduals_DataFrame_raises (frame "X" 2 ["u"]) (matrix "Y" 2 1)
            (matrix "Yp" 2 1) None None None None _ ["u"] 2 0 (fresh 0));
    [reflexivity|reflexivity|discriminate|reflexivity|reflexivity
    |vm_compute; reflexivity].
Defined.

(** Two predictors in metres and seconds, one response in kilograms. *)
Lemma plotResiduals_labels_with_units_witness :
  let X := matrix "X" 4 2 in
  let Y := matrix "Y" 4 1 in
  let Yp := matrix "Yp" 4 1 in
  plotResiduals_checks X Y Yp (Some ["u"; "v"]) (Some ["m"; "s"])
    (Some ["a"]) (Some ["kg"]) (fresh 0) =
    (Ok (Checked X Y Yp ["u (m)"; "v (s)"] ["a Error (kg)"]), fresh 0).
Proof.
  intros X Y Yp.
  apply (plotResiduals_labels_with_units X Y Yp ["u"; "v"] ["m"; "s"]
           ["a"] ["kg"] (fresh 0));
    [discriminate|discriminate|reflexivity|reflexivity|reflexivity
    |reflexivity|reflexivity|reflexivity].
Defined.


(** Two points and one picture. *)
Lemma plotImages_one_picture_for_all_points_witness :
  let X := [1; 2]%Z in
  let Y := [3; 4]%Z in
  let pics a := [(a, Markers X Y 20%Z); (a, KeepLimits);
                 (a, ImShow "cat.png" 1%Z 1%Z 3%Z 20%Z);
                 (a, ImShow "cat.png" 1%Z 2%Z 4%Z 20%Z)] in
  plotImages X Y (One "cat.png") (One 20%Z) (One 1%Z) (Some (Axes 1 0))
    (blank 2) =
    (Ok (HAxes (Axes 1 0)), Canvas (PyPlot 2 [] []) (pics (Axes 1 0))) ∧
  plotImages X Y (One "cat.png") (One 20%Z) (One 1%Z) None (blank 2) =
    (Ok (HFigure 2), Canvas (PyPlot 4 [2] []) (pics (Axes 3 2))).
Proof.
  intros X Y pics.
  apply (@plotImages_one_picture_for_all_points imaging X Y "cat.png" "cat.png"
           20%Z 1%Z 20%Z (Axes 1 0) (blank 2));
    reflexivity.
Defined.

(** Three points, three sizes and opacities, two pictures. *)
Lemma plotImages_stops_with_shortest_witness :
  let X := [1; 2; 3]%Z in
  let Y := [4; 5; 6]%Z in
  let a := Axes 1 0 in
  ∃ pics,
    plotImages X Y (Many ["a.png"; "b.png"]) (Many [10; 30; 20]%Z)
      (Many [1; 1; 1]%Z) (Some a) (blank 2) =
      (Ok (HAxes a),
       Canvas (PyPlot 2 [] [])
         ([] ++ [(a, Markers X Y 30%Z); (a, KeepLimits)] ++ pics)) ∧
    length pics = 2 ∧
    ∀ i, i < length pics →
      ∃ size p im alpha x y,
        [10; 30; 20]%Z !! i = Some size ∧ ["a.png"; "b.png"] !! i = Some p ∧
        pil_open p = Ok im ∧ [1; 1; 1]%Z !! i = Some alpha ∧
        X !! i = Some x ∧ Y !! i = Some y ∧
        pics !! i = Some (a, ImShow im alpha x y size).
Proof.
  intros X Y a.
  apply (@plotImages_stops_with_shortest imaging X Y ["a.png"; "b.png"] [10; 30; 20]%Z
           [1; 1; 1]%Z 30%Z ["a.png"; "b.png"] a (blank 2));
    reflexivity.
Defined.

(** No points, and every argument left as it is by default. *)
Lemma plotImages_without_points_raises_witness :
  ∃ e c',
    plotImages [] [] (One "cat.png") (One 20%Z) (One 1%Z) None (blank 0)
      = (Raise e, c') ∧
    py_max [] = Raise e ∧
    shown c' = [] ∧
    figures (plot c') = [] ++ [0].
Proof.
  apply (@plotImages_without_points_raises imaging [] (One "cat.png") 20%Z (One 1%Z)
           None [] (blank 0)).
  reflexivity.
Defined.

(** Two points; the second picture cannot be opened. *)
Lemma plotImages_unreadable_picture_witness :
  ∃ e', plotImages [1; 2]%Z [3; 4]%Z (Many ["a.png"; ""]) (One 20%Z)
          (One 1%Z) None (blank 0) = (Raise e', blank 0).
Proof.
  apply (@plotImages_unreadable_picture imaging [1; 2]%Z [3; 4]%Z (Many ["a.png"; ""])
           (One 20%Z) (One 1%Z) None ""
           (Exn LibraryError "cannot identify image file" []) (blank 0));
    [|reflexivity].
  apply list_elem_of_In. simpl. right. left. reflexivity.
Defined.

End plot_more_examples.
